(** * generate-sbom.py: package attribution and SBOM graph construction

    A shallow embedding of [tools/sbom/generate-sbom.py].  Python strings are
    sequences of Unicode code points, exceptions are an error monad, the
    module-level dictionary [metadata_file_protos] is a finite map that is
    threaded through the calls, and the collaborators of the script
    (file system, METADATA reader, SHA-1, the Unicode tables behind
    [str.isalnum] and [str.lower]) are section variables. *)

From Stdlib Require Import NArith List Ascii String Lia.
From Stdlib Require Import Sorting.Permutation Sorting.Sorted.
From stdpp Require Import base option list gmap.

Local Open Scope N_scope.

(** ** Python values *)

(** A [str] is a list of code points. *)
Abbreviation pystr := (list N).

Fixpoint py (s : string) : list N :=
  match s with
  | EmptyString => []
  | String a s' => N_of_ascii a :: py s'
  end.

Definition ch (a : ascii) : N := N_of_ascii a.

(** Truth value of a string: [bool(s)]. *)
Definition truthy (s : pystr) : bool :=
  match s with [] => false | _ :: _ => true end.

Definition str_eqb (a b : pystr) : bool := bool_decide (a = b).

(** Exceptions the script can raise, and [Diverges] for a loop that never
    exits. *)
Inductive exn : Set :=
| KeyError | AttributeError | UnicodeEncodeError | OSError | ParseError
| Diverges.

Inductive result (A : Type) : Type :=
| Ok (a : A)
| Raise (e : exn).
Arguments Ok {A} a.
Arguments Raise {A} e.

#[export] Instance result_ret : MRet result := fun A a => Ok a.
#[export] Instance result_bind : MBind result := fun A B f m =>
  match m with Ok a => f a | Raise e => Raise e end.

(** ** String methods used by the script *)

Module Str.

(** [s.startswith(p)] *)
Fixpoint startswith (s p : pystr) {struct p} : bool :=
  match p, s with
  | [], _ => true
  | c :: p', d :: s' => (c =? d) && startswith s' p'
  | _ :: _, [] => false
  end.

(** [s.endswith(p)] *)
Definition endswith (s p : pystr) : bool := startswith (rev s) (rev p).

(** [s.removeprefix(p)] *)
Definition removeprefix (s p : pystr) : pystr :=
  if startswith s p then drop (length p) s else s.

(** [s.replace(a, b)] for one-character [a] and [b]. *)
Definition replace (s : pystr) (a b : N) : pystr :=
  map (fun c => if c =? a then b else c) s.

(** [s.lstrip(c)] and [s.rstrip(c)] for a one-character argument. *)
Fixpoint lstrip (s : pystr) (c : N) : pystr :=
  match s with
  | d :: s' => if d =? c then lstrip s' c else s
  | [] => []
  end.

Definition rstrip (s : pystr) (c : N) : pystr := rev (lstrip (rev s) c).

(** [s.split(c)[0]]: everything before the first [c]. *)
Fixpoint split_first (s : pystr) (c : N) : pystr :=
  match s with
  | d :: s' => if d =? c then [] else d :: split_first s' c
  | [] => []
  end.

(** [c in t] for a one-character [c]. *)
Definition char_in (c : N) (t : pystr) : bool := existsb (N.eqb c) t.

(** Lexicographic order on code points: [a <= b] on [str]. *)
Fixpoint leb (a b : pystr) : bool :=
  match a, b with
  | [], _ => true
  | _ :: _, [] => false
  | c :: a', d :: b' => (c <? d) || ((c =? d) && leb a' b')
  end.

(** ASCII part of [str.isalnum]. *)
Definition ascii_alnum (c : N) : bool :=
  ((48 <=? c) && (c <=? 57)) || ((65 <=? c) && (c <=? 90))
  || ((97 <=? c) && (c <=? 122)).

End Str.

(** ** [os.path] (posixpath) *)

Module OsPath.

Definition sep : N := ch "/".

(** On the reversed path: what is left from the last separator on. *)
Fixpoint from_sep (s : pystr) : pystr :=
  match s with
  | d :: s' => if d =? sep then s else from_sep s'
  | [] => []
  end.

(** On the reversed path: what precedes the last separator. *)
Fixpoint upto_sep (s : pystr) : pystr :=
  match s with
  | d :: s' => if d =? sep then [] else d :: upto_sep s'
  | [] => []
  end.

(** [head = p[:p.rfind('/') + 1]] and [p[p.rfind('/') + 1:]] *)
Definition head_of (p : pystr) : pystr := rev (from_sep (rev p)).
Definition basename (p : pystr) : pystr := rev (upto_sep (rev p)).

(** [head != sep * len(head)] *)
Definition all_sep (s : pystr) : bool := forallb (N.eqb sep) s.

Definition dirname (p : pystr) : pystr :=
  let head := head_of p in
  if truthy head && negb (all_sep head) then Str.rstrip head sep else head.

End OsPath.


(** ** UTF-8 and hexadecimal text *)

Module Utf8.

Definition is_surrogate (c : N) : bool := (0xD800 <=? c) && (c <=? 0xDFFF).

Definition cont (c : N) (k : N) : N := N.lor 0x80 (N.land (N.shiftr c k) 0x3F).

(** [c.encode('utf-8')] for one code point.  Code points range over
    [0 .. 0x10FFFF]; a lone surrogate cannot be encoded. *)
Definition encode_char (c : N) : result (list N) :=
  if c <? 0x80 then Ok [c]
  else if c <? 0x800 then Ok [N.lor 0xC0 (N.shiftr c 6); cont c 0]
  else if c <? 0x10000 then
    if is_surrogate c then Raise UnicodeEncodeError
    else Ok [N.lor 0xE0 (N.shiftr c 12); cont c 6; cont c 0]
  else if c <=? 0x10FFFF then
    Ok [N.lor 0xF0 (N.shiftr c 18); cont c 12; cont c 6; cont c 0]
  else Raise UnicodeEncodeError.

(** [s.encode('utf-8')] *)
Fixpoint encode (s : pystr) : result (list N) :=
  match s with
  | [] => Ok []
  | c :: s' => b ← encode_char c; bs ← encode s'; Ok (b ++ bs)
  end.

(** The code points [encode_char] accepts. *)
Definition encodable (c : N) : bool :=
  negb (is_surrogate c) && (c <=? 0x10FFFF).

Definition hex_digit (n : N) : N := if n <? 10 then 48 + n else 87 + n.

(** [bytes.hex()] *)
Definition hex (bs : list N) : pystr :=
  flat_map (fun b => [hex_digit (b / 16); hex_digit (b mod 16)]) bs.

End Utf8.

(** ** Records of the build's attribution table *)

(** One row of the SBOM metadata CSV, as [csv.DictReader] yields it: every
    field is a string. *)
Module FileMetadata.
Record t : Type := mk {
  installed_file : pystr;
  module_path : pystr;
  soong_module_type : pystr;
  is_prebuilt_make_module : pystr;
  product_copy_files : pystr;
  kernel_module_copy_files : pystr;
  is_platform_generated : pystr;
}.
End FileMetadata.

(** ** METADATA descriptors ([metadata_file_pb2]) *)

Module URL.
Record t : Type := mk { type : N; value : pystr }.
End URL.

Module SBOMRef.
Record t : Type := mk { url : pystr; checksum : pystr; element_id : pystr }.
End SBOMRef.

Module ThirdParty.
Record t : Type := mk {
  version : pystr;
  homepage : pystr;
  url : list URL.t;
  security_tag : list pystr;   (* [security.tag] *)
  sbom_ref : option SBOMRef.t; (* the [sbom] oneof; [None] when unset *)
}.
End ThirdParty.

Module Metadata.
Record t : Type := mk { name : pystr; third_party : ThirdParty.t }.
End Metadata.

(** ** The SBOM document ([sbom_data]) *)

Inductive RelationshipType : Set := VARIANT_OF | GENERATED_FROM.
Inductive PackageExternalRefCategory : Set := SECURITY.
Inductive PackageExternalRefType : Set := cpe22Type | cpe23Type.

Module PackageExternalRef.
Record t : Type := mk {
  category : PackageExternalRefCategory;
  type : PackageExternalRefType;
  locator : pystr;
}.
End PackageExternalRef.

Module Package.
Record t : Type := mk {
  id : pystr;
  name : pystr;
  version : option pystr;
  supplier : option pystr;
  download_location : option pystr;
  files_analyzed : bool;
  verification_code : option pystr;
  file_ids : list pystr;
  external_refs : list PackageExternalRef.t;
}.

Definition add_file_id (fid : pystr) (p : t) : t :=
  mk (id p) (name p) (version p) (supplier p) (download_location p)
     (files_analyzed p) (verification_code p) (file_ids p ++ [fid])
     (external_refs p).

Definition set_verification_code (code : pystr) (p : t) : t :=
  mk (id p) (name p) (version p) (supplier p) (download_location p)
     (files_analyzed p) (Some code) (file_ids p) (external_refs p).
End Package.

Module File.
Record t : Type := mk { id : pystr; name : pystr; checksum : pystr }.
End File.

Module Relationship.
Record t : Type := mk { id1 : pystr; relationship : RelationshipType; id2 : pystr }.
End Relationship.

Module DocumentExternalReference.
Record t : Type := mk { id : pystr; uri : pystr; checksum : pystr }.
End DocumentExternalReference.

Module Document.
Record t : Type := mk {
  name : pystr;
  namespace : pystr;
  creators : list pystr;
  packages : list Package.t;
  files : list File.t;
  relationships : list Relationship.t;
  external_refs : list DocumentExternalReference.t;
}.

Definition set_packages (ps : list Package.t) (d : t) : t :=
  mk (name d) (namespace d) (creators d) ps (files d) (relationships d)
     (external_refs d).

(** [doc.files.append(f)] *)
Definition append_file (f : File.t) (d : t) : t :=
  mk (name d) (namespace d) (creators d) (packages d) (files d ++ [f])
     (relationships d) (external_refs d).

(** Modelled from the spec: [sbom_data.Document.add_package] is not part of
    the script; the graph assembler keeps insertion order and preserves the
    first-seen package when an identifier recurs. *)
Definition add_package (p : Package.t) (d : t) : t :=
  if existsb (fun q => str_eqb (Package.id p) (Package.id q)) (packages d)
  then d
  else set_packages (packages d ++ [p]) d.

(** Modelled from the spec: [sbom_data.Document.add_relationship] is not
    part of the script; relationships accumulate in insertion order. *)
Definition add_relationship (r : Relationship.t) (d : t) : t :=
  mk (name d) (namespace d) (creators d) (packages d) (files d)
     (relationships d ++ [r]) (external_refs d).

(** Modelled from the spec: [sbom_data.Document.add_external_ref] is not
    part of the script; external references accumulate in insertion order. *)
Definition add_external_ref (r : DocumentExternalReference.t) (d : t) : t :=
  mk (name d) (namespace d) (creators d) (packages d) (files d)
     (relationships d) (external_refs d ++ [r]).

(** [product_package] is the object stored first in [doc.packages]; a
    mutation through the variable is a mutation of that element. *)
Definition product_package (d : t) : option Package.t := packages d !! 0%nat.

Definition update_product_package (f : Package.t → Package.t) (d : t) : t :=
  set_packages (alter f 0%nat (packages d)) d.
End Document.

(** ** The diagnostics report: a dict with six fixed keys *)

Module Report.
Record t : Type := mk {
  ISSUE_NO_METADATA : list pystr;
  ISSUE_NO_METADATA_FILE : list pystr;
  ISSUE_METADATA_FILE_INCOMPLETE : list pystr;
  ISSUE_UNKNOWN_SECURITY_TAG_TYPE : list pystr;
  ISSUE_INSTALLED_FILE_NOT_EXIST : list pystr;
  INFO_METADATA_FOUND_FOR_PACKAGE : list pystr;
}.

Definition empty : t := mk [] [] [] [] [] [].

Definition add_no_metadata (x : pystr) (r : t) : t :=
  mk (ISSUE_NO_METADATA r ++ [x]) (ISSUE_NO_METADATA_FILE r)
     (ISSUE_METADATA_FILE_INCOMPLETE r) (ISSUE_UNKNOWN_SECURITY_TAG_TYPE r)
     (ISSUE_INSTALLED_FILE_NOT_EXIST r) (INFO_METADATA_FOUND_FOR_PACKAGE r).

Definition add_no_metadata_file (x : pystr) (r : t) : t :=
  mk (ISSUE_NO_METADATA r) (ISSUE_NO_METADATA_FILE r ++ [x])
     (ISSUE_METADATA_FILE_INCOMPLETE r) (ISSUE_UNKNOWN_SECURITY_TAG_TYPE r)
     (ISSUE_INSTALLED_FILE_NOT_EXIST r) (INFO_METADATA_FOUND_FOR_PACKAGE r).

Definition add_incomplete (x : pystr) (r : t) : t :=
  mk (ISSUE_NO_METADATA r) (ISSUE_NO_METADATA_FILE r)
     (ISSUE_METADATA_FILE_INCOMPLETE r ++ [x])
     (ISSUE_UNKNOWN_SECURITY_TAG_TYPE r)
     (ISSUE_INSTALLED_FILE_NOT_EXIST r) (INFO_METADATA_FOUND_FOR_PACKAGE r).

Definition add_unknown_tag (x : pystr) (r : t) : t :=
  mk (ISSUE_NO_METADATA r) (ISSUE_NO_METADATA_FILE r)
     (ISSUE_METADATA_FILE_INCOMPLETE r)
     (ISSUE_UNKNOWN_SECURITY_TAG_TYPE r ++ [x])
     (ISSUE_INSTALLED_FILE_NOT_EXIST r) (INFO_METADATA_FOUND_FOR_PACKAGE r).

Definition add_not_exist (x : pystr) (r : t) : t :=
  mk (ISSUE_NO_METADATA r) (ISSUE_NO_METADATA_FILE r)
     (ISSUE_METADATA_FILE_INCOMPLETE r) (ISSUE_UNKNOWN_SECURITY_TAG_TYPE r)
     (ISSUE_INSTALLED_FILE_NOT_EXIST r ++ [x])
     (INFO_METADATA_FOUND_FOR_PACKAGE r).

Definition add_found (x : pystr) (r : t) : t :=
  mk (ISSUE_NO_METADATA r) (ISSUE_NO_METADATA_FILE r)
     (ISSUE_METADATA_FILE_INCOMPLETE r) (ISSUE_UNKNOWN_SECURITY_TAG_TYPE r)
     (ISSUE_INSTALLED_FILE_NOT_EXIST r)
     (INFO_METADATA_FOUND_FOR_PACKAGE r ++ [x]).
End Report.

(** ** Constants of the script *)

Definition PKG_SOURCE : pystr := py "SOURCE".
Definition PKG_UPSTREAM : pystr := py "UPSTREAM".
Definition PKG_PREBUILT : pystr := py "PREBUILT".
Definition NVD_CPE23 : pystr := py "NVD-CPE2.3:".

(** The allow-list of [is_soong_prebuilt_module]. *)
Definition soong_prebuilt_module_types : list pystr := map py
  [ "android_app_import"; "android_library_import"; "cc_prebuilt_binary";
    "cc_prebuilt_library"; "cc_prebuilt_library_headers";
    "cc_prebuilt_library_shared"; "cc_prebuilt_library_static";
    "cc_prebuilt_object"; "dex_import"; "java_import";
    "java_sdk_library_import"; "java_system_modules_import";
    "libclang_rt_prebuilt_library_static";
    "libclang_rt_prebuilt_library_shared"; "llvm_prebuilt_library_static";
    "ndk_prebuilt_object"; "ndk_prebuilt_shared_stl";
    "nkd_prebuilt_static_stl"; "prebuilt_apex";
    "prebuilt_bootclasspath_fragment"; "prebuilt_dsp"; "prebuilt_firmware";
    "prebuilt_kernel_modules"; "prebuilt_rfsa"; "prebuilt_root";
    "rust_prebuilt_dylib"; "rust_prebuilt_library"; "rust_prebuilt_rlib";
    "vndk_prebuilt_shared" ]%string.

(** ** Package classifier *)

Import FileMetadata.

Definition is_soong_prebuilt_module (file_metadata : FileMetadata.t) : bool :=
  truthy (soong_module_type file_metadata)
  && existsb (str_eqb (soong_module_type file_metadata))
       soong_prebuilt_module_types.

Definition is_prebuilt_package (file_metadata : FileMetadata.t) : bool :=
  if truthy (module_path file_metadata) then
    Str.startswith (module_path file_metadata) (py "prebuilts/")
    || is_soong_prebuilt_module file_metadata
    || truthy (is_prebuilt_make_module file_metadata)
  else if truthy (kernel_module_copy_files file_metadata)
          && negb (Str.startswith (kernel_module_copy_files file_metadata)
                     (py "ANDROID-GEN:"))
  then true
  else false.

Definition is_source_package (file_metadata : FileMetadata.t) : bool :=
  Str.startswith (module_path file_metadata) (py "external/")
  && negb (is_prebuilt_package file_metadata).

(** The condition tested by [installed_file_has_metadata]. *)
Definition no_metadata (m : FileMetadata.t) : bool :=
  negb (truthy (module_path m))
  && negb (truthy (product_copy_files m))
  && negb (truthy (kernel_module_copy_files m))
  && negb (truthy (is_platform_generated m))
  && negb (Str.endswith (installed_file m) (py ".fsv_meta")).

(** The verdict, and the report as the call leaves it. *)
Definition installed_file_has_metadata (installed_file_metadata : FileMetadata.t)
    (report : Report.t) : bool * Report.t :=
  if no_metadata installed_file_metadata
  then (false, Report.add_no_metadata (installed_file installed_file_metadata) report)
  else (true, report).

(** The branch of the [if]/[elif] chain of [main] that a file reaches once
    its File node is recorded (lines 486-526). *)
Inductive Branch : Set :=
| ForkPackage          (* is_source_package or is_prebuilt_package *)
| PlatformModule       (* module_path or is_platform_generated *)
| PlatformCopyFiles    (* product_copy_files *)
| PlatformFsvMeta      (* installed_file ends with .fsv_meta *)
| PlatformKernelGen    (* kernel_module_copy_files starts with ANDROID-GEN *)
| NoBranch.            (* the chain has no final else *)

Definition main_branch (m : FileMetadata.t) : Branch :=
  if is_source_package m || is_prebuilt_package m then ForkPackage
  else if truthy (module_path m) || truthy (is_platform_generated m)
  then PlatformModule
  else if truthy (product_copy_files m) then PlatformCopyFiles
  else if Str.endswith (installed_file m) (py ".fsv_meta") then PlatformFsvMeta
  else if Str.startswith (kernel_module_copy_files m) (py "ANDROID-GEN")
  then PlatformKernelGen
  else NoBranch.

(** The three categories of the classifier. *)
Inductive Category : Set := Source | Prebuilt | Platform.

Definition is_platform_branch (b : Branch) : bool :=
  match b with
  | PlatformModule | PlatformCopyFiles | PlatformFsvMeta | PlatformKernelGen => true
  | ForkPackage | NoBranch => false
  end.

Definition applies (c : Category) (m : FileMetadata.t) : bool :=
  match c with
  | Source => is_source_package m
  | Prebuilt => is_prebuilt_package m
  | Platform => is_platform_branch (main_branch m)
  end.

(** ** The script proper *)

(** State of a run of [main]: the document under construction, the
    module-level dictionary [metadata_file_protos], the report, and the
    METADATA files handed to [text_format.Parse] so far, oldest first. *)
Record State : Type := mkState {
  doc : Document.t;
  metadata_file_protos : gmap (list N) Metadata.t;
  report : Report.t;
  parsed : list pystr;
}.

(** [d[k]] on a dict. *)
Definition getitem {V} (d : gmap (list N) V) (k : pystr) : result V :=
  match d !! k with Some v => Ok v | None => Raise KeyError end.

(** ** A small build, used in the examples *)

Module Demo.

Definition build_version : pystr := py "14".
Definition product_mfr : pystr := py "Google".
Definition product_out_dir : pystr := py "out".

(** No letters or digits and no case mapping outside ASCII, and a stand-in
    for the digest. *)
Definition unicode_alnum (c : N) : bool := false.
Definition unicode_lower (c : N) : pystr := [c].
Definition sha1_hexdigest (data : list N) : pystr := Utf8.hex (take 4 data).

Definition VALUE_NONE : pystr := py "NONE".
Definition VALUE_NOASSERTION : pystr := py "NOASSERTION".
Definition SPDXID_PRODUCT : pystr := py "SPDXRef-PRODUCT".
Definition SPDXID_PLATFORM : pystr := py "SPDXRef-PLATFORM".
Definition PACKAGE_NAME_PRODUCT : pystr := py "PRODUCT".
Definition PACKAGE_NAME_PLATFORM : pystr := py "PLATFORM".
Definition HOMEPAGE : N := 1.

(** The product directory holds four files; the source tree has one
    METADATA file, in external/foo. *)
Definition islink (p : pystr) : bool := false.
Definition isfile (p : pystr) : bool :=
  existsb (str_eqb p)
    (map py [ "out/system/lib/liba.so"; "out/system/lib/libb.so";
              "out/system/bin/tool"; "out/system/bin/init" ]%string).
Definition path_exists (p : pystr) : bool :=
  str_eqb p (py "external/foo/METADATA").
Definition readlink (p : pystr) : pystr := [].
Definition read_binary (p : pystr) : result (list N) := Ok p.

Definition foo : Metadata.t :=
  Metadata.mk (py "Foo")
    (ThirdParty.mk (py "1.2") []
       [ URL.mk 3 (py "https://example.org/foo.git");
         URL.mk 1 (py "https://example.org/foo") ]
       [ py "NVD-CPE2.3:cpe:2.3:a:foo:bar:1.0";
         py "nvd-cpe2.3:cpe:2.3:a:foo:baz:2.0";
         py "NVD-CPE2.3:CPE:2.3:a:foo:qux:3.0" ]
       None).

Definition parse_metadata (p : pystr) : result Metadata.t :=
  if str_eqb p (py "external/foo/METADATA") then Ok foo else Raise OSError.

Definition row (installed_file module_path : string) : FileMetadata.t :=
  FileMetadata.mk (py installed_file) (py module_path) [] [] [] [] [].

Definition liba : FileMetadata.t := row "system/lib/liba.so" "external/foo".
Definition libb : FileMetadata.t := row "system/lib/libb.so" "external/foo/sub".
Definition tool : FileMetadata.t := row "system/bin/tool" "prebuilts/foo/bar".
Definition init : FileMetadata.t := row "system/bin/init" "system/core/init".
Definition stray : FileMetadata.t := row "system/etc/stray" "".
Definition lost : FileMetadata.t := row "system/lib/lost.so" "external/foo".

(** A prebuilt module with its own METADATA file, which refers to an SBOM
    tracked elsewhere, and a kernel module copied from the source tree. *)
Definition bar : Metadata.t :=
  Metadata.mk (py "prebuilts/Bar")
    (ThirdParty.mk [] [] [] [ py "NVD-CPE2.3:swid:bar" ]
       (Some (SBOMRef.mk (py "https://example.org/bar.spdx") (py "SHA1: 1234")
                (py "SPDXRef-bar")))).

Definition kmod : FileMetadata.t :=
  FileMetadata.mk (py "vendor/lib/modules/k.ko") [] [] [] []
    (py "device/acme/kernel/k.ko:vendor/lib/modules/k.ko") [].

Definition module_row : FileMetadata.t :=
  row "/system/bin/tool" "prebuilts/foo/bar".

Definition output_file : pystr := py "out/system/bin/tool.spdx".
Definition utc_now : pystr := py "2023-01-01T00:00:00Z".

End Demo.

(** The document of [generate_sbom_for_unbundled]: a [Document] together
    with the attributes [describes] and [created], which that function sets
    and the main pass leaves to the writers. *)
Module UnbundledDocument.
Record t : Type := mk {
  document : Document.t;
  describes : option pystr;
  created : option pystr;
}.
End UnbundledDocument.

Section Script.

(** Command line ([args]). *)
Variables build_version product_mfr product_out_dir : pystr.

(** The interpreter's Unicode tables outside ASCII. *)
Variable unicode_alnum : N → bool.
Variable unicode_lower : N → list N.

(** [hashlib.sha1(data).hexdigest()] *)
Variable sha1_hexdigest : list N → pystr.

(** Constants of [sbom_data] and of [metadata_file_pb2.URL.Type]. *)
Variables VALUE_NONE VALUE_NOASSERTION : pystr.
Variables SPDXID_PRODUCT SPDXID_PLATFORM : pystr.
Variables PACKAGE_NAME_PRODUCT PACKAGE_NAME_PLATFORM : pystr.
Variable HOMEPAGE : N.

(** The file system: [os.path.islink], [os.path.isfile], [os.path.exists],
    [os.readlink], and [open(p, 'rb').read()]. *)
Variables islink isfile path_exists : pystr → bool.
Variable readlink : pystr → pystr.
Variable read_binary : pystr → result (list N).

(** The external reader: [open(p, 'rt')] and [text_format.Parse] into a
    fresh [Metadata]. *)
Variable parse_metadata : pystr → result Metadata.t.

(** *** Identifier encoder *)

Definition isalnum (c : N) : bool :=
  if c <? 128 then Str.ascii_alnum c else unicode_alnum c.

(** One iteration of the loop of [encode_for_spdxid]. *)
Definition encode_step (acc : pystr) (c : N) : result pystr :=
  if isalnum c || Str.char_in c (py ".-") then Ok (acc ++ [c])
  else if Str.char_in c (py "_@/") then Ok (acc ++ py "-")
  else b ← Utf8.encode_char c; Ok (acc ++ py "0x" ++ Utf8.hex b).

Fixpoint encode_loop (s : pystr) (acc : pystr) : result pystr :=
  match s with
  | [] => Ok acc
  | c :: s' => acc' ← encode_step acc c; encode_loop s' acc'
  end.

Definition encode_for_spdxid (s : pystr) : result pystr :=
  r ← encode_loop s []; Ok (Str.lstrip r (ch "-")).

Definition new_package_id (package_name type : pystr) : result pystr :=
  e ← encode_for_spdxid package_name; Ok (py "SPDXRef-" ++ type ++ py "-" ++ e).

Definition new_file_id (file_path : pystr) : result pystr :=
  e ← encode_for_spdxid file_path; Ok (py "SPDXRef-" ++ e).

Definition checksum (file_path : pystr) : result pystr :=
  let file_path := product_out_dir ++ py "/" ++ file_path in
  data ← (if islink file_path then Utf8.encode (readlink file_path)
          else read_binary file_path);
  Ok (py "SHA1: " ++ sha1_hexdigest data).

(** *** Source and prebuilt package information *)

Definition lower_char (c : N) : pystr :=
  if (65 <=? c) && (c <=? 90) then [c + 32]
  else if c <? 128 then [c]
  else unicode_lower c.

(** [s.lower()] *)
Definition lower (s : pystr) : pystr := flat_map lower_char s.

Definition security_ref (type : PackageExternalRefType) (tag : pystr)
  : PackageExternalRef.t :=
  PackageExternalRef.mk SECURITY type (Str.removeprefix tag NVD_CPE23).

(** What one iteration over [security.tag] appends to [external_refs]. *)
Definition tag_external_refs (tag : pystr) : list PackageExternalRef.t :=
  if Str.startswith (lower tag) (lower (NVD_CPE23 ++ py "cpe:2.3:"))
  then [security_ref cpe23Type tag]
  else if Str.startswith (lower tag) (lower (NVD_CPE23 ++ py "cpe:/"))
  then [security_ref cpe22Type tag]
  else [].

Definition get_source_package_info
    (protos : gmap (list N) Metadata.t)
    (file_metadata : FileMetadata.t) (metadata_file_path : pystr)
  : result (pystr * list PackageExternalRef.t) :=
  if negb (truthy metadata_file_path) then Ok (module_path file_metadata, [])
  else
    metadata_proto ← getitem protos metadata_file_path;
    let external_refs :=
      flat_map tag_external_refs
        (ThirdParty.security_tag (Metadata.third_party metadata_proto)) in
    if truthy (Metadata.name metadata_proto)
    then Ok (Metadata.name metadata_proto, external_refs)
    else Ok (OsPath.basename metadata_file_path, external_refs).

(** The value of [name] when [get_prebuilt_package_name] reaches its
    [return]; [None] is Python's [None]. *)
Definition prebuilt_name_candidate
    (protos : gmap (list N) Metadata.t)
    (file_metadata : FileMetadata.t) (metadata_file_path : pystr)
  : result (option pystr) :=
  if truthy metadata_file_path then
    metadata_proto ← getitem protos metadata_file_path;
    if truthy (Metadata.name metadata_proto)
    then Ok (Some (Metadata.name metadata_proto))
    else Ok (Some metadata_file_path)
  else if truthy (module_path file_metadata)
  then Ok (Some (module_path file_metadata))
  else if truthy (kernel_module_copy_files file_metadata) then
    let src_path :=
      Str.split_first (kernel_module_copy_files file_metadata) (ch ":") in
    Ok (Some (OsPath.dirname src_path))
  else Ok None.

Definition get_prebuilt_package_name
    (protos : gmap (list N) Metadata.t)
    (file_metadata : FileMetadata.t) (metadata_file_path : pystr)
  : result pystr :=
  name ← prebuilt_name_candidate protos file_metadata metadata_file_path;
  match name with
  | None => Raise AttributeError
  | Some name =>
      Ok (Str.replace (Str.removeprefix name (py "prebuilts/")) (ch "/") (ch "-"))
  end.

(** *** Metadata resolver *)

(** The [while] loop of [get_metadata_file_path].  [os.path.dirname]
    strictly shortens a path unless the path consists of separators only,
    which it leaves as it is; [fuel] bounds the number of iterations. *)
Fixpoint walk_up (fuel : nat) (metadata_path : pystr) : result pystr :=
  if truthy metadata_path && negb (path_exists (metadata_path ++ py "/METADATA"))
  then match fuel with
       | O => Raise Diverges
       | S fuel => walk_up fuel (OsPath.dirname metadata_path)
       end
  else Ok metadata_path.

Definition get_metadata_file_path (file_metadata : FileMetadata.t)
  : result pystr :=
  let metadata_path :=
    if truthy (module_path file_metadata) then module_path file_metadata
    else if truthy (kernel_module_copy_files file_metadata) then
      OsPath.dirname
        (Str.split_first (kernel_module_copy_files file_metadata) (ch ":"))
    else [] in
  walk_up (length metadata_path) metadata_path.

Definition get_package_version (protos : gmap (list N) Metadata.t)
    (metadata_file_path : pystr) : result (option pystr) :=
  if negb (truthy metadata_file_path) then Ok None
  else
    metadata_proto ← getitem protos metadata_file_path;
    Ok (Some (ThirdParty.version (Metadata.third_party metadata_proto))).

Definition get_package_homepage (protos : gmap (list N) Metadata.t)
    (metadata_file_path : pystr) : result (option pystr) :=
  if negb (truthy metadata_file_path) then Ok None
  else
    metadata_proto ← getitem protos metadata_file_path;
    let third_party := Metadata.third_party metadata_proto in
    if truthy (ThirdParty.homepage third_party)
    then Ok (Some (ThirdParty.homepage third_party))
    else Ok (URL.value <$>
             List.find (fun url => URL.type url =? HOMEPAGE)
               (ThirdParty.url third_party)).

(** [sorted(urls, key=lambda url: url.type)]: a stable sort. *)
Fixpoint insert_url (u : URL.t) (l : list URL.t) : list URL.t :=
  match l with
  | [] => [u]
  | v :: l' =>
      if URL.type u <=? URL.type v then u :: l else v :: insert_url u l'
  end.

Definition sorted_urls (l : list URL.t) : list URL.t := foldr insert_url [] l.

Definition get_package_download_location (protos : gmap (list N) Metadata.t)
    (metadata_file_path : pystr) : result (option pystr) :=
  if negb (truthy metadata_file_path) then Ok None
  else
    metadata_proto ← getitem protos metadata_file_path;
    match sorted_urls (ThirdParty.url (Metadata.third_party metadata_proto)) with
    | [] => Ok None
    | u0 :: rest =>
        if negb (URL.type u0 =? HOMEPAGE) then Ok (Some (URL.value u0))
        else match rest with
             | u1 :: _ => Ok (Some (URL.value u1))
             | [] => Ok None
             end
    end.

(** *** Fragment builder *)

Definition organization (who : pystr) : pystr := py "Organization: " ++ who.

Definition get_sbom_fragments
    (protos : gmap (list N) Metadata.t)
    (installed_file_metadata : FileMetadata.t) (metadata_file_path : pystr)
  : result (option DocumentExternalReference.t
            * list Package.t * list Relationship.t) :=
  homepage ← get_package_homepage protos metadata_file_path;
  version ← get_package_version protos metadata_file_path;
  download_location ← get_package_download_location protos metadata_file_path;
  if is_source_package installed_file_metadata then
    '(name, external_refs) ←
      get_source_package_info protos installed_file_metadata metadata_file_path;
    source_package_id ← new_package_id name PKG_SOURCE;
    let source_package :=
      Package.mk source_package_id name (Some build_version)
        (Some (organization product_mfr)) (Some VALUE_NONE)
        false None [] external_refs in
    upstream_package_id ← new_package_id name PKG_UPSTREAM;
    let upstream_package :=
      Package.mk upstream_package_id name version
        (Some (match homepage with
               | Some h => if truthy h then organization h else VALUE_NOASSERTION
               | None => VALUE_NOASSERTION
               end))
        download_location false None [] [] in
    Ok (None, [source_package; upstream_package],
        [Relationship.mk source_package_id VARIANT_OF upstream_package_id])
  else if is_prebuilt_package installed_file_metadata then
    name ← get_prebuilt_package_name protos installed_file_metadata metadata_file_path;
    prebuilt_package_id ← new_package_id name PKG_PREBUILT;
    let prebuilt_package :=
      Package.mk prebuilt_package_id name (Some build_version)
        (Some (organization product_mfr)) (Some VALUE_NONE)
        false None [] [] in
    if truthy metadata_file_path then
      metadata_proto ← getitem protos metadata_file_path;
      match ThirdParty.sbom_ref (Metadata.third_party metadata_proto) with
      | Some sbom_ref =>
          let sbom_url := SBOMRef.url sbom_ref in
          let sbom_checksum := SBOMRef.checksum sbom_ref in
          let upstream_element_id := SBOMRef.element_id sbom_ref in
          if truthy sbom_url && truthy sbom_checksum && truthy upstream_element_id
          then
            e ← encode_for_spdxid name;
            let doc_ref_id := py "DocumentRef-" ++ PKG_UPSTREAM ++ py "-" ++ e in
            Ok (Some (DocumentExternalReference.mk doc_ref_id sbom_url sbom_checksum),
                [prebuilt_package],
                [Relationship.mk prebuilt_package_id VARIANT_OF
                   (doc_ref_id ++ py ":" ++ upstream_element_id)])
          else Ok (None, [prebuilt_package], [])
      | None => Ok (None, [prebuilt_package], [])
      end
    else Ok (None, [prebuilt_package], [])
  else Ok (None, [], []).

(** *** Integrity computer *)

(** [checksums.sort()] on strings. *)
Fixpoint insert_str (x : pystr) (l : list pystr) : list pystr :=
  match l with
  | [] => [x]
  | y :: l' => if Str.leb x y then x :: l else y :: insert_str x l'
  end.

Definition sort_strs (l : list pystr) : list pystr := foldr insert_str [] l.

Definition generate_package_verification_code (files : list File.t)
  : result pystr :=
  let checksums := map File.checksum files in
  let checksums := sort_strs checksums in
  data ← Utf8.encode (concat checksums);
  Ok (sha1_hexdigest data).

(** *** Reporting on a resolved METADATA file *)

Definition quoted (s : pystr) : pystr := [34] ++ s ++ [34].

Definition unknown_tag_message (metadata_file_path tag : pystr) : pystr :=
  py "Unknown security tag type: " ++ tag ++ py " in "
  ++ metadata_file_path ++ py "/METADATA".

Definition validate_tags (metadata_file_path : pystr) (tags : list pystr)
    (report : Report.t) : Report.t :=
  fold_left
    (fun report tag =>
       if negb (Str.startswith tag NVD_CPE23)
       then Report.add_unknown_tag
              (unknown_tag_message metadata_file_path tag) report
       else report)
    tags report.

Definition validate_metadata (metadata_file_path : pystr)
    (package_metadata : Metadata.t) (report : Report.t) : Report.t :=
  let report :=
    if negb (truthy (Metadata.name package_metadata))
    then Report.add_incomplete
           (metadata_file_path ++ py "/METADATA does not has " ++ quoted (py "name"))
           report
    else report in
  let report :=
    if negb (truthy (ThirdParty.version (Metadata.third_party package_metadata)))
    then Report.add_incomplete
           (metadata_file_path ++ py "/METADATA does not has "
            ++ quoted (py "third_party.version"))
           report
    else report in
  validate_tags metadata_file_path
    (ThirdParty.security_tag (Metadata.third_party package_metadata)) report.

Definition report_metadata_file (metadata_file_path : pystr)
    (installed_file_metadata : FileMetadata.t) (st : State) : result State :=
  if truthy metadata_file_path then
    let report :=
      Report.add_found
        (py "installed_file: " ++ installed_file installed_file_metadata
         ++ py ", module_path: " ++ module_path installed_file_metadata
         ++ py ", METADATA file: " ++ metadata_file_path ++ py "/METADATA")
        (report st) in
    package_metadata ← parse_metadata (metadata_file_path ++ py "/METADATA");
    let parsed := parsed st ++ [metadata_file_path ++ py "/METADATA"] in
    match metadata_file_protos st !! metadata_file_path with
    | None =>
        Ok (mkState (doc st)
              (<[metadata_file_path := package_metadata]> (metadata_file_protos st))
              (validate_metadata metadata_file_path package_metadata report)
              parsed)
    | Some _ => Ok (mkState (doc st) (metadata_file_protos st) report parsed)
    end
  else
    Ok (mkState (doc st) (metadata_file_protos st)
          (Report.add_no_metadata_file
             (py "installed_file: " ++ installed_file installed_file_metadata
              ++ py ", module_path: " ++ module_path installed_file_metadata)
             (report st))
          (parsed st)).

(** *** The main pass *)

Definition generated_from (file_id package_id : pystr) : Relationship.t :=
  Relationship.mk file_id GENERATED_FROM package_id.

Definition with_doc (d : Document.t) (st : State) : State :=
  mkState d (metadata_file_protos st) (report st) (parsed st).

Definition with_report (r : Report.t) (st : State) : State :=
  mkState (doc st) (metadata_file_protos st) r (parsed st).

(** Lines 492-502: the fragments of a fork package enter the document. *)
Definition add_fragments (file_id : pystr)
    (external_doc_ref : option DocumentExternalReference.t)
    (pkgs : list Package.t) (rels : list Relationship.t)
    (d : Document.t) : Document.t :=
  match pkgs with
  | [] => d
  | p0 :: _ =>
      let d := match external_doc_ref with
               | Some r => Document.add_external_ref r d
               | None => d
               end in
      let d := fold_left (fun d p => Document.add_package p d) pkgs d in
      let d := fold_left (fun d rel => Document.add_relationship rel d) rels d in
      let fork_package_id := Package.id p0 in
      Document.add_relationship (generated_from file_id fork_package_id) d
  end.

(** Lines 486-526: the file is attributed to a package. *)
Definition attribute_file (file_id : pystr)
    (installed_file_metadata : FileMetadata.t) (st : State) : result State :=
  match main_branch installed_file_metadata with
  | ForkPackage =>
      metadata_file_path ← get_metadata_file_path installed_file_metadata;
      st ← report_metadata_file metadata_file_path installed_file_metadata st;
      '(external_doc_ref, pkgs, rels) ←
        get_sbom_fragments (metadata_file_protos st) installed_file_metadata
          metadata_file_path;
      Ok (with_doc (add_fragments file_id external_doc_ref pkgs rels (doc st)) st)
  | PlatformModule | PlatformCopyFiles | PlatformFsvMeta | PlatformKernelGen =>
      Ok (with_doc
            (Document.add_relationship (generated_from file_id SPDXID_PLATFORM)
               (doc st)) st)
  | NoBranch => Ok st
  end.

(** Lines 481-484: the File node enters [doc.files] and the product
    package's [file_ids]. *)
Definition record_file (installed_file : pystr) (st : State)
  : result (pystr * State) :=
  file_id ← new_file_id installed_file;
  sum ← checksum installed_file;
  let d := Document.append_file (File.mk file_id installed_file sum) (doc st) in
  let d := Document.update_product_package (Package.add_file_id file_id) d in
  Ok (file_id, with_doc d st).

(** Whether the installed file is on disk (line 477). *)
Definition on_disk (installed_file : pystr) : bool :=
  let file_path := product_out_dir ++ py "/" ++ installed_file in
  islink file_path || isfile file_path.

(** One iteration of the loop over the rows of the metadata CSV. *)
Definition process_record (st : State) (installed_file_metadata : FileMetadata.t)
  : result State :=
  let file := installed_file installed_file_metadata in
  let '(ok, rep) :=
    installed_file_has_metadata installed_file_metadata (report st) in
  let st := with_report rep st in
  if negb ok then Ok st
  else if negb (on_disk file)
  then Ok (with_report (Report.add_not_exist file (report st)) st)
  else
    '(file_id, st) ← record_file file st;
    attribute_file file_id installed_file_metadata st.

Fixpoint scan (rows : list FileMetadata.t) (st : State) : result State :=
  match rows with
  | [] => Ok st
  | row :: rows => st ← process_record st row; scan rows st
  end.

(** The state in which [main] enters the loop. *)
Definition initial_state : State :=
  let product_package :=
    Package.mk SPDXID_PRODUCT PACKAGE_NAME_PRODUCT (Some build_version)
      (Some (organization product_mfr)) (Some VALUE_NONE) true None [] [] in
  let platform_package :=
    Package.mk SPDXID_PLATFORM PACKAGE_NAME_PLATFORM (Some build_version)
      (Some (organization product_mfr)) (Some VALUE_NONE) false None [] [] in
  mkState
    (Document.mk build_version
       (py "https://www.google.com/sbom/spdx/android/" ++ build_version)
       [organization product_mfr]
       [product_package; platform_package] [] [] [])
    ∅ Report.empty [].

(** [main] without [--unbundled], up to the point where the document is
    handed to the writers. *)
Definition main (rows : list FileMetadata.t) : result State :=
  st ← scan rows initial_state;
  code ← generate_package_verification_code (Document.files (doc st));
  Ok (with_doc
        (Document.update_product_package (Package.set_verification_code code)
           (doc st)) st).

(** *** Vocabulary of the properties *)

(** The character set of an SPDX identifier: [A-Za-z0-9.-]. *)
Definition spdx_char (c : N) : bool :=
  Str.ascii_alnum c || Str.char_in c (py ".-").

(** The characters the encoder copies. *)
Definition copied (c : N) : Prop :=
  (isalnum c || Str.char_in c (py ".-")) = true.

(** What [get_prebuilt_package_name] does to the name it has chosen. *)
Definition strip_prebuilts (name : pystr) : pystr :=
  Str.replace (Str.removeprefix name (py "prebuilts/")) (ch "/") (ch "-").

(** The candidates for the name of a prebuilt package in the order the
    specification words them: descriptor name, descriptor directory path,
    owning module path, kernel-module source directory. *)
Definition name_candidates (protos : gmap (list N) Metadata.t)
    (m : FileMetadata.t) (path : pystr) : list (option pystr) :=
  [ (if truthy path
     then md ← protos !! path;
          if truthy (Metadata.name md) then Some (Metadata.name md) else None
     else None);
    (if truthy path then Some path else None);
    (if truthy (module_path m) then Some (module_path m) else None);
    (if truthy (kernel_module_copy_files m)
     then Some (OsPath.dirname
                  (Str.split_first (kernel_module_copy_files m) (ch ":")))
     else None) ].

(** First match wins. *)
Definition first_match {A} (l : list (option A)) : option A :=
  head (omap id l).

(** A record whose File node [main] records: it has metadata and its
    installed file is on disk. *)
Definition recorded (m : FileMetadata.t) : bool :=
  negb (no_metadata m) && on_disk (installed_file m).

(** The metadata directory for which the main pass calls the external
    reader while it processes a record, if it does. *)
Definition resolves (m : FileMetadata.t) : option pystr :=
  if recorded m && (is_source_package m || is_prebuilt_package m) then
    match get_metadata_file_path m with
    | Ok d => if truthy d then Some d else None
    | Raise _ => None
    end
  else None.

Definition resolutions (rows : list FileMetadata.t) : list pystr :=
  omap resolves rows.

(** [f] is the File node of the record [m]. *)
Definition file_of (m : FileMetadata.t) (f : File.t) : Prop :=
  File.name f = installed_file m ∧
  new_file_id (installed_file m) = Ok (File.id f) ∧
  checksum (installed_file m) = Ok (File.checksum f).

(** [product_package.file_ids.append] for each of the files in turn. *)
Definition add_file_ids (fs : list File.t) (p : Package.t) : Package.t :=
  fold_left (λ p f, Package.add_file_id (File.id f) p) fs p.

(** How often the main pass has handed a METADATA file to the reader. *)
Definition parse_count (file : pystr) (st : State) : nat :=
  length (List.filter (str_eqb file) (parsed st)).

(** *** Unbundled modules *)

(** [args.output_file], and the text of
    [datetime.datetime.now(tz=datetime.timezone.utc).strftime(...)]. *)
Variable output_file : pystr.
Variable utc_now : pystr.

(** The loop of [generate_sbom_for_unbundled] over the rows of the
    metadata CSV: rows for other files are skipped, the first row of the
    module fills the document and ends the loop. *)
Fixpoint unbundled_scan (rows : list FileMetadata.t) (d : UnbundledDocument.t)
  : result UnbundledDocument.t :=
  match rows with
  | [] => Ok d
  | installed_file_metadata :: rows =>
      let file := installed_file installed_file_metadata in
      if negb (str_eqb output_file (product_out_dir ++ file ++ py ".spdx"))
      then unbundled_scan rows d
      else
        let module_path := module_path installed_file_metadata in
        package_id ← new_package_id module_path PKG_PREBUILT;
        let package :=
          Package.mk package_id module_path (Some build_version)
            (Some (organization product_mfr)) None false None [] [] in
        file_id ← new_file_id file;
        sum ← checksum file;
        let file := File.mk file_id file sum in
        let relationship := generated_from file_id package_id in
        let doc := Document.add_package package (UnbundledDocument.document d) in
        let doc := Document.append_file file doc in
        let doc := Document.add_relationship relationship doc in
        Ok (UnbundledDocument.mk doc (Some file_id) (Some utc_now))
  end.

(** [generate_sbom_for_unbundled], up to the point where the document is
    handed to the writer. *)
Definition generate_sbom_for_unbundled (rows : list FileMetadata.t)
  : result UnbundledDocument.t :=
  unbundled_scan rows
    (UnbundledDocument.mk
       (Document.mk build_version
          (py "https://www.google.com/sbom/spdx/android/" ++ build_version)
          [organization product_mfr] [] [] [] [])
       None None).

(** *** Vocabulary of the further properties *)

(** What the encoder makes of the characters it does not tell apart. *)
Definition sep_to_dash (c : N) : N :=
  if Str.char_in c (py "_@/") then ch "-" else c.

(** The directory at which [get_metadata_file_path] starts its search. *)
Definition start_dir (m : FileMetadata.t) : pystr :=
  if truthy (module_path m) then module_path m
  else if truthy (kernel_module_copy_files m) then
    OsPath.dirname (Str.split_first (kernel_module_copy_files m) (ch ":"))
  else [].

(** The ancestors of a directory, nearest first: the values the loop
    variable of [get_metadata_file_path] takes. *)
Definition ancestor (k : nat) (p : pystr) : pystr :=
  Nat.iter k OsPath.dirname p.

(** A record with metadata whose installed file is not on disk. *)
Definition missing (m : FileMetadata.t) : bool :=
  negb (no_metadata m) && negb (on_disk (installed_file m)).

(** The File node the main pass records for a row whose identifier and
    checksum can be computed. *)
Definition file_node (m : FileMetadata.t) : File.t :=
  File.mk
    (match new_file_id (installed_file m) with Ok i => i | Raise _ => [] end)
    (installed_file m)
    (match checksum (installed_file m) with Ok c => c | Raise _ => [] end).

(** A relationship whose endpoints are in the document: a file and a
    package for GENERATED_FROM; for VARIANT_OF a package and either a
    package or an element of an external document the document refers to. *)
Definition edge_resolved (d : Document.t) (r : Relationship.t) : Prop :=
  match Relationship.relationship r with
  | GENERATED_FROM =>
      Relationship.id1 r ∈ map File.id (Document.files d) ∧
      Relationship.id2 r ∈ map Package.id (Document.packages d)
  | VARIANT_OF =>
      Relationship.id1 r ∈ map Package.id (Document.packages d) ∧
      (Relationship.id2 r ∈ map Package.id (Document.packages d) ∨
       ∃ ref element_id,
         ref ∈ Document.external_refs d ∧
         Relationship.id2 r
         = DocumentExternalReference.id ref ++ py ":" ++ element_id)
  end.

(** The row of the metadata CSV that [generate_sbom_for_unbundled] looks
    for. *)
Definition is_module_row (m : FileMetadata.t) : bool :=
  str_eqb output_file (product_out_dir ++ installed_file m ++ py ".spdx").

(** The verification code stored in the product package of a state. *)
Definition product_verification_code (st : State) : option pystr :=
  p ← Document.product_package (doc st); Package.verification_code p.

(** * Properties *)

(** ** The error monad *)

Lemma bind_Ok {A B} (m : result A) (f : A → result B) b :
  m ≫= f = Ok b → ∃ a, m = Ok a ∧ f a = Ok b.
Proof. destruct m as [a|e]; simpl; [eauto | discriminate]. Qed.

(** ** Strings *)

Lemma startswith_app (s p q : pystr) :
  Str.startswith s (p ++ q) = true → Str.startswith s p = true.
Proof.
  revert s; induction p as [|c p IH]; intros s H; [done|].
  destruct s as [|d s]; simpl in *; [done|].
  apply andb_true_iff in H as [-> H]; simpl; eauto.
Qed.

Lemma startswith_spec (s p : pystr) :
  Str.startswith s p = true ↔ ∃ t, s = p ++ t.
Proof.
  revert s; induction p as [|c p IH]; intros s; simpl.
  - split; eauto.
  - destruct s as [|d s]; [split; [done | intros [t Ht]; discriminate]|].
    rewrite andb_true_iff, N.eqb_eq, IH. split.
    + intros [-> [t ->]]; eauto.
    + intros [t [= -> ->]]; eauto.
Qed.

Lemma lstrip_head (s : pystr) (c : N) : head (Str.lstrip s c) ≠ Some c.
Proof.
  induction s as [|d s IH]; simpl; [done|].
  destruct (d =? c) eqn:E; [done|].
  simpl; intros [= ->]. by rewrite N.eqb_refl in E.
Qed.

Lemma lstrip_fixed (s : pystr) (c : N) :
  head s ≠ Some c → Str.lstrip s c = s.
Proof.
  destruct s as [|d s]; simpl; [done|].
  destruct (d =? c) eqn:E; [|done].
  apply N.eqb_eq in E as ->. done.
Qed.

Lemma lstrip_Forall (P : N → Prop) (s : pystr) (c : N) :
  Forall P s → Forall P (Str.lstrip s c).
Proof.
  induction 1 as [|d s Hd Hs IH]; simpl; [constructor|].
  destruct (d =? c); [done | by constructor].
Qed.

Example dirname_nested : OsPath.dirname (py "external/foo/bar") = py "external/foo".
Proof. reflexivity. Qed.

Example dirname_plain : OsPath.dirname (py "foo") = [].
Proof. reflexivity. Qed.

Example dirname_root : OsPath.dirname (py "/") = py "/".
Proof. reflexivity. Qed.

Example dirname_doubled : OsPath.dirname (py "a//b") = py "a".
Proof. reflexivity. Qed.

Example basename_nested : OsPath.basename (py "external/foo/bar") = py "bar".
Proof. reflexivity. Qed.

(** ** Identifier encoder *)

Example encode_path :
  encode_for_spdxid (py "/system/lib64/lib_a@1 b.so")
  = Ok (py "system-lib64-lib-a-10x20b.so").
Proof. reflexivity. Qed.

(** U+00E9 is copied if the interpreter counts it as a letter and written
    as its two UTF-8 bytes otherwise; a lone surrogate cannot be written. *)
Example encode_latin (c : N) :
  c = 0xE9 →
  encode_for_spdxid [c]
  = Ok (if unicode_alnum c then [c] else py "0xc3a9").
Proof. intros ->. unfold encode_for_spdxid, encode_loop, encode_step, isalnum.
  cbn [N.ltb N.compare Pos.compare Pos.compare_cont].
  destruct (unicode_alnum 233); reflexivity.
Qed.

Example encode_surrogate :
  unicode_alnum 0xD800 = false →
  encode_for_spdxid [0xD800] = Raise UnicodeEncodeError.
Proof.
  intros H. unfold encode_for_spdxid, encode_loop, encode_step, isalnum.
  cbn [N.ltb N.compare Pos.compare Pos.compare_cont]. by rewrite H.
Qed.

Lemma spdx_char_copied (c : N) : spdx_char c = true → copied c.
Proof.
  unfold copied, spdx_char, isalnum. intros H.
  apply orb_true_iff in H as [H| ->]; [|by rewrite orb_true_r].
  assert ((c <? 128) = true) as ->; [|by rewrite H].
  apply N.ltb_lt. unfold Str.ascii_alnum in H.
  repeat (apply orb_true_iff in H as [H|H]);
    apply andb_true_iff in H as [_ H]; apply N.leb_le in H; lia.
Qed.

Lemma encode_loop_copied (s acc : pystr) :
  Forall copied s → encode_loop s acc = Ok (acc ++ s).
Proof.
  intros H; revert acc; induction H as [|c s Hc Hs IH]; intros acc; simpl.
  - by rewrite app_nil_r.
  - unfold encode_step. rewrite Hc. simpl.
    rewrite IH. by rewrite <- app_assoc.
Qed.

(** Bytes and their hexadecimal digits. *)

Lemma lor_below (a b n : N) : a < 2 ^ n → b < 2 ^ n → N.lor a b < 2 ^ n.
Proof.
  intros Ha Hb. destruct (N.eq_dec (N.lor a b) 0) as [->|Hne]; [lia|].
  apply N.log2_lt_pow2; [lia|]. rewrite N.log2_lor.
  assert (∀ x, x < 2 ^ n → x ≠ 0 → N.log2 x < n) as Hlog.
  { intros x Hx Hx0. apply N.log2_lt_pow2; lia. }
  destruct (N.eq_dec a 0) as [->|Ha0]; [rewrite N.lor_0_l in *; simpl|].
  - rewrite N.max_r by lia. by apply Hlog.
  - destruct (N.eq_dec b 0) as [->|Hb0].
    + rewrite N.max_l by (simpl; lia). by apply Hlog.
    + apply N.max_lub_lt; by apply Hlog.
Qed.

Lemma cont_byte (c k : N) : Utf8.cont c k < 256.
Proof.
  unfold Utf8.cont. apply (lor_below _ _ 8); [done|].
  change 0x3F with (N.ones 6). rewrite N.land_ones.
  pose proof (N.mod_upper_bound (N.shiftr c k) (2 ^ 6)). simpl in *. lia.
Qed.

Lemma lead_byte (m c k : N) :
  m < 256 → c < 2 ^ (k + 8) → N.lor m (N.shiftr c k) < 256.
Proof.
  intros Hm Hc. apply (lor_below _ _ 8); [done|].
  rewrite N.shiftr_div_pow2. apply N.Div0.div_lt_upper_bound.
  by rewrite <- N.pow_add_r.
Qed.

Lemma encode_char_bytes (c : N) (bs : list N) :
  Utf8.encode_char c = Ok bs → Forall (λ b, b < 256) bs.
Proof.
  unfold Utf8.encode_char.
  destruct (c <? 0x80) eqn:H1; [intros [= <-]; apply N.ltb_lt in H1|].
  { repeat constructor. lia. }
  destruct (c <? 0x800) eqn:H2; [intros [= <-]; apply N.ltb_lt in H2|].
  { repeat constructor; [|apply cont_byte].
    apply lead_byte; [done|]. simpl. lia. }
  destruct (c <? 0x10000) eqn:H3.
  { destruct (Utf8.is_surrogate c); [done|]. intros [= <-].
    apply N.ltb_lt in H3.
    repeat constructor; try apply cont_byte.
    apply lead_byte; [done|]. simpl. lia. }
  destruct (c <=? 0x10FFFF) eqn:H4; [|done]. intros [= <-].
  apply N.leb_le in H4.
  repeat constructor; try apply cont_byte.
  apply lead_byte; [done|]. simpl. lia.
Qed.

Lemma hex_digit_copied (n : N) : n < 16 → copied (Utf8.hex_digit n).
Proof.
  intros H. unfold copied, isalnum, Utf8.hex_digit.
  destruct (n <? 10) eqn:E.
  - apply N.ltb_lt in E.
    assert ((48 + n <? 128) = true) as -> by (apply N.ltb_lt; lia).
    unfold Str.ascii_alnum.
    assert ((48 <=? 48 + n) = true) as -> by (apply N.leb_le; lia).
    assert ((48 + n <=? 57) = true) as -> by (apply N.leb_le; lia). done.
  - apply N.ltb_ge in E.
    assert ((87 + n <? 128) = true) as -> by (apply N.ltb_lt; lia).
    unfold Str.ascii_alnum.
    assert ((97 <=? 87 + n) = true) as -> by (apply N.leb_le; lia).
    assert ((87 + n <=? 122) = true) as -> by (apply N.leb_le; lia).
    by rewrite !orb_true_r.
Qed.

Lemma hex_copied (bs : list N) :
  Forall (λ b, b < 256) bs → Forall copied (Utf8.hex bs).
Proof.
  unfold Utf8.hex. induction 1 as [|b bs Hb Hbs IH]; simpl; [constructor|].
  repeat constructor; [| |exact IH].
  - apply hex_digit_copied. apply N.Div0.div_lt_upper_bound. lia.
  - apply hex_digit_copied. apply N.mod_upper_bound. lia.
Qed.

(** Whatever the encoder appends is copied by a second pass. *)
Lemma encode_step_copied (acc : pystr) (c : N) (r : pystr) :
  encode_step acc c = Ok r → ∃ t, r = acc ++ t ∧ Forall copied t.
Proof.
  unfold encode_step.
  destruct (isalnum c || Str.char_in c (py ".-")) eqn:H1.
  { intros [= <-]. exists [c]. by repeat constructor. }
  destruct (Str.char_in c (py "_@/")).
  { intros [= <-]. exists (py "-"). by repeat constructor. }
  intros H. apply bind_Ok in H as (bs & Hbs & [= <-]).
  exists (py "0x" ++ Utf8.hex bs). split; [done|].
  apply Forall_app. split; [by repeat constructor|].
  by apply hex_copied, (encode_char_bytes c).
Qed.

Lemma encode_loop_output (s acc r : pystr) :
  encode_loop s acc = Ok r → ∃ t, r = acc ++ t ∧ Forall copied t.
Proof.
  revert acc; induction s as [|c s IH]; intros acc; simpl.
  - intros [= <-]. exists []. by rewrite app_nil_r.
  - intros H. apply bind_Ok in H as (acc' & Hstep & H).
    apply encode_step_copied in Hstep as (t1 & -> & Ht1).
    apply IH in H as (t2 & -> & Ht2).
    exists (t1 ++ t2). rewrite app_assoc. split; [done|].
    by apply Forall_app.
Qed.

Lemma encode_for_spdxid_copied (s : pystr) :
  Forall copied s → encode_for_spdxid s = Ok (Str.lstrip s (ch "-")).
Proof.
  intros H. unfold encode_for_spdxid. by rewrite (encode_loop_copied s [] H).
Qed.

(** The encoder is idempotent wherever it returns. *)
Lemma encode_fixed_point (s r : pystr) :
  encode_for_spdxid s = Ok r → encode_for_spdxid r = Ok r.
Proof.
  unfold encode_for_spdxid at 1. intros H.
  apply bind_Ok in H as (r0 & H & [= <-]).
  apply encode_loop_output in H as (t & -> & Ht). rewrite app_nil_l.
  rewrite encode_for_spdxid_copied by by apply lstrip_Forall.
  f_equal. apply lstrip_fixed, lstrip_head.
Qed.

(** The encoder returns unless a character it has to write in hexadecimal
    cannot be encoded in UTF-8. *)
Lemma encode_for_spdxid_total (s : pystr) :
  Forall (λ c, Utf8.encodable c = true) s → ∃ r, encode_for_spdxid s = Ok r.
Proof.
  intros H. unfold encode_for_spdxid.
  assert (∀ acc, ∃ r, encode_loop s acc = Ok r) as Hloop.
  { induction H as [|c s Hc Hs IH]; intros acc; simpl; [eauto|].
    assert (∃ acc', encode_step acc c = Ok acc') as [acc' ->]; [|apply IH].
    unfold encode_step.
    destruct (isalnum c || Str.char_in c (py ".-")); [eauto|].
    destruct (Str.char_in c (py "_@/")); [eauto|].
    assert (∃ bs, Utf8.encode_char c = Ok bs) as [bs ->]; [|simpl; eauto].
    unfold Utf8.encodable in Hc. apply andb_true_iff in Hc as [Hs1 Hs2].
    apply negb_true_iff in Hs1. unfold Utf8.encode_char.
    rewrite Hs1, Hs2. repeat case_match; eauto. }
  destruct (Hloop []) as [r ->]. simpl. eauto.
Qed.

(** C6. On a string over the character set [A-Za-z0-9.-] the identifier
    encoder returns the string without its leading dashes, and encoding
    that result again returns it unchanged (idempotence); and whatever the
    input, an identifier the encoder returns never begins with a dash and
    is a fixed point of the encoder.  The encoder returns whenever every
    character of the input can be encoded in UTF-8. *)
Theorem encode_for_spdxid_idempotent_no_leading_dash (s : pystr) :
  (∀ r, encode_for_spdxid s = Ok r →
        head r ≠ Some (ch "-") ∧ encode_for_spdxid r = Ok r) ∧
  (Forall (λ c, Utf8.encodable c = true) s → ∃ r, encode_for_spdxid s = Ok r) ∧
  (Forall (λ c, spdx_char c = true) s →
   ∃ r, encode_for_spdxid s = Ok r ∧ r = Str.lstrip s (ch "-") ∧
        encode_for_spdxid r = Ok r).
Proof.
  split; [|split; [apply encode_for_spdxid_total|]].
  - intros r H. split; [|by apply (encode_fixed_point s)].
    unfold encode_for_spdxid in H.
    apply bind_Ok in H as (r0 & _ & [= <-]). apply lstrip_head.
  - intros H. exists (Str.lstrip s (ch "-")).
    assert (encode_for_spdxid s = Ok (Str.lstrip s (ch "-"))) as Hs.
    { apply encode_for_spdxid_copied.
      eapply Forall_impl; [exact H|]. apply spdx_char_copied. }
    split; [exact Hs|]. split; [done|].
    by apply (encode_fixed_point s).
Qed.

(** ** Package classifier *)

Lemma source_not_prebuilt (m : FileMetadata.t) :
  is_source_package m && is_prebuilt_package m = false.
Proof.
  unfold is_source_package. destruct (is_prebuilt_package m); simpl.
  - by rewrite andb_false_r.
  - by rewrite andb_false_r.
Qed.

Lemma fork_branch (m : FileMetadata.t) :
  main_branch m = ForkPackage ↔ is_source_package m || is_prebuilt_package m = true.
Proof.
  unfold main_branch.
  destruct (is_source_package m || is_prebuilt_package m); [done|].
  split; [|done]. by repeat case_match.
Qed.

(** A record that has metadata and is neither source nor prebuilt falls
    into one of the four platform branches. *)
Lemma platform_catch_all (m : FileMetadata.t) :
  no_metadata m = false →
  is_source_package m = false → is_prebuilt_package m = false →
  is_platform_branch (main_branch m) = true.
Proof.
  unfold no_metadata, main_branch. intros Hmeta -> Hpre.
  cbn [orb]. rewrite Hpre. unfold is_prebuilt_package in Hpre.
  destruct (truthy (module_path m)); cbn [negb andb orb] in *; [done|].
  destruct (truthy (is_platform_generated m)); cbn [negb andb orb] in *; [done|].
  destruct (truthy (product_copy_files m)); cbn [negb andb orb] in *; [done|].
  destruct (Str.endswith (installed_file m) (py ".fsv_meta"));
    cbn [negb andb orb] in *; [done|].
  destruct (truthy (kernel_module_copy_files m)); cbn [negb andb orb] in *;
    [|done].
  destruct (Str.startswith (kernel_module_copy_files m) (py "ANDROID-GEN:")) eqn:E;
    cbn [negb andb orb] in *; [|done].
  by rewrite (startswith_app _ (py "ANDROID-GEN") (py ":") E).
Qed.

(** C2. A record that passes the has-metadata check belongs to exactly
    one of Source, Prebuilt and Platform: [is_source_package] and
    [is_prebuilt_package] are never both true, and a record that is neither
    reaches one platform branch of the chain in [main], and only one. *)
Theorem classification_total_exclusive (m : FileMetadata.t) (rep : Report.t) :
  fst (installed_file_has_metadata m rep) = true →
  (∃ c, applies c m = true ∧ ∀ c', applies c' m = true → c' = c) ∧
  is_source_package m && is_prebuilt_package m = false ∧
  (is_source_package m = false → is_prebuilt_package m = false →
   ∃ b, main_branch m = b ∧ is_platform_branch b = true ∧
        ∀ b', main_branch m = b' → b' = b).
Proof.
  intros Hmeta.
  assert (no_metadata m = false) as Hno.
  { unfold installed_file_has_metadata in Hmeta.
    by destruct (no_metadata m). }
  pose proof (source_not_prebuilt m) as Hexcl.
  pose proof (platform_catch_all m Hno) as Hplat.
  pose proof (fork_branch m) as Hfork.
  split; [|split; [done|]].
  - destruct (is_source_package m) eqn:Hs, (is_prebuilt_package m) eqn:Hp;
      simpl in *; try done.
    + exists Source. split; [done|]. intros [] H; simpl in H; try congruence.
      rewrite (proj2 Hfork eq_refl) in H. done.
    + exists Prebuilt. split; [done|]. intros [] H; simpl in H; try congruence.
      rewrite (proj2 Hfork eq_refl) in H. done.
    + exists Platform. split; [by apply Hplat|].
      intros [] H; simpl in H; congruence.
  - intros Hs Hp. exists (main_branch m).
    split; [done|]. split; [by apply Hplat|]. by intros b' <-.
Qed.

(** ** Integrity computer *)

Lemma leb_total (a b : pystr) : Str.leb a b = false → Str.leb b a = true.
Proof.
  revert b; induction a as [|c a IH]; intros [|d b]; simpl; try done.
  intros H. apply orb_false_iff in H as [H1 H2].
  apply N.ltb_ge in H1.
  destruct (d <? c) eqn:E; [done|]. apply N.ltb_ge in E.
  assert (c = d) as -> by lia. rewrite N.eqb_refl in *. simpl in *. eauto.
Qed.

Lemma leb_antisym (a b : pystr) :
  Str.leb a b = true → Str.leb b a = true → a = b.
Proof.
  revert b; induction a as [|c a IH]; intros [|d b]; simpl; try done.
  intros H1 H2.
  apply orb_true_iff in H1 as [H1|H1]; apply orb_true_iff in H2 as [H2|H2];
    rewrite ?andb_true_iff, ?N.ltb_lt, ?N.eqb_eq in *;
    try lia.
  destruct H1 as [-> H1], H2 as [_ H2]. f_equal; eauto.
Qed.

Lemma leb_trans (a b c : pystr) :
  Str.leb a b = true → Str.leb b c = true → Str.leb a c = true.
Proof.
  revert b c; induction a as [|x a IH]; intros [|y b] [|z c]; simpl; try done.
  intros H1 H2.
  apply orb_true_iff in H1 as [H1|H1]; apply orb_true_iff in H2 as [H2|H2];
    rewrite ?andb_true_iff, ?N.ltb_lt, ?N.eqb_eq in *;
    apply orb_true_iff; rewrite ?andb_true_iff, ?N.ltb_lt, ?N.eqb_eq.
  - left; lia.
  - left; lia.
  - left; lia.
  - right. destruct H1 as [-> H1], H2 as [-> H2]. eauto.
Qed.

Lemma insert_str_comm (x y : pystr) (l : list pystr) :
  insert_str x (insert_str y l) = insert_str y (insert_str x l).
Proof.
  induction l as [|z l IH]; simpl.
  - destruct (Str.leb x y) eqn:Hxy, (Str.leb y x) eqn:Hyx; try done.
    + by rewrite (leb_antisym x y).
    + by rewrite (leb_total x y Hxy) in Hyx.
  - destruct (Str.leb y z) eqn:Hyz, (Str.leb x z) eqn:Hxz; simpl;
      rewrite ?Hyz, ?Hxz.
    + destruct (Str.leb x y) eqn:Hxy, (Str.leb y x) eqn:Hyx; try done.
      * by rewrite (leb_antisym x y).
      * by rewrite (leb_total x y Hxy) in Hyx.
    + destruct (Str.leb x y) eqn:Hxy; [|done].
      by rewrite (leb_trans x y z) in Hxz.
    + destruct (Str.leb y x) eqn:Hyx; [|done].
      by rewrite (leb_trans y x z) in Hyz.
    + by rewrite IH.
Qed.

Lemma sort_strs_Permutation (l l' : list pystr) :
  Permutation l l' → sort_strs l = sort_strs l'.
Proof.
  unfold sort_strs. induction 1; simpl.
  - done.
  - by f_equal.
  - apply insert_str_comm.
  - congruence.
Qed.

Lemma insert_str_Permutation (x : pystr) (l : list pystr) :
  Permutation (x :: l) (insert_str x l).
Proof.
  induction l as [|y l IH]; simpl; [done|].
  destruct (Str.leb x y); [done|].
  rewrite perm_swap. by apply perm_skip.
Qed.

Lemma insert_str_Sorted (x : pystr) (l : list pystr) :
  Sorted (λ a b, Str.leb a b = true) l →
  Sorted (λ a b, Str.leb a b = true) (insert_str x l).
Proof.
  induction 1 as [|y l Hl IH Hy]; simpl; [by repeat constructor|].
  destruct (Str.leb x y) eqn:E; [by repeat constructor|].
  constructor; [done|].
  destruct l as [|z l]; simpl in *.
  - constructor. by apply leb_total.
  - destruct (Str.leb x z); constructor; [by apply leb_total|].
    by inversion Hy.
Qed.

(** [sort_strs] returns its argument rearranged in ascending order; for a
    total order on strings there is one such arrangement, whatever the
    sorting algorithm. *)
Lemma sort_strs_sorts (l : list pystr) :
  Permutation l (sort_strs l) ∧ Sorted (λ a b, Str.leb a b = true) (sort_strs l).
Proof.
  unfold sort_strs. induction l as [|x l [IHp IHs]]; simpl; [by split|].
  split; [|by apply insert_str_Sorted].
  rewrite <- insert_str_Permutation. by apply perm_skip.
Qed.

(** C3. The package verification code does not depend on the order of the
    file list: it is the hash of the files' checksum strings, sorted in
    lexicographic order and concatenated without a delimiter, and a
    permutation of the files sorts to the same sequence. *)
Theorem verification_code_permutation_invariant (files files' : list File.t) :
  Permutation files files' →
  generate_package_verification_code files
  = generate_package_verification_code files'
  ∧ ∃ checksums,
      Permutation (map File.checksum files) checksums ∧
      Sorted (λ a b, Str.leb a b = true) checksums ∧
      generate_package_verification_code files
      = (data ← Utf8.encode (concat checksums); Ok (sha1_hexdigest data)).
Proof.
  intros H. split.
  - unfold generate_package_verification_code.
    by rewrite (sort_strs_Permutation _ _ (Permutation_map File.checksum H)).
  - exists (sort_strs (map File.checksum files)).
    destruct (sort_strs_sorts (map File.checksum files)). done.
Qed.

(** ** Metadata resolver: the bound on the loop *)

Lemma from_sep_length (s : pystr) :
  (length (OsPath.from_sep s) ≤ length s)%nat ∧
  (length (OsPath.from_sep s) = length s → OsPath.from_sep s = s).
Proof.
  induction s as [|d s [IH1 IH2]]; simpl; [done|].
  destruct (d =? OsPath.sep); simpl; [done|]. split; [lia|]. intros H. lia.
Qed.

Lemma from_sep_head (s : pystr) :
  OsPath.from_sep s = [] ∨ ∃ t, OsPath.from_sep s = OsPath.sep :: t.
Proof.
  induction s as [|d s IH]; simpl; [by left|].
  destruct (d =? OsPath.sep) eqn:E; [|done].
  apply N.eqb_eq in E as ->. right. eauto.
Qed.

Lemma lstrip_length (s : pystr) (c : N) :
  (length (Str.lstrip s c) ≤ length s)%nat.
Proof.
  induction s as [|d s IH]; simpl; [done|].
  destruct (d =? c); simpl; lia.
Qed.

(** [os.path.dirname] shortens a path or leaves it as it is. *)
Lemma dirname_shorter_or_fixed (p : pystr) :
  (length (OsPath.dirname p) < length p)%nat ∨ OsPath.dirname p = p.
Proof.
  unfold OsPath.dirname, OsPath.head_of.
  destruct (from_sep_length (rev p)) as [Hle Heq].
  rewrite length_rev in Hle, Heq.
  assert ((length (rev (OsPath.from_sep (rev p))) < length p)%nat
          ∨ rev (OsPath.from_sep (rev p)) = p) as Hhead.
  { rewrite length_rev.
    destruct (decide (length (OsPath.from_sep (rev p)) = length p)) as [E|E];
      [right | left; lia].
    by rewrite (Heq E), rev_involutive. }
  destruct (truthy _ && negb _) eqn:Hcond; [left|exact Hhead].
  unfold Str.rstrip. rewrite rev_involutive, length_rev.
  destruct (from_sep_head (rev p)) as [E|[t E]]; rewrite E in *.
  - by simpl in Hcond.
  - cbn [Str.lstrip length] in *. rewrite N.eqb_refl.
    pose proof (lstrip_length t OsPath.sep). lia.
Qed.

Lemma walk_up_more_fuel (n k : nat) (p d : pystr) :
  walk_up n p = Ok d → walk_up (n + k) p = Ok d.
Proof.
  revert p; induction n as [|n IH]; intros p; simpl.
  - destruct (truthy p && negb _) eqn:E; [done|].
    intros [= <-]. destruct k; simpl; by rewrite E.
  - destruct (truthy p && negb _); [apply IH | done].
Qed.

(** When the fuel of [get_metadata_file_path] runs out, the loop of the
    script does not terminate: it has reached a nonempty path that
    [os.path.dirname] maps to itself and that has no METADATA file. *)
Lemma walk_up_diverges (n : nat) (p : pystr) :
  (length p ≤ n)%nat → walk_up n p = Raise Diverges →
  ∃ k q, q = Nat.iter k OsPath.dirname p ∧ truthy q = true ∧
         OsPath.dirname q = q ∧ path_exists (q ++ py "/METADATA") = false.
Proof.
  revert p; induction n as [|n IH]; intros p Hlen; simpl.
  - destruct p; [done | simpl in Hlen; lia].
  - destruct (truthy p && negb _) eqn:E; [|done]. intros H.
    apply andb_true_iff in E as [Hp He]. apply negb_true_iff in He.
    destruct (dirname_shorter_or_fixed p) as [Hshort|Hfix].
    + destruct (IH (OsPath.dirname p)) as (k & q & -> & Hq); [lia|done|].
      exists (S k), (Nat.iter (S k) OsPath.dirname p).
      split; [done|]. by rewrite Nat.iter_succ_r.
    + exists 0%nat, p. done.
Qed.

(** ** Fragment builder *)

Lemma getitem_Some {V} (d : gmap (list N) V) (k : pystr) (v : V) :
  d !! k = Some v → getitem d k = Ok v.
Proof. unfold getitem. by intros ->. Qed.

Lemma metadata_info_Ok (protos : gmap (list N) Metadata.t) (path : pystr) md :
  truthy path = true → protos !! path = Some md →
  get_package_version protos path
  = Ok (Some (ThirdParty.version (Metadata.third_party md))) ∧
  (∃ h, get_package_homepage protos path = Ok h) ∧
  (∃ l, get_package_download_location protos path = Ok l).
Proof.
  intros Hp Hmd.
  unfold get_package_version, get_package_homepage, get_package_download_location.
  rewrite Hp, (getitem_Some _ _ _ Hmd). cbn [negb mbind result_bind].
  split; [done|]. split.
  - destruct (truthy (ThirdParty.homepage _)); eauto.
  - destruct (sorted_urls _) as [|u0 [|u1 rest]]; [eauto|..];
      destruct (negb _); eauto.
Qed.

(** The fragments of a source package whose descriptor declares a name. *)
Lemma source_fragments (protos : gmap (list N) Metadata.t)
    (m : FileMetadata.t) (path : pystr) md (e : pystr) :
  is_source_package m = true →
  truthy path = true → protos !! path = Some md →
  truthy (Metadata.name md) = true →
  encode_for_spdxid (Metadata.name md) = Ok e →
  ∃ refs supplier location,
    get_sbom_fragments protos m path =
    Ok (None,
        [ Package.mk (py "SPDXRef-" ++ PKG_SOURCE ++ py "-" ++ e)
            (Metadata.name md) (Some build_version)
            (Some (organization product_mfr)) (Some VALUE_NONE)
            false None [] refs;
          Package.mk (py "SPDXRef-" ++ PKG_UPSTREAM ++ py "-" ++ e)
            (Metadata.name md)
            (Some (ThirdParty.version (Metadata.third_party md)))
            supplier location false None [] [] ],
        [ Relationship.mk (py "SPDXRef-" ++ PKG_SOURCE ++ py "-" ++ e)
            VARIANT_OF (py "SPDXRef-" ++ PKG_UPSTREAM ++ py "-" ++ e) ]).
Proof.
  intros Hsrc Hp Hmd Hname He.
  destruct (metadata_info_Ok protos path md Hp Hmd) as (Hv & [h Hh] & [l Hl]).
  unfold get_sbom_fragments. rewrite Hh, Hv, Hl, Hsrc.
  unfold get_source_package_info, new_package_id.
  rewrite Hp, (getitem_Some _ _ _ Hmd). cbn [negb mbind result_bind].
  rewrite Hname. cbn [negb mbind result_bind].
  rewrite He. cbn [negb mbind result_bind]. eauto.
Qed.

(** C4. A source-classified record whose resolved descriptor declares the
    name Foo and the version 1.2 yields exactly two packages, the SOURCE
    package Foo at the build version and the UPSTREAM package Foo at
    version 1.2, and one VARIANT_OF relationship from the first to the
    second. *)
Theorem source_fragment_foo (protos : gmap (list N) Metadata.t)
    (m : FileMetadata.t) (path : pystr) (md : Metadata.t) :
  is_source_package m = true →
  truthy path = true → protos !! path = Some md →
  Metadata.name md = py "Foo" →
  ThirdParty.version (Metadata.third_party md) = py "1.2" →
  ∃ source upstream,
    get_sbom_fragments protos m path =
    Ok (None, [source; upstream],
        [Relationship.mk (Package.id source) VARIANT_OF (Package.id upstream)]) ∧
    Package.id source = py "SPDXRef-SOURCE-Foo" ∧
    Package.name source = py "Foo" ∧
    Package.version source = Some build_version ∧
    Package.id upstream = py "SPDXRef-UPSTREAM-Foo" ∧
    Package.name upstream = py "Foo" ∧
    Package.version upstream = Some (py "1.2").
Proof.
  intros Hsrc Hp Hmd Hname Hver.
  destruct (source_fragments protos m path md (py "Foo") Hsrc Hp Hmd)
    as (refs & supplier & location & H).
  { by rewrite Hname. }
  { rewrite Hname. by vm_compute. }
  rewrite Hname, Hver in H.
  match type of H with _ = Ok (_, [?s; ?u], _) => exists s, u end.
  split; [exact H|]. repeat split; reflexivity.
Qed.

Lemma prebuilt_name_first_match (protos : gmap (list N) Metadata.t)
    (m : FileMetadata.t) (path : pystr) :
  (truthy path = true → is_Some (protos !! path)) →
  get_prebuilt_package_name protos m path =
  match first_match (name_candidates protos m path) with
  | Some name => Ok (strip_prebuilts name)
  | None => Raise AttributeError
  end.
Proof.
  intros Hpath.
  unfold get_prebuilt_package_name, prebuilt_name_candidate, first_match,
    name_candidates, getitem.
  destruct (truthy path) eqn:Hp.
  - destruct (Hpath eq_refl) as [md ->]. cbn [mbind result_bind option_bind].
    by destruct (truthy (Metadata.name md)).
  - destruct (truthy (module_path m)); [done|].
    by destruct (truthy (kernel_module_copy_files m)).
Qed.

(** C5. Without a descriptor, a record whose owning module path is
    prebuilts/foo/bar is prebuilt-classified and yields exactly one
    package, the PREBUILT package foo-bar, at the build version and with
    the download location withheld; in general the name is the first of
    descriptor name, descriptor directory, module path and kernel-module
    source directory that is present, with the prefix prebuilts/ removed
    and every separator replaced by a dash. *)
Theorem prebuilt_fragment_and_name (protos : gmap (list N) Metadata.t)
    (m : FileMetadata.t) :
  (module_path m = py "prebuilts/foo/bar" →
   is_source_package m = false ∧ is_prebuilt_package m = true ∧
   get_sbom_fragments protos m [] =
   Ok (None,
       [ Package.mk (py "SPDXRef-PREBUILT-foo-bar") (py "foo-bar")
           (Some build_version) (Some (organization product_mfr))
           (Some VALUE_NONE) false None [] [] ],
       [])) ∧
  (∀ path, (truthy path = true → is_Some (protos !! path)) →
   get_prebuilt_package_name protos m path =
   match first_match (name_candidates protos m path) with
   | Some name => Ok (strip_prebuilts name)
   | None => Raise AttributeError
   end).
Proof.
  split; [|apply prebuilt_name_first_match].
  destruct m as [f mp smt mk pcf kcf gen]. cbn [module_path]. intros ->.
  repeat split; by vm_compute.
Qed.

(** ** Totality of the prebuilt name *)

Lemma report_metadata_file_stores (path : pystr) (m : FileMetadata.t)
    (st st' : State) :
  report_metadata_file path m st = Ok st' →
  truthy path = true → is_Some (metadata_file_protos st' !! path).
Proof.
  unfold report_metadata_file. intros H Hp. rewrite Hp in H.
  apply bind_Ok in H as (md & _ & H).
  destruct (metadata_file_protos st !! path) eqn:E; injection H as <-; simpl.
  - by rewrite E.
  - by rewrite lookup_insert_eq.
Qed.

Lemma prebuilt_candidate_bound (protos : gmap (list N) Metadata.t)
    (m : FileMetadata.t) (path : pystr) :
  is_prebuilt_package m = true →
  prebuilt_name_candidate protos m path ≠ Ok None.
Proof.
  unfold is_prebuilt_package, prebuilt_name_candidate. intros Hpre.
  destruct (truthy path).
  - destruct (getitem protos path) as [md|]; cbn [mbind result_bind]; [|done].
    by destruct (truthy (Metadata.name md)).
  - destruct (truthy (module_path m)); [done|].
    by destruct (truthy (kernel_module_copy_files m)).
Qed.

Lemma homepage_Ok_path (protos : gmap (list N) Metadata.t) (path : pystr) h :
  get_package_homepage protos path = Ok h →
  truthy path = true → is_Some (protos !! path).
Proof.
  unfold get_package_homepage, getitem. intros H Hp. rewrite Hp in H.
  destruct (protos !! path); [eauto | done].
Qed.

(** C9. For a prebuilt-classified record [get_prebuilt_package_name]
    never reaches its [return] with [name] still [None], whatever the
    resolved path, so [removeprefix] is never called on [None]; and it
    returns a name whenever the resolved path is empty or a key of
    [metadata_file_protos].  That is so wherever the script calls it: after
    [report_metadata_file], and after the lookup of the homepage with which
    [get_sbom_fragments] begins. *)
Theorem prebuilt_name_total (m : FileMetadata.t) :
  is_prebuilt_package m = true →
  (∀ protos path, prebuilt_name_candidate protos m path ≠ Ok None) ∧
  (∀ protos path, get_prebuilt_package_name protos m path ≠ Raise AttributeError) ∧
  (∀ protos path, (truthy path = true → is_Some (protos !! path)) →
     ∃ name, get_prebuilt_package_name protos m path = Ok name) ∧
  (∀ st st' path, report_metadata_file path m st = Ok st' →
     ∃ name, get_prebuilt_package_name (metadata_file_protos st') m path = Ok name) ∧
  (∀ protos path h, get_package_homepage protos path = Ok h →
     ∃ name, get_prebuilt_package_name protos m path = Ok name).
Proof.
  intros Hpre.
  assert (∀ protos path, (truthy path = true → is_Some (protos !! path)) →
            ∃ name, get_prebuilt_package_name protos m path = Ok name) as Htotal.
  { intros protos path Hpath.
    pose proof (prebuilt_candidate_bound protos m path Hpre) as Hbound.
    unfold get_prebuilt_package_name, prebuilt_name_candidate in *.
    destruct (truthy path).
    - destruct (Hpath eq_refl) as [md Hmd].
      rewrite (getitem_Some _ _ _ Hmd). cbn [mbind result_bind].
      destruct (truthy (Metadata.name md)); cbn [mbind result_bind]; eauto.
    - destruct (truthy (module_path m)); cbn [mbind result_bind]; [eauto|].
      destruct (truthy (kernel_module_copy_files m));
        cbn [mbind result_bind]; [eauto|done]. }
  split; [intros; by apply prebuilt_candidate_bound|].
  split; [|split; [done|split]].
  - intros protos path.
    pose proof (prebuilt_candidate_bound protos m path Hpre) as Hbound.
    unfold get_prebuilt_package_name.
    destruct (prebuilt_name_candidate protos m path) as [[name|]|e] eqn:E;
      cbn [mbind result_bind]; try done.
    intros [= ->]. revert E. unfold prebuilt_name_candidate, getitem.
    destruct (truthy path).
    + destruct (protos !! path) as [md|]; cbn [mbind result_bind]; [|done].
      by destruct (truthy (Metadata.name md)).
    + destruct (truthy (module_path m)); [done|].
      by destruct (truthy (kernel_module_copy_files m)).
  - intros st st' path H. apply Htotal.
    by apply (report_metadata_file_stores path m st st').
  - intros protos path h H. apply Htotal. by apply (homepage_Ok_path _ _ h).
Qed.

(** ** The main pass *)

Lemma no_metadata_skipped (st : State) (m : FileMetadata.t) :
  no_metadata m = true →
  process_record st m =
  Ok (with_report (Report.add_no_metadata (installed_file m) (report st)) st).
Proof.
  intros H. unfold process_record, installed_file_has_metadata. by rewrite H.
Qed.

(** C7. A record without module path, product-copy entry, kernel-module
    copy entry and platform-generated flag, whose installed path does not
    end in .fsv_meta, is appended to the no-metadata category of the report
    and leaves the document as it was: no File node, no package, no
    relationship. *)
Theorem no_metadata_record_contributes_nothing (st : State) (m : FileMetadata.t) :
  truthy (module_path m) = false →
  truthy (product_copy_files m) = false →
  truthy (kernel_module_copy_files m) = false →
  truthy (is_platform_generated m) = false →
  Str.endswith (installed_file m) (py ".fsv_meta") = false →
  ∃ st', process_record st m = Ok st' ∧
    Report.ISSUE_NO_METADATA (report st')
    = Report.ISSUE_NO_METADATA (report st) ++ [installed_file m] ∧
    doc st' = doc st ∧
    metadata_file_protos st' = metadata_file_protos st ∧
    parsed st' = parsed st.
Proof.
  intros H1 H2 H3 H4 H5. eexists. split.
  - apply no_metadata_skipped. unfold no_metadata.
    by rewrite H1, H2, H3, H4, H5.
  - done.
Qed.

(** *** What the graph assembler leaves alone *)

Lemma add_package_files (p : Package.t) (d : Document.t) :
  Document.files (Document.add_package p d) = Document.files d.
Proof. unfold Document.add_package. by destruct (existsb _ _). Qed.

Lemma add_package_product (p : Package.t) (d : Document.t) :
  is_Some (Document.product_package d) →
  Document.product_package (Document.add_package p d)
  = Document.product_package d.
Proof.
  unfold Document.add_package, Document.product_package. intros [q Hq].
  destruct (existsb _ _); [done|]. simpl.
  by rewrite (lookup_app_l_Some _ _ _ _ Hq).
Qed.

Lemma add_packages_keep (ps : list Package.t) (d : Document.t) :
  let d' := fold_left (λ d p, Document.add_package p d) ps d in
  Document.files d' = Document.files d ∧
  (is_Some (Document.product_package d) →
   Document.product_package d' = Document.product_package d).
Proof.
  revert d; induction ps as [|p ps IH]; intros d; simpl; [done|].
  destruct (IH (Document.add_package p d)) as [Hf Hp]. split.
  - by rewrite Hf, add_package_files.
  - intros Hd. rewrite Hp; rewrite add_package_product; done.
Qed.

Lemma add_relationships_keep (rels : list Relationship.t) (d : Document.t) :
  let d' := fold_left (λ d rel, Document.add_relationship rel d) rels d in
  Document.files d' = Document.files d ∧
  Document.packages d' = Document.packages d.
Proof.
  revert d; induction rels as [|r rels IH]; intros d; simpl; [done|].
  destruct (IH (Document.add_relationship r d)) as [-> ->]. done.
Qed.

Lemma add_fragments_keeps fid e (pkgs : list Package.t) rels (d : Document.t) :
  let d' := add_fragments fid e pkgs rels d in
  Document.files d' = Document.files d ∧
  (is_Some (Document.product_package d) →
   Document.product_package d' = Document.product_package d).
Proof.
  unfold add_fragments. destruct pkgs as [|p0 pkgs]; [done|].
  set (d1 := match e with Some r => Document.add_external_ref r d | None => d end).
  assert (Document.files d1 = Document.files d ∧
          Document.packages d1 = Document.packages d) as [Hf1 Hp1].
  { subst d1. by destruct e. }
  set (d2 := fold_left _ (p0 :: pkgs) d1).
  destruct (add_packages_keep (p0 :: pkgs) d1) as [Hf2 Hp2]. fold d2 in Hf2, Hp2.
  set (d3 := fold_left _ rels d2).
  destruct (add_relationships_keep rels d2) as [Hf3 Hp3]. fold d3 in Hf3, Hp3.
  split.
  { cbn [Document.add_relationship Document.files]. by rewrite Hf3, Hf2, Hf1. }
  intros Hd.
  assert (Document.product_package d1 = Document.product_package d) as Hd1.
  { unfold Document.product_package. by rewrite Hp1. }
  rewrite <- Hd1, <- Hp2 by by rewrite Hd1.
  unfold Document.product_package at 1.
  cbn [Document.add_relationship Document.packages]. by rewrite Hp3.
Qed.

(** *** What reporting on a METADATA file changes *)

Lemma report_metadata_file_spec (path : pystr) (m : FileMetadata.t)
    (st st' : State) :
  report_metadata_file path m st = Ok st' →
  doc st' = doc st ∧
  parsed st' = parsed st ++ (if truthy path then [path ++ py "/METADATA"] else []) ∧
  (∀ d md, metadata_file_protos st !! d = Some md →
           metadata_file_protos st' !! d = Some md).
Proof.
  unfold report_metadata_file. destruct (truthy path).
  - intros H. apply bind_Ok in H as (md & _ & H).
    destruct (metadata_file_protos st !! path) eqn:E; injection H as <-; simpl.
    + done.
    + repeat split; [done..|]. intros d md' Hd.
      rewrite lookup_insert_ne; [done|]. intros ->. congruence.
  - intros [= <-]; simpl. by rewrite app_nil_r.
Qed.

Lemma attribute_file_spec (fid : pystr) (m : FileMetadata.t) (st st' : State) :
  attribute_file fid m st = Ok st' →
  Document.files (doc st') = Document.files (doc st) ∧
  (is_Some (Document.product_package (doc st)) →
   Document.product_package (doc st') = Document.product_package (doc st)) ∧
  parsed st' = parsed st ++
    (if is_source_package m || is_prebuilt_package m then
       match get_metadata_file_path m with
       | Ok d => if truthy d then [d ++ py "/METADATA"] else []
       | Raise _ => []
       end
     else []) ∧
  (∀ d md, metadata_file_protos st !! d = Some md →
           metadata_file_protos st' !! d = Some md) ∧
  (is_source_package m || is_prebuilt_package m = true →
   ∀ d, get_metadata_file_path m = Ok d → truthy d = true →
        is_Some (metadata_file_protos st' !! d)).
Proof.
  unfold attribute_file, main_branch.
  destruct (is_source_package m || is_prebuilt_package m) eqn:Hfork.
  - intros H.
    apply bind_Ok in H as (path & Hpath & H). rewrite Hpath.
    apply bind_Ok in H as (st1 & Hrep & H).
    apply bind_Ok in H as ([[e pkgs] rels] & _ & [= <-]).
    destruct (report_metadata_file_spec _ _ _ _ Hrep) as (Hdoc & Hparsed & Hkeep).
    destruct (add_fragments_keeps fid e pkgs rels (doc st1)) as [Hf Hp].
    cbn [with_doc doc parsed metadata_file_protos]. rewrite <- Hdoc.
    repeat split; try done.
    intros _ d [= <-] Hd.
    by apply (report_metadata_file_stores path m st st1).
  - cbv iota.
    destruct (truthy (module_path m) || truthy (is_platform_generated m));
      [|destruct (truthy (product_copy_files m));
        [|destruct (Str.endswith (installed_file m) (py ".fsv_meta"));
          [|destruct (Str.startswith (kernel_module_copy_files m)
                        (py "ANDROID-GEN"))]]];
      intros [= <-]; cbn [with_doc doc parsed metadata_file_protos];
      rewrite app_nil_r; repeat split; done.
Qed.

(** *** One iteration *)

Lemma record_file_spec (file : pystr) (st st1 : State) (fid : pystr) :
  record_file file st = Ok (fid, st1) →
  ∃ sum, new_file_id file = Ok fid ∧ checksum file = Ok sum ∧
    st1 = with_doc
            (Document.update_product_package (Package.add_file_id fid)
               (Document.append_file (File.mk fid file sum) (doc st))) st.
Proof.
  unfold record_file. intros H.
  apply bind_Ok in H as (fid' & Hid & H).
  apply bind_Ok in H as (sum & Hsum & [= -> <-]). eauto.
Qed.

Lemma process_record_spec (st st' : State) (m : FileMetadata.t) (p : Package.t) :
  process_record st m = Ok st' →
  Document.product_package (doc st) = Some p →
  (if recorded m
   then ∃ f, file_of m f ∧
          Document.files (doc st') = Document.files (doc st) ++ [f] ∧
          Document.product_package (doc st')
          = Some (Package.add_file_id (File.id f) p)
   else Document.files (doc st') = Document.files (doc st) ∧
        Document.product_package (doc st') = Some p) ∧
  parsed st' = parsed st ++
    match resolves m with Some d => [d ++ py "/METADATA"] | None => [] end ∧
  (∀ d md, metadata_file_protos st !! d = Some md →
           metadata_file_protos st' !! d = Some md) ∧
  (∀ d, resolves m = Some d → is_Some (metadata_file_protos st' !! d)).
Proof.
  unfold process_record, installed_file_has_metadata, resolves, recorded.
  intros H Hp. destruct (no_metadata m); cbn [negb andb] in *.
  { injection H as <-. cbn. by rewrite app_nil_r. }
  destruct (on_disk (installed_file m)); cbn [negb andb] in *.
  2:{ injection H as <-. cbn. by rewrite app_nil_r. }
  apply bind_Ok in H as ([fid st1] & Hrec & Hattr).
  apply record_file_spec in Hrec as (sum & Hid & Hsum & ->).
  apply attribute_file_spec in Hattr as (Hf & Hpp & Hparsed & Hkeep & Hstored).
  cbn [with_doc with_report doc parsed metadata_file_protos report] in *.
  assert (Document.product_package
            (Document.update_product_package (Package.add_file_id fid)
               (Document.append_file (File.mk fid (installed_file m) sum) (doc st)))
          = Some (Package.add_file_id fid p)) as Hprod.
  { unfold Document.product_package in *. cbn. by rewrite list_lookup_alter_eq, Hp. }
  rewrite Hprod in Hpp. repeat split.
  - exists (File.mk fid (installed_file m) sum). repeat split; try done.
    by apply Hpp.
  - rewrite Hparsed. f_equal.
    destruct (is_source_package m || is_prebuilt_package m); [|done].
    destruct (get_metadata_file_path m) as [d|]; [|done]. by destruct (truthy d).
  - done.
  - intros d Hd.
    destruct (is_source_package m || is_prebuilt_package m); [|done].
    destruct (get_metadata_file_path m) as [d'|] eqn:E; [|done].
    destruct (truthy d') eqn:Ed; [|done]. injection Hd as ->. by eapply Hstored.
Qed.

(** *** The whole pass *)

Lemma scan_app (rows1 rows2 : list FileMetadata.t) (st st' : State) :
  scan (rows1 ++ rows2) st = Ok st' ↔
  ∃ st1, scan rows1 st = Ok st1 ∧ scan rows2 st1 = Ok st'.
Proof.
  revert st; induction rows1 as [|m rows1 IH]; intros st; simpl.
  - split; [eauto | by intros (? & [= <-] & ?)].
  - destruct (process_record st m) as [st0|e]; cbn [mbind result_bind].
    + apply IH.
    + split; [done | by intros (? & ? & ?)].
Qed.

Lemma add_file_ids_file_ids (fs : list File.t) (p : Package.t) :
  Package.file_ids (add_file_ids fs p) = Package.file_ids p ++ map File.id fs.
Proof.
  unfold add_file_ids. revert p; induction fs as [|f fs IH]; intros p; simpl.
  - by rewrite app_nil_r.
  - rewrite IH. simpl. by rewrite <- app_assoc.
Qed.

Lemma scan_spec (rows : list FileMetadata.t) (st st' : State) (p : Package.t) :
  scan rows st = Ok st' →
  Document.product_package (doc st) = Some p →
  (∃ new, Forall2 file_of (List.filter recorded rows) new ∧
     Document.files (doc st') = Document.files (doc st) ++ new ∧
     Document.product_package (doc st') = Some (add_file_ids new p)) ∧
  parsed st' = parsed st ++ map (λ d, d ++ py "/METADATA") (resolutions rows) ∧
  (∀ d md, metadata_file_protos st !! d = Some md →
           metadata_file_protos st' !! d = Some md) ∧
  (∀ d, d ∈ resolutions rows → is_Some (metadata_file_protos st' !! d)).
Proof.
  revert st p; induction rows as [|m rows IH]; intros st p H Hp.
  - injection H as <-. repeat split.
    + exists []. rewrite app_nil_r. by repeat split.
    + cbn. by rewrite app_nil_r.
    + done.
    + intros d Hd. by apply elem_of_nil in Hd.
  - cbn [scan] in H. apply bind_Ok in H as (st1 & Hstep & Hscan).
    destruct (process_record_spec _ _ _ _ Hstep Hp)
      as (Hfile & Hparsed & Hkeep & Hstored).
    assert (∃ p1, Document.product_package (doc st1) = Some p1) as [p1 Hp1].
    { destruct (recorded m); [destruct Hfile as (f & _ & _ & ->)|destruct Hfile as [_ ->]];
        eauto. }
    destruct (IH st1 p1 Hscan Hp1) as ((new & Hnew & Hfiles & Hprod) & Hparsed' & Hkeep' & Hstored').
    repeat split.
    + cbn [List.filter]. destruct (recorded m).
      * destruct Hfile as (f & Hf & Hfs & Hpf). exists (f :: new).
        repeat split; [by constructor|..].
        -- by rewrite Hfiles, Hfs, <- app_assoc.
        -- rewrite Hprod. rewrite Hpf in Hp1. by injection Hp1 as <-.
      * destruct Hfile as [Hfs Hpf]. exists new.
        repeat split; [done|congruence|].
        rewrite Hprod. rewrite Hpf in Hp1. by injection Hp1 as <-.
    + rewrite Hparsed', Hparsed. unfold resolutions. cbn [omap list_omap].
      rewrite <- app_assoc. f_equal. by destruct (resolves m).
    + eauto.
    + intros d Hd. unfold resolutions in Hd. cbn [omap list_omap] in Hd.
      destruct (resolves m) as [d0|] eqn:E; [|by apply Hstored'].
      apply elem_of_cons in Hd as [->|Hd]; [|by apply Hstored'].
      destruct (Hstored d0 eq_refl) as [md Hmd]. eauto.
Qed.

(** C10. After the main pass the document's file list holds exactly one
    File node for each record that has metadata and whose installed file is
    on disk, in the order of the records and whatever branch attributes the
    file; the product package's file ids are the ids of these File nodes,
    one for one.  The verification code [main] then stores in the product
    package is the digest of the checksums of all these files, sorted and
    concatenated, and [main] returns whenever that text can be encoded.
    The statement holds for any list of rows, hence after every
    iteration. *)
Theorem main_pass_records_every_file (rows : list FileMetadata.t) (st : State) :
  scan rows initial_state = Ok st →
  ∃ p, Document.product_package (doc st) = Some p ∧
    Forall2 file_of (List.filter recorded rows) (Document.files (doc st)) ∧
    Package.file_ids p = map File.id (Document.files (doc st)) ∧
    (∀ final, main rows = Ok final →
       ∃ code,
         generate_package_verification_code (Document.files (doc st)) = Ok code ∧
         Document.files (doc final) = Document.files (doc st) ∧
         Document.product_package (doc final)
         = Some (Package.set_verification_code code p) ∧
         ∃ checksums data p',
           Forall2 (λ m c, checksum (installed_file m) = Ok c)
             (List.filter recorded rows) checksums ∧
           Utf8.encode (concat (sort_strs checksums)) = Ok data ∧
           code = sha1_hexdigest data ∧
           Document.product_package (doc final) = Some p' ∧
           Package.verification_code p' = Some (sha1_hexdigest data) ∧
           Package.file_ids p' = map File.id (Document.files (doc final))) ∧
    (∀ data,
       Utf8.encode
         (concat (sort_strs (map File.checksum (Document.files (doc st)))))
       = Ok data →
       ∃ final, main rows = Ok final).
Proof.
  intros H.
  destruct (scan_spec rows initial_state st _ H eq_refl)
    as ((new & Hnew & Hfiles & Hprod) & _).
  cbn in Hfiles. eexists. split; [exact Hprod|]. rewrite Hfiles.
  split; [done|]. split; [by rewrite add_file_ids_file_ids|]. split.
  - intros final Hmain. unfold main in Hmain. rewrite H in Hmain.
    cbn [mbind result_bind] in Hmain.
    apply bind_Ok in Hmain as (code & Hcode & [= <-]).
    rewrite Hfiles in Hcode. exists code. split; [done|].
    assert (Document.product_package
              (doc (with_doc
                      (Document.update_product_package
                         (Package.set_verification_code code) (doc st)) st))
            = Some (Package.set_verification_code code (add_file_ids new
                      (Package.mk SPDXID_PRODUCT PACKAGE_NAME_PRODUCT
                         (Some build_version) (Some (organization product_mfr))
                         (Some VALUE_NONE) true None [] [])))) as Hfinal.
    { unfold Document.product_package in *.
      cbn [with_doc doc Document.update_product_package Document.set_packages
           Document.files Document.packages].
      by rewrite list_lookup_alter_eq, Hprod. }
    assert (Document.files
              (doc (with_doc
                      (Document.update_product_package
                         (Package.set_verification_code code) (doc st)) st))
            = new) as Hsame.
    { cbn [with_doc doc Document.update_product_package Document.set_packages
           Document.files]. exact Hfiles. }
    split; [exact Hsame|]. split; [exact Hfinal|].
    unfold generate_package_verification_code in Hcode.
    apply bind_Ok in Hcode as (data & Hdata & [= <-]).
    exists (map File.checksum new), data. eexists.
    split.
    { clear -Hnew. induction Hnew as [|m f ms fs (_ & _ & Hsum) _ IH];
        cbn [map]; constructor; done. }
    split; [exact Hdata|]. split; [done|]. split; [exact Hfinal|].
    split; [done|].
    rewrite Hsame. cbn [Package.set_verification_code Package.file_ids].
    by rewrite add_file_ids_file_ids.
  - intros data Hdata. unfold main. rewrite H. cbn [mbind result_bind].
    unfold generate_package_verification_code. rewrite Hfiles, Hdata.
    cbn [mbind result_bind]. eauto.
Qed.

Lemma parse_count_resolutions (d : pystr) (ds : list pystr) :
  length (List.filter (str_eqb (d ++ py "/METADATA"))
            (map (λ d, d ++ py "/METADATA") ds))
  = length (List.filter (str_eqb d) ds).
Proof.
  induction ds as [|x ds IH]; [done|]. cbn [map List.filter].
  assert (str_eqb (d ++ py "/METADATA") (x ++ py "/METADATA") = str_eqb d x)
    as ->.
  { unfold str_eqb. apply bool_decide_ext. split; [|by intros ->].
    apply app_inv_tail. }
  destruct (str_eqb d x); cbn [length]; congruence.
Qed.

(** *** Where the entries of the dictionary come from *)

Lemma report_metadata_file_parsed (path : pystr) (m : FileMetadata.t)
    (st st' : State) :
  report_metadata_file path m st = Ok st' →
  ∀ d md, metadata_file_protos st' !! d = Some md →
    metadata_file_protos st !! d = Some md ∨
    (d = path ∧ truthy path = true ∧
     parse_metadata (path ++ py "/METADATA") = Ok md).
Proof.
  unfold report_metadata_file. destruct (truthy path) eqn:Hp.
  - intros H. apply bind_Ok in H as (md0 & Hparse & H).
    destruct (metadata_file_protos st !! path) eqn:E; injection H as <-;
      cbn [metadata_file_protos]; intros d md Hd; [by left|].
    destruct (decide (d = path)) as [->|Hne].
    + rewrite lookup_insert_eq in Hd. injection Hd as <-. by right.
    + rewrite lookup_insert_ne in Hd by done. by left.
  - intros [= <-] d md Hd. by left.
Qed.

Lemma attribute_file_parsed (fid : pystr) (m : FileMetadata.t)
    (st st' : State) :
  attribute_file fid m st = Ok st' →
  ∀ d md, metadata_file_protos st' !! d = Some md →
    metadata_file_protos st !! d = Some md ∨
    (is_source_package m || is_prebuilt_package m = true ∧
     get_metadata_file_path m = Ok d ∧ truthy d = true ∧
     parse_metadata (d ++ py "/METADATA") = Ok md).
Proof.
  unfold attribute_file, main_branch.
  destruct (is_source_package m || is_prebuilt_package m) eqn:Hfork.
  - intros H.
    apply bind_Ok in H as (path & Hpath & H).
    apply bind_Ok in H as (st1 & Hrep & H).
    apply bind_Ok in H as ([[e pkgs] rels] & _ & [= <-]).
    cbn [with_doc metadata_file_protos]. intros d md Hd.
    destruct (report_metadata_file_parsed _ _ _ _ Hrep d md Hd)
      as [?|(-> & Hp & Hparse)]; [by left|by right].
  - cbv iota.
    destruct (truthy (module_path m) || truthy (is_platform_generated m));
      [|destruct (truthy (product_copy_files m));
        [|destruct (Str.endswith (installed_file m) (py ".fsv_meta"));
          [|destruct (Str.startswith (kernel_module_copy_files m)
                        (py "ANDROID-GEN"))]]];
      intros [= <-]; cbn [with_doc metadata_file_protos]; by left.
Qed.

Lemma process_record_parsed (st st' : State) (m : FileMetadata.t) :
  process_record st m = Ok st' →
  ∀ d md, metadata_file_protos st' !! d = Some md →
    metadata_file_protos st !! d = Some md ∨
    (resolves m = Some d ∧ parse_metadata (d ++ py "/METADATA") = Ok md).
Proof.
  unfold process_record, installed_file_has_metadata, resolves, recorded.
  intros H. destruct (no_metadata m); cbn [negb andb] in *.
  { injection H as <-. by left. }
  destruct (on_disk (installed_file m)); cbn [negb andb] in *.
  2:{ injection H as <-. by left. }
  apply bind_Ok in H as ([fid st1] & Hrec & Hattr).
  apply record_file_spec in Hrec as (sum & _ & _ & ->).
  intros d md Hd.
  destruct (attribute_file_parsed _ _ _ _ Hattr d md Hd)
    as [Hold|(Hfork & Hpath & Hp & Hparse)]; [by left|right].
  by rewrite Hfork, Hpath, Hp.
Qed.

Lemma scan_parsed (rows : list FileMetadata.t) (st st' : State) :
  scan rows st = Ok st' →
  ∀ d md, metadata_file_protos st' !! d = Some md →
    metadata_file_protos st !! d = Some md ∨
    (d ∈ resolutions rows ∧ parse_metadata (d ++ py "/METADATA") = Ok md).
Proof.
  revert st; induction rows as [|m rows IH]; intros st H d md Hd.
  - injection H as <-. by left.
  - cbn [scan] in H. apply bind_Ok in H as (st1 & Hstep & Hscan).
    unfold resolutions. cbn [omap list_omap].
    destruct (IH st1 Hscan d md Hd) as [Hold|[Hin Hparse]].
    + destruct (process_record_parsed _ _ _ Hstep d md Hold)
        as [?|[-> Hparse]]; [by left|right].
      split; [apply elem_of_cons; by left|done].
    + right. split; [|done].
      destruct (resolves m); [apply elem_of_cons; by right|done].
Qed.

(** C1, as the code has it.  The METADATA file of a directory is handed
    to the external reader at every resolution of that directory, once for
    each record that resolves to it.  What happens once is the storing:
    [metadata_file_protos] holds, under the path of every resolved
    directory and under no other key, the descriptor the reader returns for
    that directory's METADATA file, and a descriptor once stored is the one
    every later resolution finds. *)
Theorem descriptor_parsed_at_every_resolution
    (rows1 rows2 : list FileMetadata.t) (st1 st2 : State) :
  scan rows1 initial_state = Ok st1 →
  scan rows2 st1 = Ok st2 →
  parsed st2
  = map (λ d, d ++ py "/METADATA") (resolutions (rows1 ++ rows2)) ∧
  (∀ d, parse_count (d ++ py "/METADATA") st2
        = length (List.filter (str_eqb d) (resolutions (rows1 ++ rows2)))) ∧
  (∀ d, d ∈ resolutions (rows1 ++ rows2) →
        is_Some (metadata_file_protos st2 !! d)) ∧
  (∀ d md, metadata_file_protos st1 !! d = Some md →
           metadata_file_protos st2 !! d = Some md) ∧
  (∀ d, d ∈ resolutions (rows1 ++ rows2) →
        ∃ md, parse_metadata (d ++ py "/METADATA") = Ok md ∧
              metadata_file_protos st2 !! d = Some md) ∧
  (∀ d md, metadata_file_protos st2 !! d = Some md →
           d ∈ resolutions (rows1 ++ rows2) ∧
           parse_metadata (d ++ py "/METADATA") = Ok md) ∧
  (∀ d, d ∈ resolutions rows1 →
        ∃ md, parse_metadata (d ++ py "/METADATA") = Ok md ∧
              metadata_file_protos st1 !! d = Some md ∧
              metadata_file_protos st2 !! d = Some md).
Proof.
  intros H1 H2.
  assert (scan (rows1 ++ rows2) initial_state = Ok st2) as H.
  { apply scan_app. eauto. }
  destruct (scan_spec _ _ _ _ H eq_refl) as (_ & Hparsed & _ & Hstored).
  destruct (scan_spec _ _ _ _ H1 eq_refl)
    as ((new & _ & _ & Hp1) & _ & _ & Hstored1).
  destruct (scan_spec _ _ _ _ H2 Hp1) as (_ & _ & Hkeep & _).
  cbn [initial_state parsed app] in Hparsed.
  assert (∀ rows st, scan rows initial_state = Ok st →
            ∀ d md, metadata_file_protos st !! d = Some md →
              d ∈ resolutions rows ∧
              parse_metadata (d ++ py "/METADATA") = Ok md) as Hfrom.
  { intros rows st Hscan d md Hd.
    destruct (scan_parsed _ _ _ Hscan d md Hd) as [Hold|?]; [|done].
    cbn [initial_state metadata_file_protos] in Hold.
    by rewrite lookup_empty in Hold. }
  split; [done|]. split.
  { intros d. unfold parse_count. rewrite Hparsed.
    apply parse_count_resolutions. }
  split; [done|]. split; [done|]. split; [|split].
  - intros d Hd. destruct (Hstored d Hd) as [md Hmd]. exists md.
    split; [|done]. by destruct (Hfrom _ _ H d md Hmd).
  - by apply Hfrom.
  - intros d Hd. destruct (Hstored1 d Hd) as [md Hmd]. exists md.
    split; [by destruct (Hfrom _ _ H1 d md Hmd)|]. split; [done|].
    by apply Hkeep.
Qed.

(** ** Security tags *)

Lemma validate_tags_unknown (path : pystr) (tags : list pystr) (rep : Report.t) :
  Report.ISSUE_UNKNOWN_SECURITY_TAG_TYPE (validate_tags path tags rep)
  = Report.ISSUE_UNKNOWN_SECURITY_TAG_TYPE rep
    ++ map (unknown_tag_message path)
         (List.filter (λ tag, negb (Str.startswith tag NVD_CPE23)) tags).
Proof.
  unfold validate_tags. revert rep; induction tags as [|t tags IH]; intros rep.
  - cbn. by rewrite app_nil_r.
  - cbn [fold_left List.filter]. rewrite IH.
    destruct (negb (Str.startswith t NVD_CPE23)); [|done].
    cbn. by rewrite <- app_assoc.
Qed.

Lemma validate_metadata_unknown (path : pystr) (md : Metadata.t) (rep : Report.t) :
  Report.ISSUE_UNKNOWN_SECURITY_TAG_TYPE (validate_metadata path md rep)
  = Report.ISSUE_UNKNOWN_SECURITY_TAG_TYPE rep
    ++ map (unknown_tag_message path)
         (List.filter (λ tag, negb (Str.startswith tag NVD_CPE23))
            (ThirdParty.security_tag (Metadata.third_party md))).
Proof.
  unfold validate_metadata. rewrite validate_tags_unknown.
  by destruct (negb (truthy (Metadata.name md))),
       (negb (truthy (ThirdParty.version (Metadata.third_party md)))).
Qed.

Lemma unknown_tag_message_inj (path t t' : pystr) :
  unknown_tag_message path t = unknown_tag_message path t' → t = t'.
Proof.
  unfold unknown_tag_message. intros H.
  apply app_inv_head in H. by apply app_inv_tail in H.
Qed.

Lemma lower_matched_nonempty (tag : pystr) :
  Str.startswith (lower tag) (lower (NVD_CPE23 ++ py "cpe:2.3:")) = true →
  tag ≠ [].
Proof. intros H ->. by vm_compute in H. Qed.

Lemma drop_shorter {A} (n : nat) (l : list A) :
  l ≠ [] → (0 < n)%nat → l ≠ drop n l.
Proof.
  intros Hl Hn E. apply (f_equal length) in E. rewrite length_drop in E.
  destruct l; [done|]. simpl in E. lia.
Qed.

(** C8. A security tag that matches NVD-CPE2.3:cpe:2.3: without regard to
    case is recognised: the source package carries a SECURITY reference of
    type cpe23Type for it.  Its locator is the tag with NVD-CPE2.3:
    removed only if the tag begins with exactly these characters;
    otherwise the locator is the whole tag, and the first resolution of
    the directory reports the tag as an unknown security tag type. *)
Theorem security_tag_prefix_case (path : pystr) (m : FileMetadata.t)
    (st : State) (md : Metadata.t) (tag : pystr) :
  truthy path = true →
  metadata_file_protos st !! path = None →
  parse_metadata (path ++ py "/METADATA") = Ok md →
  tag ∈ ThirdParty.security_tag (Metadata.third_party md) →
  Str.startswith (lower tag) (lower (NVD_CPE23 ++ py "cpe:2.3:")) = true →
  ∃ st', report_metadata_file path m st = Ok st' ∧
    (∃ name refs,
       get_source_package_info (metadata_file_protos st') m path
       = Ok (name, refs) ∧
       PackageExternalRef.mk SECURITY cpe23Type (Str.removeprefix tag NVD_CPE23)
       ∈ refs) ∧
    (Str.startswith tag NVD_CPE23 = true →
       Str.removeprefix tag NVD_CPE23 = drop (length NVD_CPE23) tag ∧
       (unknown_tag_message path tag
          ∈ Report.ISSUE_UNKNOWN_SECURITY_TAG_TYPE (report st') →
        unknown_tag_message path tag
          ∈ Report.ISSUE_UNKNOWN_SECURITY_TAG_TYPE (report st))) ∧
    (Str.startswith tag NVD_CPE23 = false →
       Str.removeprefix tag NVD_CPE23 = tag ∧
       tag ≠ drop (length NVD_CPE23) tag ∧
       unknown_tag_message path tag
         ∈ Report.ISSUE_UNKNOWN_SECURITY_TAG_TYPE (report st')).
Proof.
  intros Hp Hfresh Hparse Htag Hlow.
  unfold report_metadata_file. rewrite Hp, Hparse, Hfresh.
  cbn [mbind result_bind]. eexists. split; [reflexivity|].
  cbn [metadata_file_protos report]. rewrite validate_metadata_unknown.
  cbn [Report.add_found Report.ISSUE_UNKNOWN_SECURITY_TAG_TYPE].
  split; [|split].
  - unfold get_source_package_info. rewrite Hp.
    rewrite (getitem_Some _ _ md) by apply lookup_insert_eq.
    cbn [negb mbind result_bind].
    assert (PackageExternalRef.mk SECURITY cpe23Type (Str.removeprefix tag NVD_CPE23)
              ∈ flat_map tag_external_refs
                  (ThirdParty.security_tag (Metadata.third_party md))) as Hin.
    { apply list_elem_of_In, in_flat_map. exists tag.
      split; [by apply list_elem_of_In|].
      unfold tag_external_refs. rewrite Hlow. by left. }
    destruct (truthy (Metadata.name md)); eauto.
  - intros Hexact. split; [unfold Str.removeprefix; by rewrite Hexact|].
    intros Hin. apply elem_of_app in Hin as [Hin|Hin]; [done|].
    apply list_elem_of_In, in_map_iff in Hin as (t & Ht & Hin).
    apply unknown_tag_message_inj in Ht as ->.
    apply filter_In in Hin as [_ Hin]. by rewrite Hexact in Hin.
  - intros Hexact. split; [unfold Str.removeprefix; by rewrite Hexact|].
    split.
    + apply drop_shorter; [by apply lower_matched_nonempty | cbn; lia].
    + apply elem_of_app. right. apply list_elem_of_In, in_map, filter_In.
      split; [by apply list_elem_of_In | by rewrite Hexact].
Qed.

(** * Further properties *)

(** ** Identifier encoder *)

Lemma ascii_copied_spdx (c : N) : c < 128 → copied c → spdx_char c = true.
Proof.
  unfold copied, isalnum, spdx_char. intros H.
  by apply N.ltb_lt in H as ->.
Qed.

Lemma hex_digit_ascii (n : N) : n < 16 → Utf8.hex_digit n < 128.
Proof. unfold Utf8.hex_digit. intros H. destruct (n <? 10); lia. Qed.

Lemma hex_ascii (bs : list N) :
  Forall (λ b, b < 256) bs → Forall (λ c, c < 128) (Utf8.hex bs).
Proof.
  unfold Utf8.hex. induction 1 as [|b bs Hb Hbs IH]; simpl; [constructor|].
  repeat constructor; [| |exact IH].
  - apply hex_digit_ascii. apply N.Div0.div_lt_upper_bound. lia.
  - apply hex_digit_ascii. apply N.mod_upper_bound. lia.
Qed.

Lemma encode_step_ascii (acc : pystr) (c : N) :
  c < 128 →
  ∃ t, encode_step acc c = Ok (acc ++ t) ∧ Forall (λ c, spdx_char c = true) t.
Proof.
  intros Hc.
  assert (∃ r, encode_step acc c = Ok r) as [r Hr].
  { unfold encode_step, Utf8.encode_char.
    apply N.ltb_lt in Hc as ->. repeat case_match; simpl; eauto. }
  destruct (encode_step_copied acc c r Hr) as (t & -> & Ht).
  exists t. split; [done|].
  assert (Forall (λ c, c < 128) t) as Hascii.
  { revert Hr. unfold encode_step, Utf8.encode_char.
    pose proof Hc as Hc'. apply N.ltb_lt in Hc' as ->. simpl.
    repeat case_match; intros [= Happ]; apply app_inv_head in Happ as <-;
      repeat constructor; try done.
    all: apply hex_digit_ascii.
    - apply N.Div0.div_lt_upper_bound. lia.
    - apply N.mod_upper_bound. lia. }
  clear Hr. induction Ht as [|x t Hx Ht IH]; [constructor|].
  inversion Hascii; subst. constructor; [by apply ascii_copied_spdx | by apply IH].
Qed.

Lemma encode_loop_ascii (s acc : pystr) :
  Forall (λ c, c < 128) s →
  ∃ t, encode_loop s acc = Ok (acc ++ t) ∧ Forall (λ c, spdx_char c = true) t.
Proof.
  intros H; revert acc; induction H as [|c s Hc Hs IH]; intros acc; simpl.
  - exists []. by rewrite app_nil_r.
  - destruct (encode_step_ascii acc c Hc) as (t1 & -> & Ht1). simpl.
    destruct (IH (acc ++ t1)) as (t2 & -> & Ht2).
    exists (t1 ++ t2). rewrite app_assoc. split; [done|]. by apply Forall_app.
Qed.

(** X1. On ASCII input the encoder always returns, and what it returns
    lies in the character set [A-Za-z0-9.-] that its docstring names. *)
Theorem encode_ascii_in_charset (s : pystr) :
  Forall (λ c, c < 128) s →
  ∃ r, encode_for_spdxid s = Ok r ∧ Forall (λ c, spdx_char c = true) r.
Proof.
  intros H. unfold encode_for_spdxid.
  destruct (encode_loop_ascii s [] H) as (t & -> & Ht).
  simpl. eexists. split; [done|]. by apply lstrip_Forall.
Qed.

Lemma spdx_char_ascii (c : N) : spdx_char c = true → c < 128.
Proof.
  unfold spdx_char. intros H. apply orb_true_iff in H as [H|H].
  - unfold Str.ascii_alnum in H.
    repeat (apply orb_true_iff in H as [H|H]);
      apply andb_true_iff in H as [_ H]; apply N.leb_le in H; lia.
  - revert H. change (py ".-") with [ch "."; ch "-"].
    unfold Str.char_in. cbn [existsb].
    rewrite !orb_true_iff, !N.eqb_eq. intros [->|[->|?]]; done.
Qed.

(** X2. Letters and digits outside ASCII are copied as they are: on a
    string of such characters the encoder is the identity, so its result
    leaves the character set [A-Za-z0-9.-]. *)
Theorem encode_copies_unicode_alnum (s : pystr) :
  Forall (λ c, 128 ≤ c ∧ unicode_alnum c = true) s →
  encode_for_spdxid s = Ok s ∧ Forall (λ c, spdx_char c = false) s.
Proof.
  intros H. split.
  - rewrite encode_for_spdxid_copied.
    + f_equal. apply lstrip_fixed. destruct H as [|c s [Hc _] _]; [done|].
      simpl. intros [= ->]. by vm_compute in Hc.
    + eapply Forall_impl; [exact H|]. intros c [Hc Ha].
      unfold copied, isalnum. apply N.ltb_ge in Hc as ->. by rewrite Ha.
  - eapply Forall_impl; [exact H|]. intros c [Hc _].
    destruct (spdx_char c) eqn:E; [|done].
    apply spdx_char_ascii in E. lia.
Qed.

Lemma sep_char_cases (c : N) :
  Str.char_in c (py "_@/") = true → c = ch "_" ∨ c = ch "@" ∨ c = ch "/".
Proof.
  change (py "_@/") with [ch "_"; ch "@"; ch "/"].
  unfold Str.char_in. cbn [existsb].
  rewrite !orb_true_iff, !N.eqb_eq. intros [?|[?|[?|?]]]; auto. done.
Qed.

Lemma dash_or_sep (c : N) :
  Str.char_in c (py "-_@/") = true →
  c = ch "-" ∨ Str.char_in c (py "_@/") = true.
Proof.
  change (py "-_@/") with (ch "-" :: py "_@/").
  unfold Str.char_in. cbn [existsb].
  rewrite orb_true_iff, N.eqb_eq. intros [?|?]; auto.
Qed.

Lemma encode_step_sep (acc : pystr) (c : N) :
  encode_step acc (sep_to_dash c) = encode_step acc c.
Proof.
  unfold sep_to_dash. destruct (Str.char_in c (py "_@/")) eqn:E; [|done].
  apply sep_char_cases in E as [->|[->| ->]]; reflexivity.
Qed.

Lemma encode_sep_to_dash (s : pystr) :
  encode_for_spdxid (map sep_to_dash s) = encode_for_spdxid s.
Proof.
  unfold encode_for_spdxid.
  assert (∀ acc, encode_loop (map sep_to_dash s) acc = encode_loop s acc) as ->;
    [|done].
  induction s as [|c s IH]; intros acc; simpl; [done|].
  rewrite encode_step_sep. destruct (encode_step acc c); simpl; [apply IH|done].
Qed.

(** X3. The encoder does not tell the characters [_], [@] and [/] from a
    dash: replacing them by dashes before encoding changes nothing, so names
    that differ only in these characters get the same identifiers. *)
Theorem encode_separators_collapse (s : pystr) (type : pystr) :
  encode_for_spdxid (map sep_to_dash s) = encode_for_spdxid s ∧
  new_package_id (map sep_to_dash s) type = new_package_id s type ∧
  new_file_id (map sep_to_dash s) = new_file_id s.
Proof.
  unfold new_package_id, new_file_id. by rewrite encode_sep_to_dash.
Qed.

Lemma lstrip_all (s : pystr) (c : N) : Forall (λ d, d = c) s → Str.lstrip s c = [].
Proof.
  induction 1 as [|d s -> Hs IH]; simpl; [done|]. by rewrite N.eqb_refl.
Qed.

(** X4. A name made only of dashes and of [_], [@], [/] has the empty
    encoding, so the identifier of such a file is the bare prefix. *)
Theorem encode_separators_only (s : pystr) :
  Forall (λ c, Str.char_in c (py "-_@/") = true) s →
  encode_for_spdxid s = Ok [] ∧ new_file_id s = Ok (py "SPDXRef-").
Proof.
  intros H.
  assert (encode_for_spdxid s = Ok []) as Henc.
  { assert (Forall (λ d, d = ch "-") (map sep_to_dash s)) as Hdash.
    { apply Forall_map. eapply Forall_impl; [exact H|]. intros c Hc. simpl.
      unfold sep_to_dash. destruct (Str.char_in c (py "_@/")) eqn:E; [done|].
      apply dash_or_sep in Hc as [->|Hc]; [done | congruence]. }
    rewrite <- encode_sep_to_dash.
    rewrite encode_for_spdxid_copied.
    - f_equal. by apply lstrip_all.
    - eapply Forall_impl; [exact Hdash|]. by intros c ->. }
  split; [done|]. unfold new_file_id. by rewrite Henc.
Qed.

(** ** Package classifier *)

(** X5. Prebuilt wins over source: a module under external/ whose Soong
    module type is on the allow-list, or that is flagged as a prebuilt make
    module, is a prebuilt package and not a source package. *)
Theorem prebuilt_wins_over_source (m : FileMetadata.t) :
  Str.startswith (module_path m) (py "external/") = true →
  is_soong_prebuilt_module m || truthy (is_prebuilt_make_module m) = true →
  is_prebuilt_package m = true ∧ is_source_package m = false ∧
  main_branch m = ForkPackage.
Proof.
  intros Hext Hpre.
  assert (is_prebuilt_package m = true) as Hp.
  { unfold is_prebuilt_package.
    destruct (module_path m) as [|c mp]; [done|]. cbn [truthy].
    rewrite <- orb_assoc, Hpre. by rewrite orb_true_r. }
  split; [done|]. split.
  - unfold is_source_package. rewrite Hp. by rewrite andb_false_r.
  - apply fork_branch. rewrite Hp. by rewrite orb_true_r.
Qed.

(** X6. The last branch of the chain in [main] tests for ANDROID-GEN
    without the colon, yet it is reached only by kernel-module copies whose
    source starts with ANDROID-GEN: with the colon; any other copy entry
    makes the record a prebuilt package. *)
Theorem kernel_gen_branch_has_colon (m : FileMetadata.t) :
  main_branch m = PlatformKernelGen →
  Str.startswith (kernel_module_copy_files m) (py "ANDROID-GEN:") = true ∧
  truthy (module_path m) = false.
Proof.
  unfold main_branch.
  destruct (is_source_package m || is_prebuilt_package m) eqn:Hfork; [done|].
  apply orb_false_iff in Hfork as [_ Hpre].
  destruct (truthy (module_path m)) eqn:Hmp; [done|]. cbn [orb].
  destruct (truthy (is_platform_generated m)); [done|].
  destruct (truthy (product_copy_files m)); [done|].
  destruct (Str.endswith _ _); [done|].
  destruct (Str.startswith (kernel_module_copy_files m) (py "ANDROID-GEN")) eqn:Hgen;
    [|done].
  intros _. split; [|done].
  unfold is_prebuilt_package in Hpre. rewrite Hmp in Hpre.
  destruct (kernel_module_copy_files m) as [|c k] eqn:Hk; [done|].
  cbn [truthy andb] in Hpre.
  destruct (Str.startswith (c :: k) (py "ANDROID-GEN:")); [done|done].
Qed.

(** ** Metadata resolver *)

Lemma from_sep_suffix (s : pystr) : ∃ k, s = k ++ OsPath.from_sep s.
Proof.
  induction s as [|d s [k IH]]; simpl; [by exists []|].
  destruct (d =? OsPath.sep); [by exists []|].
  exists (d :: k). simpl. by rewrite <- IH.
Qed.

Lemma lstrip_suffix (s : pystr) (c : N) : ∃ k, s = k ++ Str.lstrip s c.
Proof.
  induction s as [|d s [k IH]]; simpl; [by exists []|].
  destruct (d =? c); [|by exists []].
  exists (d :: k). simpl. by rewrite <- IH.
Qed.

(** [os.path.dirname] returns a prefix of its argument. *)
Lemma dirname_prefix (p : pystr) : OsPath.dirname p `prefix_of` p.
Proof.
  assert (OsPath.head_of p `prefix_of` p) as Hhead.
  { unfold OsPath.head_of. destruct (from_sep_suffix (rev p)) as [k Hk].
    exists (rev k). rewrite <- rev_app_distr, <- Hk. by rewrite rev_involutive. }
  unfold OsPath.dirname. destruct (truthy _ && negb _); [|done].
  etrans; [|exact Hhead]. unfold Str.rstrip.
  destruct (lstrip_suffix (rev (OsPath.head_of p)) OsPath.sep) as [k Hk].
  exists (rev k). rewrite <- rev_app_distr, <- Hk. by rewrite rev_involutive.
Qed.

Lemma ancestor_prefix (k : nat) (p : pystr) : ancestor k p `prefix_of` p.
Proof.
  unfold ancestor. induction k as [|k IH]; simpl; [done|].
  etrans; [apply dirname_prefix | exact IH].
Qed.

Lemma ancestor_succ (k : nat) (p : pystr) :
  ancestor (S k) p = ancestor k (OsPath.dirname p).
Proof. unfold ancestor. apply Nat.iter_succ_r. Qed.

Lemma walk_up_nearest (n : nat) (p d : pystr) :
  walk_up n p = Ok d →
  ∃ k, d = ancestor k p ∧
    (d = [] ∨ path_exists (d ++ py "/METADATA") = true) ∧
    ∀ j, (j < k)%nat →
      truthy (ancestor j p) = true ∧
      path_exists (ancestor j p ++ py "/METADATA") = false.
Proof.
  revert p; induction n as [|n IH]; intros p; simpl.
  - destruct (truthy p && negb _) eqn:E; [done|]. intros [= <-].
    exists 0%nat. split; [done|]. split; [|lia].
    destruct p; [by left|]. right. by apply negb_false_iff in E.
  - destruct (truthy p && negb _) eqn:E.
    + intros H. apply IH in H as (k & -> & Hd & Hbefore).
      exists (S k). split; [by rewrite ancestor_succ|]. split; [done|].
      intros [|j] Hj.
      * apply andb_true_iff in E as [Hp He]. by apply negb_true_iff in He.
      * rewrite ancestor_succ. apply Hbefore. lia.
    + intros [= <-]. exists 0%nat. split; [done|]. split; [|lia].
      destruct p; [by left|]. right. by apply negb_false_iff in E.
Qed.

(** X7. When the search for a METADATA file returns, it returns the
    nearest ancestor of the starting directory that holds a METADATA file,
    the directory itself included, or the empty path if it has walked past
    every ancestor; the result is a prefix of the starting directory. *)
Theorem metadata_path_is_nearest_ancestor (m : FileMetadata.t) (d : pystr) :
  get_metadata_file_path m = Ok d →
  d `prefix_of` start_dir m ∧
  ∃ k, d = ancestor k (start_dir m) ∧
    (d = [] ∨ path_exists (d ++ py "/METADATA") = true) ∧
    ∀ j, (j < k)%nat →
      truthy (ancestor j (start_dir m)) = true ∧
      path_exists (ancestor j (start_dir m) ++ py "/METADATA") = false.
Proof.
  intros H. change (walk_up (length (start_dir m)) (start_dir m) = Ok d) in H.
  apply walk_up_nearest in H as (k & -> & H). split; [apply ancestor_prefix|].
  by exists k.
Qed.

Lemma lstrip_nil (s : pystr) (c : N) :
  Str.lstrip s c = [] → forallb (N.eqb c) s = true.
Proof.
  induction s as [|d s IH]; simpl; [done|].
  destruct (d =? c) eqn:E; [|done].
  apply N.eqb_eq in E as ->. rewrite N.eqb_refl. exact IH.
Qed.

(** A path that [os.path.dirname] leaves as it is is empty or consists of
    separators. *)
Lemma dirname_fixed (p : pystr) :
  OsPath.dirname p = p → p = [] ∨ OsPath.all_sep p = true.
Proof.
  intros Hfix. destruct p as [|c p]; [by left|]. right.
  unfold OsPath.dirname, OsPath.head_of in Hfix.
  destruct (from_sep_length (rev (c :: p))) as [Hle Heq].
  rewrite length_rev in Hle, Heq.
  destruct (truthy _ && negb _) eqn:Hcond.
  - exfalso. apply (f_equal length) in Hfix.
    unfold Str.rstrip in Hfix. rewrite rev_involutive, length_rev in Hfix.
    destruct (from_sep_head (rev (c :: p))) as [E|[t E]]; rewrite E in *.
    + by simpl in Hcond.
    + cbn [Str.lstrip length] in *. rewrite N.eqb_refl in Hfix.
      pose proof (lstrip_length t OsPath.sep). lia.
  - rewrite Hfix in Hcond. cbn [truthy andb] in Hcond.
    by apply negb_false_iff in Hcond.
Qed.

Lemma walk_up_outcome (n : nat) (p : pystr) :
  (∃ d, walk_up n p = Ok d) ∨ walk_up n p = Raise Diverges.
Proof.
  revert p; induction n as [|n IH]; intros p; simpl;
    destruct (truthy p && negb _); eauto.
Qed.

Lemma all_sep_head (p : pystr) :
  truthy p = true → OsPath.all_sep p = true → head p = Some OsPath.sep.
Proof.
  destruct p as [|c p]; [done|]. intros _ H.
  unfold OsPath.all_sep in H. cbn [forallb] in H.
  apply andb_true_iff in H as [H _]. apply N.eqb_eq in H as <-. done.
Qed.

(** X8. The search returns for every relative starting directory: a path
    that does not begin with a separator has no ancestor on which the loop
    could stay. *)
Theorem relative_path_resolves (m : FileMetadata.t) :
  head (start_dir m) ≠ Some (ch "/") →
  ∃ d, get_metadata_file_path m = Ok d.
Proof.
  intros Hrel.
  change (∃ d, walk_up (length (start_dir m)) (start_dir m) = Ok d).
  destruct (walk_up_outcome (length (start_dir m)) (start_dir m)) as [H|H];
    [done|]. exfalso.
  apply walk_up_diverges in H as (k & q & Hq & Htruthy & Hfix & _); [|done].
  assert (q `prefix_of` start_dir m) as [t Ht].
  { rewrite Hq. apply ancestor_prefix. }
  apply dirname_fixed in Hfix as [->|Hsep]; [done|].
  apply all_sep_head in Hsep; [|done].
  destruct q as [|c q]; [done|]. apply Hrel. rewrite Ht. exact Hsep.
Qed.

Lemma from_sep_snoc (s : pystr) :
  ∃ k, OsPath.from_sep (s ++ [OsPath.sep]) = k ++ [OsPath.sep].
Proof.
  induction s as [|d s [k IH]]; cbn [app OsPath.from_sep].
  - rewrite N.eqb_refl. by exists [].
  - destruct (d =? OsPath.sep); [by exists (d :: s) | by exists k].
Qed.

Lemma lstrip_app (k t : pystr) (c : N) :
  Str.lstrip k c ≠ [] → Str.lstrip (k ++ t) c = Str.lstrip k c ++ t.
Proof.
  induction k as [|d k IH]; simpl; [done|].
  destruct (d =? c); [exact IH | done].
Qed.

Lemma forallb_reverse {A} (f : A → bool) (l : list A) :
  forallb f (rev l) = forallb f l.
Proof.
  induction l as [|a l IH]; [done|]. cbn [rev forallb].
  rewrite forallb_app, IH. cbn [forallb]. rewrite andb_true_r. apply andb_comm.
Qed.

(** [os.path.dirname] of an absolute path is an absolute path. *)
Lemma dirname_absolute (p : pystr) :
  head p = Some OsPath.sep → head (OsPath.dirname p) = Some OsPath.sep.
Proof.
  destruct p as [|c p]; [done|]. simpl. intros [= ->].
  unfold OsPath.dirname, OsPath.head_of. cbn [rev].
  destruct (from_sep_snoc (rev p)) as [k ->].
  rewrite rev_app_distr. cbn [rev app].
  destruct (truthy _ && negb _) eqn:Hcond; [|done].
  cbn [truthy andb] in Hcond. apply negb_true_iff in Hcond.
  unfold Str.rstrip. cbn [rev]. rewrite rev_involutive.
  assert (Str.lstrip k OsPath.sep ≠ []) as Hk.
  { intros E. apply lstrip_nil in E.
    revert Hcond. unfold OsPath.all_sep. cbn [forallb].
    rewrite N.eqb_refl, forallb_reverse. cbn [andb]. congruence. }
  rewrite lstrip_app by done. by rewrite rev_app_distr.
Qed.

Lemma walk_up_absolute (n : nat) (p : pystr) :
  head p = Some OsPath.sep →
  (∀ k, path_exists (ancestor k p ++ py "/METADATA") = false) →
  walk_up n p = Raise Diverges.
Proof.
  revert p; induction n as [|n IH]; intros p Habs Hnone; simpl;
    pose proof (Hnone 0%nat) as H0; cbn in H0; rewrite H0;
    (destruct p as [|c p]; [done|]); cbn [truthy negb andb]; [done|].
  apply IH; [by apply dirname_absolute|].
  intros k. rewrite <- ancestor_succ. apply Hnone.
Qed.

(** X9. The search does not terminate for an absolute starting directory
    none of whose ancestors holds a METADATA file: [os.path.dirname] never
    shortens the root, so the loop arrives at a path of separators and stays
    there. *)
Theorem absolute_path_without_metadata_diverges (m : FileMetadata.t) :
  head (start_dir m) = Some (ch "/") →
  (∀ k, path_exists (ancestor k (start_dir m) ++ py "/METADATA") = false) →
  get_metadata_file_path m = Raise Diverges ∧
  ∃ k q, q = ancestor k (start_dir m) ∧ truthy q = true ∧
         OsPath.dirname q = q ∧ path_exists (q ++ py "/METADATA") = false.
Proof.
  intros Habs Hnone.
  assert (get_metadata_file_path m = Raise Diverges) as H.
  { change (walk_up (length (start_dir m)) (start_dir m) = Raise Diverges).
    by apply walk_up_absolute. }
  split; [done|].
  change (walk_up (length (start_dir m)) (start_dir m) = Raise Diverges) in H.
  by apply walk_up_diverges in H.
Qed.

(** ** Descriptor information *)

Lemma insert_url_Permutation (u : URL.t) (l : list URL.t) :
  Permutation (u :: l) (insert_url u l).
Proof.
  induction l as [|v l IH]; simpl; [done|].
  destruct (URL.type u <=? URL.type v); [done|].
  rewrite perm_swap. by apply perm_skip.
Qed.

Lemma sorted_urls_Permutation (l : list URL.t) : Permutation l (sorted_urls l).
Proof.
  unfold sorted_urls. induction l as [|u l IH]; simpl; [done|].
  rewrite <- insert_url_Permutation. by apply perm_skip.
Qed.

(** X10. The download location of an upstream package is the value of one
    of the URLs its descriptor declares, and there is none exactly when the
    descriptor declares no URL or a single URL of type HOMEPAGE. *)
Theorem download_location_is_declared (protos : gmap (list N) Metadata.t)
    (path : pystr) (md : Metadata.t) :
  truthy path = true → protos !! path = Some md →
  ∃ r, get_package_download_location protos path = Ok r ∧
    (∀ v, r = Some v →
       ∃ u, u ∈ ThirdParty.url (Metadata.third_party md) ∧ URL.value u = v) ∧
    (r = None ↔
       ThirdParty.url (Metadata.third_party md) = [] ∨
       ∃ u, ThirdParty.url (Metadata.third_party md) = [u] ∧
            URL.type u = HOMEPAGE).
Proof.
  intros Hp Hmd. unfold get_package_download_location.
  rewrite Hp, (getitem_Some _ _ _ Hmd). cbn [negb mbind result_bind].
  pose proof (sorted_urls_Permutation (ThirdParty.url (Metadata.third_party md)))
    as Hperm.
  destruct (sorted_urls _) as [|u0 [|u1 rest]] eqn:E.
  - apply Permutation_nil_r in Hperm. eexists. split; [done|].
    split; [done|]. split; [by left|done].
  - apply Permutation_sym, Permutation_length_1_inv in Hperm.
    destruct (URL.type u0 =? HOMEPAGE) eqn:Ht; cbn [negb];
      (eexists; split; [done|]); rewrite Hperm.
    + split; [done|]. split; [|done]. intros _. right. exists u0.
      split; [done|]. by apply N.eqb_eq.
    + split.
      * intros v [= <-]. exists u0. split; [apply list_elem_of_here|done].
      * split; [done|]. intros [?|(u & [= <-] & Hu)]; [done|].
        apply N.eqb_neq in Ht. done.
  - assert (u0 ∈ ThirdParty.url (Metadata.third_party md)) as H0.
    { rewrite Hperm. apply list_elem_of_here. }
    assert (u1 ∈ ThirdParty.url (Metadata.third_party md)) as H1.
    { rewrite Hperm. apply list_elem_of_further, list_elem_of_here. }
    assert (∀ r : option pystr, (∃ v, r = Some v) →
              r = None ↔
              ThirdParty.url (Metadata.third_party md) = [] ∨
              ∃ u, ThirdParty.url (Metadata.third_party md) = [u] ∧
                   URL.type u = HOMEPAGE) as Hsome.
    { intros r [v ->]. split; [done|].
      intros [Hnil|(u & Hu & _)];
        apply Permutation_length in Hperm; rewrite ?Hnil, ?Hu in Hperm;
        simpl in Hperm; lia. }
    destruct (negb _); (eexists; split; [done|]);
      (split; [intros v [= <-]; eauto | apply Hsome; eauto]).
Qed.

(** ** Security tags in exact case *)

Lemma lower_app (a b : pystr) : lower (a ++ b) = lower a ++ lower b.
Proof. unfold lower. apply flat_map_app. Qed.

Lemma startswith_app_self (a b : pystr) : Str.startswith (a ++ b) a = true.
Proof. apply startswith_spec. eauto. Qed.

Lemma startswith_app_common (a x b : pystr) :
  Str.startswith (a ++ x) (a ++ b) = Str.startswith x b.
Proof.
  induction a as [|c a IH]; [done|]. cbn [app Str.startswith].
  by rewrite N.eqb_refl, IH.
Qed.

Lemma removeprefix_app (a b : pystr) : Str.removeprefix (a ++ b) a = b.
Proof.
  unfold Str.removeprefix. rewrite startswith_app_self. apply drop_app_length.
Qed.

(** X11. A security tag written in exact case yields one reference whose
    locator is the tag without NVD-CPE2.3: and is not reported: of type
    cpe23Type for NVD-CPE2.3:cpe:2.3:..., of type cpe22Type for
    NVD-CPE2.3:cpe:/... *)
Theorem exact_case_tag_locator (rest path : pystr) (rep : Report.t) :
  (let tag := NVD_CPE23 ++ py "cpe:2.3:" ++ rest in
   tag_external_refs tag
   = [PackageExternalRef.mk SECURITY cpe23Type (py "cpe:2.3:" ++ rest)] ∧
   validate_tags path [tag] rep = rep) ∧
  (let tag := NVD_CPE23 ++ py "cpe:/" ++ rest in
   tag_external_refs tag
   = [PackageExternalRef.mk SECURITY cpe22Type (py "cpe:/" ++ rest)] ∧
   validate_tags path [tag] rep = rep).
Proof.
  split; intros tag; subst tag; unfold tag_external_refs, validate_tags,
    security_ref; cbn [fold_left]; rewrite !removeprefix_app,
    !startswith_app_self; cbn [negb]; (split; [|done]).
  - rewrite app_assoc, lower_app. by rewrite startswith_app_self.
  - rewrite (app_assoc NVD_CPE23 (py "cpe:/")), lower_app.
    assert (Str.startswith (lower (NVD_CPE23 ++ py "cpe:/") ++ lower rest)
              (lower (NVD_CPE23 ++ py "cpe:2.3:")) = false) as ->
      by by vm_compute.
    by rewrite startswith_app_self.
Qed.

(** X12. A tag that begins with exactly NVD-CPE2.3: but continues with
    neither cpe:2.3: nor cpe:/ (in any case) is dropped silently: the
    package gets no reference for it and the report no diagnostic. *)
Theorem unrecognised_nvd_tag_dropped (rest path : pystr) (rep : Report.t) :
  Str.startswith (lower rest) (py "cpe:2.3:") = false →
  Str.startswith (lower rest) (py "cpe:/") = false →
  tag_external_refs (NVD_CPE23 ++ rest) = [] ∧
  validate_tags path [NVD_CPE23 ++ rest] rep = rep.
Proof.
  intros H23 H22. unfold tag_external_refs, validate_tags. cbn [fold_left].
  rewrite startswith_app_self, !lower_app. cbn [negb].
  change (lower (py "cpe:2.3:")) with (py "cpe:2.3:").
  change (lower (py "cpe:/")) with (py "cpe:/").
  by rewrite !startswith_app_common, H23, H22.
Qed.

Lemma replace_removes (s : pystr) (a b : N) : a ≠ b → a ∉ Str.replace s a b.
Proof.
  intros Hab Hin. unfold Str.replace in Hin.
  apply list_elem_of_In, in_map_iff in Hin as (c & Hc & _).
  destruct (c =? a) eqn:E; [congruence|]. apply N.eqb_neq in E. congruence.
Qed.

(** X13. The name of a prebuilt package never contains a path separator. *)
Theorem prebuilt_name_has_no_separator (protos : gmap (list N) Metadata.t)
    (m : FileMetadata.t) (path name : pystr) :
  get_prebuilt_package_name protos m path = Ok name → ch "/" ∉ name.
Proof.
  unfold get_prebuilt_package_name. intros H.
  apply bind_Ok in H as ([n|] & _ & H); [|done]. injection H as <-.
  apply replace_removes. by vm_compute.
Qed.

(** ** Fragment builder *)

Lemma fragments_shape_aux (protos : gmap (list N) Metadata.t)
    (m : FileMetadata.t) (path : pystr) e pkgs rels :
  get_sbom_fragments protos m path = Ok (e, pkgs, rels) →
  (is_source_package m = true →
   e = None ∧
   ∃ s u, pkgs = [s; u] ∧ Package.name s = Package.name u ∧
          rels = [Relationship.mk (Package.id s) VARIANT_OF (Package.id u)]) ∧
  (is_source_package m = false → is_prebuilt_package m = true →
   ∃ p, pkgs = [p] ∧
     ((e = None ∧ rels = []) ∨
      ∃ ref element_id,
        e = Some ref ∧
        rels = [Relationship.mk (Package.id p) VARIANT_OF
                  (DocumentExternalReference.id ref ++ py ":" ++ element_id)])) ∧
  (is_source_package m = false → is_prebuilt_package m = false →
   e = None ∧ pkgs = [] ∧ rels = []) ∧
  (∀ p, head pkgs = Some p →
        Package.version p = Some build_version ∧
        Package.supplier p = Some (organization product_mfr) ∧
        Package.download_location p = Some VALUE_NONE).
Proof.
  unfold get_sbom_fragments. intros H.
  apply bind_Ok in H as (h & _ & H). apply bind_Ok in H as (v & _ & H).
  apply bind_Ok in H as (l & _ & H).
  destruct (is_source_package m).
  { apply bind_Ok in H as ([name refs] & _ & H).
    apply bind_Ok in H as (sid & _ & H). apply bind_Ok in H as (uid & _ & H).
    injection H as <- <- <-.
    split; [|split; [done|split; [done|by intros ? [= <-]]]].
    intros _. split; [done|]. eexists _, _. by repeat split. }
  destruct (is_prebuilt_package m).
  { apply bind_Ok in H as (name & _ & H). apply bind_Ok in H as (pid & _ & H).
    split; [done|].
    assert (∀ p e' rels',
              (e' = None ∧ rels' = []) ∨
              (∃ ref element_id, e' = Some ref ∧
                 rels' = [Relationship.mk (Package.id p) VARIANT_OF
                            (DocumentExternalReference.id ref ++ py ":"
                             ++ element_id)]) →
              Package.version p = Some build_version ∧
              Package.supplier p = Some (organization product_mfr) ∧
              Package.download_location p = Some VALUE_NONE →
              (false = false → true = true →
               ∃ p0, [p] = [p0] ∧
                 ((e' = None ∧ rels' = []) ∨
                  ∃ ref element_id, e' = Some ref ∧
                    rels' = [Relationship.mk (Package.id p0) VARIANT_OF
                               (DocumentExternalReference.id ref ++ py ":"
                                ++ element_id)])) ∧
              (false = false → true = false →
               e' = None ∧ [p] = [] ∧ rels' = []) ∧
              (∀ p0, head [p] = Some p0 →
                 Package.version p0 = Some build_version ∧
                 Package.supplier p0 = Some (organization product_mfr) ∧
                 Package.download_location p0 = Some VALUE_NONE)) as Hone.
    { intros p e' rels' Hr Hp. split; [eauto|]. split; [done|].
      by intros ? [= <-]. }
    destruct (truthy path).
    - apply bind_Ok in H as (md & _ & H).
      destruct (ThirdParty.sbom_ref (Metadata.third_party md)) as [ref|].
      + destruct (truthy _ && truthy _ && truthy _).
        * apply bind_Ok in H as (enc & _ & H). injection H as <- <- <-.
          apply Hone; [|done]. right. eexists _, _. done.
        * injection H as <- <- <-. apply Hone; [by left|done].
      + injection H as <- <- <-. apply Hone; [by left|done].
    - injection H as <- <- <-. apply Hone; [by left|done]. }
  injection H as <- <- <-. by repeat split.
Qed.

(** X14. The shape of what the fragment builder returns: a source record
    gives two packages of one name and one VARIANT_OF relationship between
    them; a prebuilt record gives one package and at most one relationship,
    which is there exactly when an external document reference is; any other
    record gives nothing.  The first package always carries the build
    version, the manufacturer as supplier and the withheld download
    location. *)
Theorem fragments_shape (protos : gmap (list N) Metadata.t)
    (m : FileMetadata.t) (path : pystr) e pkgs rels :
  get_sbom_fragments protos m path = Ok (e, pkgs, rels) →
  (is_source_package m = true →
   e = None ∧
   ∃ s u, pkgs = [s; u] ∧ Package.name s = Package.name u ∧
          rels = [Relationship.mk (Package.id s) VARIANT_OF (Package.id u)]) ∧
  (is_source_package m = false → is_prebuilt_package m = true →
   ∃ p, pkgs = [p] ∧
     ((e = None ∧ rels = []) ∨
      ∃ ref element_id,
        e = Some ref ∧
        rels = [Relationship.mk (Package.id p) VARIANT_OF
                  (DocumentExternalReference.id ref ++ py ":" ++ element_id)])) ∧
  (is_source_package m = false → is_prebuilt_package m = false →
   e = None ∧ pkgs = [] ∧ rels = []) ∧
  (∀ p, head pkgs = Some p →
        Package.version p = Some build_version ∧
        Package.supplier p = Some (organization product_mfr) ∧
        Package.download_location p = Some VALUE_NONE).
Proof. apply fragments_shape_aux. Qed.

(** X15. A source record without METADATA file still yields its two
    packages, both named by the raw module path: the source package has no
    security reference, and the upstream package has neither version nor
    download location and an unasserted supplier. *)
Theorem source_fragments_without_descriptor (protos : gmap (list N) Metadata.t)
    (m : FileMetadata.t) (e : pystr) :
  is_source_package m = true →
  encode_for_spdxid (module_path m) = Ok e →
  get_sbom_fragments protos m [] =
  Ok (None,
      [ Package.mk (py "SPDXRef-SOURCE-" ++ e) (module_path m)
          (Some build_version) (Some (organization product_mfr))
          (Some VALUE_NONE) false None [] [];
        Package.mk (py "SPDXRef-UPSTREAM-" ++ e) (module_path m)
          None (Some VALUE_NOASSERTION) None false None [] [] ],
      [ Relationship.mk (py "SPDXRef-SOURCE-" ++ e) VARIANT_OF
          (py "SPDXRef-UPSTREAM-" ++ e) ]).
Proof.
  intros Hsrc He. unfold get_sbom_fragments, get_package_homepage,
    get_package_version, get_package_download_location,
    get_source_package_info, new_package_id.
  cbn [truthy negb mbind result_bind]. rewrite Hsrc.
  cbn [mbind result_bind]. rewrite He. reflexivity.
Qed.

(** X16. A prebuilt record whose descriptor refers to an external SBOM
    yields an external document reference and a VARIANT_OF relationship to
    the referenced element exactly when URL, checksum and element id are
    all present; the identifier of the reference is built from the package
    name. *)
Theorem prebuilt_sbom_reference (protos : gmap (list N) Metadata.t)
    (m : FileMetadata.t) (path : pystr) (md : Metadata.t) (ref : SBOMRef.t)
    (name e : pystr) :
  is_source_package m = false → is_prebuilt_package m = true →
  truthy path = true → protos !! path = Some md →
  ThirdParty.sbom_ref (Metadata.third_party md) = Some ref →
  get_prebuilt_package_name protos m path = Ok name →
  encode_for_spdxid name = Ok e →
  let package :=
    Package.mk (py "SPDXRef-PREBUILT-" ++ e) name (Some build_version)
      (Some (organization product_mfr)) (Some VALUE_NONE) false None [] [] in
  let doc_ref_id := py "DocumentRef-UPSTREAM-" ++ e in
  get_sbom_fragments protos m path =
  Ok (if truthy (SBOMRef.url ref) && truthy (SBOMRef.checksum ref)
         && truthy (SBOMRef.element_id ref)
      then (Some (DocumentExternalReference.mk doc_ref_id (SBOMRef.url ref)
                    (SBOMRef.checksum ref)),
            [package],
            [Relationship.mk (py "SPDXRef-PREBUILT-" ++ e) VARIANT_OF
               (doc_ref_id ++ py ":" ++ SBOMRef.element_id ref)])
      else (None, [package], [])).
Proof.
  intros Hsrc Hpre Hp Hmd Href Hname He package doc_ref_id.
  destruct (metadata_info_Ok protos path md Hp Hmd) as (Hv & [h Hh] & [l Hl]).
  unfold get_sbom_fragments, new_package_id.
  rewrite Hh, Hv, Hl, Hsrc, Hpre, Hname. cbn [mbind result_bind].
  rewrite He, Hp, (getitem_Some _ _ _ Hmd). cbn [mbind result_bind].
  rewrite Href. destruct (truthy _ && truthy _ && truthy _); [|done].
  cbn [mbind result_bind]. reflexivity.
Qed.

(** X17. A resolved path that is not a key of [metadata_file_protos]
    makes the fragment builder raise KeyError, whatever the record. *)
Theorem fragments_missing_key (protos : gmap (list N) Metadata.t)
    (m : FileMetadata.t) (path : pystr) :
  truthy path = true → protos !! path = None →
  get_sbom_fragments protos m path = Raise KeyError.
Proof.
  intros Hp Hnone. unfold get_sbom_fragments, get_package_homepage, getitem.
  by rewrite Hp, Hnone.
Qed.

(** ** Reporting on a METADATA file *)

(** X18. A directory that is already a key of [metadata_file_protos] is
    resolved quietly: the call appends one entry, which names the installed
    file, the module path and the METADATA file, to the list of found
    METADATA files; the five other lists of the report, the dictionary and
    the document stay as they are. *)
Theorem repeated_resolution_is_quiet (path : pystr) (m : FileMetadata.t)
    (st st' : State) :
  truthy path = true → is_Some (metadata_file_protos st !! path) →
  report_metadata_file path m st = Ok st' →
  metadata_file_protos st' = metadata_file_protos st ∧ doc st' = doc st ∧
  Report.ISSUE_NO_METADATA (report st') = Report.ISSUE_NO_METADATA (report st) ∧
  Report.ISSUE_NO_METADATA_FILE (report st')
  = Report.ISSUE_NO_METADATA_FILE (report st) ∧
  Report.ISSUE_METADATA_FILE_INCOMPLETE (report st')
  = Report.ISSUE_METADATA_FILE_INCOMPLETE (report st) ∧
  Report.ISSUE_UNKNOWN_SECURITY_TAG_TYPE (report st')
  = Report.ISSUE_UNKNOWN_SECURITY_TAG_TYPE (report st) ∧
  Report.ISSUE_INSTALLED_FILE_NOT_EXIST (report st')
  = Report.ISSUE_INSTALLED_FILE_NOT_EXIST (report st) ∧
  Report.INFO_METADATA_FOUND_FOR_PACKAGE (report st')
  = Report.INFO_METADATA_FOUND_FOR_PACKAGE (report st)
    ++ [py "installed_file: " ++ installed_file m
        ++ py ", module_path: " ++ module_path m
        ++ py ", METADATA file: " ++ path ++ py "/METADATA"].
Proof.
  intros Hp [md Hmd]. unfold report_metadata_file. rewrite Hp, Hmd. intros H.
  apply bind_Ok in H as (md' & _ & [= <-]).
  cbn [metadata_file_protos doc report Report.add_found
       Report.ISSUE_NO_METADATA Report.ISSUE_NO_METADATA_FILE
       Report.ISSUE_METADATA_FILE_INCOMPLETE
       Report.ISSUE_UNKNOWN_SECURITY_TAG_TYPE
       Report.ISSUE_INSTALLED_FILE_NOT_EXIST
       Report.INFO_METADATA_FOUND_FOR_PACKAGE].
  repeat split.
Qed.

Lemma validate_tags_keeps (path : pystr) (tags : list pystr) (rep : Report.t) :
  let rep' := validate_tags path tags rep in
  Report.ISSUE_NO_METADATA rep' = Report.ISSUE_NO_METADATA rep ∧
  Report.ISSUE_NO_METADATA_FILE rep' = Report.ISSUE_NO_METADATA_FILE rep ∧
  Report.ISSUE_METADATA_FILE_INCOMPLETE rep'
  = Report.ISSUE_METADATA_FILE_INCOMPLETE rep ∧
  Report.ISSUE_INSTALLED_FILE_NOT_EXIST rep'
  = Report.ISSUE_INSTALLED_FILE_NOT_EXIST rep ∧
  Report.INFO_METADATA_FOUND_FOR_PACKAGE rep'
  = Report.INFO_METADATA_FOUND_FOR_PACKAGE rep.
Proof.
  unfold validate_tags. revert rep; induction tags as [|t tags IH]; intros rep.
  - done.
  - cbn [fold_left]. destruct (negb (Str.startswith t NVD_CPE23)); [|apply IH].
    destruct (IH (Report.add_unknown_tag (unknown_tag_message path t) rep))
      as (-> & -> & -> & -> & ->). done.
Qed.

(** The diagnostics for a descriptor that lacks a field. *)
Lemma validate_metadata_incomplete (path : pystr) (md : Metadata.t)
    (rep : Report.t) :
  Report.ISSUE_METADATA_FILE_INCOMPLETE (validate_metadata path md rep)
  = Report.ISSUE_METADATA_FILE_INCOMPLETE rep
    ++ (if truthy (Metadata.name md) then []
        else [path ++ py "/METADATA does not has " ++ quoted (py "name")])
    ++ (if truthy (ThirdParty.version (Metadata.third_party md)) then []
        else [path ++ py "/METADATA does not has "
              ++ quoted (py "third_party.version")]).
Proof.
  unfold validate_metadata.
  match goal with |- context [validate_tags ?p ?t ?r] =>
    destruct (validate_tags_keeps p t r) as (_ & _ & -> & _) end.
  destruct (truthy (Metadata.name md)),
    (truthy (ThirdParty.version (Metadata.third_party md)));
    cbn [negb Report.add_incomplete Report.ISSUE_METADATA_FILE_INCOMPLETE];
    rewrite <- ?app_assoc, ?app_nil_r; done.
Qed.

(** X19. The first resolution of a directory stores the parsed descriptor
    under the directory path and validates it: one diagnostic for a missing
    name, one for a missing version, and one for each security tag that
    does not begin with NVD-CPE2.3:, in the order of the tags. *)
Theorem first_resolution_validates (path : pystr) (m : FileMetadata.t)
    (st st' : State) :
  truthy path = true → metadata_file_protos st !! path = None →
  report_metadata_file path m st = Ok st' →
  ∃ md, parse_metadata (path ++ py "/METADATA") = Ok md ∧
    metadata_file_protos st' = <[path := md]> (metadata_file_protos st) ∧
    Report.ISSUE_METADATA_FILE_INCOMPLETE (report st')
    = Report.ISSUE_METADATA_FILE_INCOMPLETE (report st)
      ++ (if truthy (Metadata.name md) then []
          else [path ++ py "/METADATA does not has " ++ quoted (py "name")])
      ++ (if truthy (ThirdParty.version (Metadata.third_party md)) then []
          else [path ++ py "/METADATA does not has "
                ++ quoted (py "third_party.version")]) ∧
    Report.ISSUE_UNKNOWN_SECURITY_TAG_TYPE (report st')
    = Report.ISSUE_UNKNOWN_SECURITY_TAG_TYPE (report st)
      ++ map (unknown_tag_message path)
           (List.filter (λ tag, negb (Str.startswith tag NVD_CPE23))
              (ThirdParty.security_tag (Metadata.third_party md))).
Proof.
  intros Hp Hnone. unfold report_metadata_file. rewrite Hp, Hnone. intros H.
  apply bind_Ok in H as (md & Hmd & [= <-]). exists md.
  cbn [metadata_file_protos report].
  rewrite validate_metadata_incomplete, validate_metadata_unknown. done.
Qed.

(** ** The main pass: reports and edges *)

(** X20. A record that has metadata but whose installed file is neither
    a file nor a link on disk is listed among the non-existent files and
    changes nothing else: the five other lists of the report stay as they
    are, and there is no File node, no relationship and no lookup of a
    METADATA file. *)
Theorem missing_file_record_skipped (st : State) (m : FileMetadata.t) :
  no_metadata m = false → on_disk (installed_file m) = false →
  ∃ st', process_record st m = Ok st' ∧
    Report.ISSUE_INSTALLED_FILE_NOT_EXIST (report st')
    = Report.ISSUE_INSTALLED_FILE_NOT_EXIST (report st) ++ [installed_file m] ∧
    Report.ISSUE_NO_METADATA (report st') = Report.ISSUE_NO_METADATA (report st) ∧
    Report.ISSUE_NO_METADATA_FILE (report st')
    = Report.ISSUE_NO_METADATA_FILE (report st) ∧
    Report.ISSUE_METADATA_FILE_INCOMPLETE (report st')
    = Report.ISSUE_METADATA_FILE_INCOMPLETE (report st) ∧
    Report.ISSUE_UNKNOWN_SECURITY_TAG_TYPE (report st')
    = Report.ISSUE_UNKNOWN_SECURITY_TAG_TYPE (report st) ∧
    Report.INFO_METADATA_FOUND_FOR_PACKAGE (report st')
    = Report.INFO_METADATA_FOUND_FOR_PACKAGE (report st) ∧
    doc st' = doc st ∧
    metadata_file_protos st' = metadata_file_protos st ∧
    parsed st' = parsed st.
Proof.
  intros Hmeta Hdisk. unfold process_record, installed_file_has_metadata.
  rewrite Hmeta. cbn [negb]. rewrite Hdisk. cbn [negb].
  eexists. split; [reflexivity|]. done.
Qed.

Lemma report_metadata_file_skips (path : pystr) (m : FileMetadata.t)
    (st st' : State) :
  report_metadata_file path m st = Ok st' →
  Report.ISSUE_NO_METADATA (report st') = Report.ISSUE_NO_METADATA (report st) ∧
  Report.ISSUE_INSTALLED_FILE_NOT_EXIST (report st')
  = Report.ISSUE_INSTALLED_FILE_NOT_EXIST (report st).
Proof.
  unfold report_metadata_file. destruct (truthy path).
  - intros H. apply bind_Ok in H as (md & _ & H).
    destruct (metadata_file_protos st !! path); injection H as <-; [done|].
    cbn [report]. unfold validate_metadata.
    match goal with |- context [validate_tags ?p ?t ?r] =>
      destruct (validate_tags_keeps p t r) as (-> & _ & _ & -> & _) end.
    by destruct (negb (truthy (Metadata.name md))),
         (negb (truthy (ThirdParty.version (Metadata.third_party md)))).
  - by intros [= <-].
Qed.

Lemma attribute_file_report (fid : pystr) (m : FileMetadata.t) (st st' : State) :
  attribute_file fid m st = Ok st' →
  Report.ISSUE_NO_METADATA (report st') = Report.ISSUE_NO_METADATA (report st) ∧
  Report.ISSUE_INSTALLED_FILE_NOT_EXIST (report st')
  = Report.ISSUE_INSTALLED_FILE_NOT_EXIST (report st).
Proof.
  unfold attribute_file. destruct (main_branch m).
  - intros H. apply bind_Ok in H as (path & _ & H).
    apply bind_Ok in H as (st1 & Hrep & H).
    apply bind_Ok in H as ([[e pkgs] rels] & _ & [= <-]).
    by apply report_metadata_file_skips in Hrep.
  - by intros [= <-].
  - by intros [= <-].
  - by intros [= <-].
  - by intros [= <-].
  - by intros [= <-].
Qed.

Lemma process_record_report (st st' : State) (m : FileMetadata.t) :
  process_record st m = Ok st' →
  Report.ISSUE_NO_METADATA (report st')
  = Report.ISSUE_NO_METADATA (report st)
    ++ (if no_metadata m then [installed_file m] else []) ∧
  Report.ISSUE_INSTALLED_FILE_NOT_EXIST (report st')
  = Report.ISSUE_INSTALLED_FILE_NOT_EXIST (report st)
    ++ (if missing m then [installed_file m] else []).
Proof.
  unfold process_record, installed_file_has_metadata, missing.
  destruct (no_metadata m); cbn [negb andb].
  { intros [= <-]. cbn. by rewrite app_nil_r. }
  destruct (on_disk (installed_file m)); cbn [negb andb].
  2:{ intros [= <-]. cbn. by rewrite app_nil_r. }
  intros H. apply bind_Ok in H as ([fid st1] & Hrec & Hattr).
  apply record_file_spec in Hrec as (sum & _ & _ & ->).
  apply attribute_file_report in Hattr as [-> ->]. cbn. by rewrite !app_nil_r.
Qed.

Lemma scan_report (rows : list FileMetadata.t) (st st' : State) :
  scan rows st = Ok st' →
  Report.ISSUE_NO_METADATA (report st')
  = Report.ISSUE_NO_METADATA (report st)
    ++ map installed_file (List.filter no_metadata rows) ∧
  Report.ISSUE_INSTALLED_FILE_NOT_EXIST (report st')
  = Report.ISSUE_INSTALLED_FILE_NOT_EXIST (report st)
    ++ map installed_file (List.filter missing rows).
Proof.
  revert st; induction rows as [|m rows IH]; intros st; cbn [scan].
  - intros [= <-]. cbn. by rewrite !app_nil_r.
  - intros H. apply bind_Ok in H as (st1 & Hstep & Hscan).
    apply process_record_report in Hstep as [H1 H2].
    apply IH in Hscan as [-> ->]. rewrite H1, H2. cbn [List.filter].
    destruct (no_metadata m), (missing m); cbn [map];
      rewrite <- ?app_assoc, ?app_nil_r; done.
Qed.

Lemma Forall2_file_of_names (ms : list FileMetadata.t) (fs : list File.t) :
  Forall2 file_of ms fs → map File.name fs = map installed_file ms.
Proof.
  induction 1 as [|m f ms fs [Hn _] _ IH]; [done|]. cbn. by rewrite Hn, IH.
Qed.

Lemma rows_three_ways (rows : list FileMetadata.t) :
  length rows
  = (length (List.filter no_metadata rows) + length (List.filter missing rows)
     + length (List.filter recorded rows))%nat.
Proof.
  induction rows as [|m rows IH]; [done|]. cbn [List.filter length].
  assert (missing m = negb (no_metadata m) && negb (on_disk (installed_file m)))
    as -> by done.
  assert (recorded m = negb (no_metadata m) && on_disk (installed_file m))
    as -> by done.
  destruct (no_metadata m), (on_disk (installed_file m)); cbn [negb andb length];
    lia.
Qed.

(** X21. The main pass sorts the rows three ways, each row one way: the
    rows without metadata make up the first list of the report, the rows
    whose file is not on disk the list of non-existent files, and all other
    rows the file list of the document, each in the order of the rows. *)
Theorem rows_partition (rows : list FileMetadata.t) (st : State) :
  scan rows initial_state = Ok st →
  Report.ISSUE_NO_METADATA (report st)
  = map installed_file (List.filter no_metadata rows) ∧
  Report.ISSUE_INSTALLED_FILE_NOT_EXIST (report st)
  = map installed_file (List.filter missing rows) ∧
  map File.name (Document.files (doc st))
  = map installed_file (List.filter recorded rows) ∧
  length rows
  = (length (Report.ISSUE_NO_METADATA (report st))
     + length (Report.ISSUE_INSTALLED_FILE_NOT_EXIST (report st))
     + length (Document.files (doc st)))%nat.
Proof.
  intros H.
  destruct (scan_report _ _ _ H) as [H1 H2]. cbn in H1, H2.
  destruct (scan_spec rows initial_state st _ H eq_refl)
    as ((new & Hnew & Hfiles & _) & _).
  cbn in Hfiles. apply Forall2_file_of_names in Hnew.
  rewrite H1, H2, Hfiles, Hnew. repeat split.
  rewrite <- (length_map File.name), Hnew, !length_map. apply rows_three_ways.
Qed.

Lemma alter_product_ids (f : Package.t → Package.t) (ps : list Package.t) :
  (∀ p, Package.id (f p) = Package.id p) →
  map Package.id (alter f 0%nat ps) = map Package.id ps.
Proof. intros Hf. destruct ps as [|p ps]; [done|]. cbn. by rewrite Hf. Qed.

(** X22. A recorded file that falls to the platform package adds one
    GENERATED_FROM relationship from its File node to the platform package
    and nothing else: no package, no external reference, no METADATA lookup,
    no diagnostic. *)
Theorem platform_record_edge (st st' : State) (m : FileMetadata.t) :
  recorded m = true → is_platform_branch (main_branch m) = true →
  process_record st m = Ok st' →
  report st' = report st ∧
  metadata_file_protos st' = metadata_file_protos st ∧
  parsed st' = parsed st ∧
  Document.external_refs (doc st') = Document.external_refs (doc st) ∧
  map Package.id (Document.packages (doc st'))
  = map Package.id (Document.packages (doc st)) ∧
  ∃ fid, new_file_id (installed_file m) = Ok fid ∧
    Document.relationships (doc st')
    = Document.relationships (doc st) ++ [generated_from fid SPDXID_PLATFORM].
Proof.
  unfold recorded, process_record, installed_file_has_metadata.
  intros Hrec Hplat. apply andb_true_iff in Hrec as [Hmeta Hdisk].
  apply negb_true_iff in Hmeta. rewrite Hmeta, Hdisk. cbn [negb].
  intros H. apply bind_Ok in H as ([fid st1] & Hfile & Hattr).
  apply record_file_spec in Hfile as (sum & Hid & _ & ->).
  unfold attribute_file in Hattr.
  destruct (main_branch m); try done; injection Hattr as <-;
    cbn [with_doc with_report doc report metadata_file_protos parsed
         Document.add_relationship Document.update_product_package
         Document.set_packages Document.append_file Document.external_refs
         Document.packages Document.relationships];
    (repeat split; try done; [by apply alter_product_ids | by exists fid]).
Qed.

(** ** The main pass: every relationship has its endpoints *)

Lemma edge_resolved_mono (d d' : Document.t) (r : Relationship.t) :
  map File.id (Document.files d) ⊆ map File.id (Document.files d') →
  map Package.id (Document.packages d) ⊆ map Package.id (Document.packages d') →
  Document.external_refs d ⊆ Document.external_refs d' →
  edge_resolved d r → edge_resolved d' r.
Proof.
  unfold edge_resolved. intros Hf Hp He.
  destruct (Relationship.relationship r).
  - intros [H1 [H2|(ref & el & Href & H2)]]; split; auto.
    right. exists ref, el. auto.
  - intros [H1 H2]. auto.
Qed.

Lemma add_package_ids (p : Package.t) (d : Document.t) :
  map Package.id (Document.packages d)
    ⊆ map Package.id (Document.packages (Document.add_package p d)) ∧
  Package.id p ∈ map Package.id (Document.packages (Document.add_package p d)) ∧
  Document.relationships (Document.add_package p d) = Document.relationships d ∧
  Document.external_refs (Document.add_package p d) = Document.external_refs d.
Proof.
  unfold Document.add_package. destruct (existsb _ _) eqn:E.
  - repeat split; [done|].
    apply existsb_exists in E as (q & Hq & Heq).
    unfold str_eqb in Heq. apply bool_decide_eq_true in Heq. rewrite Heq.
    apply list_elem_of_In, in_map, Hq.
  - cbn. rewrite map_app. repeat split.
    + intros x Hx. apply elem_of_app. by left.
    + apply elem_of_app. right. cbn. apply list_elem_of_here.
Qed.

Lemma add_packages_ids (ps : list Package.t) (d : Document.t) :
  let d' := fold_left (λ d p, Document.add_package p d) ps d in
  map Package.id (Document.packages d) ⊆ map Package.id (Document.packages d') ∧
  (∀ p, p ∈ ps → Package.id p ∈ map Package.id (Document.packages d')) ∧
  Document.relationships d' = Document.relationships d ∧
  Document.external_refs d' = Document.external_refs d.
Proof.
  revert d; induction ps as [|p ps IH]; intros d; cbn [fold_left].
  - repeat split; [done|]. intros p Hp. by apply elem_of_nil in Hp.
  - destruct (IH (Document.add_package p d)) as (Hsub & Hin & Hr & He).
    destruct (add_package_ids p d) as (Hsub0 & Hin0 & Hr0 & He0).
    repeat split.
    + etrans; [exact Hsub0 | exact Hsub].
    + intros q Hq. apply elem_of_cons in Hq as [->|Hq]; [by apply Hsub | by apply Hin].
    + by rewrite Hr.
    + by rewrite He.
Qed.

Lemma add_relationships_all (rels : list Relationship.t) (d : Document.t) :
  let d' := fold_left (λ d rel, Document.add_relationship rel d) rels d in
  Document.relationships d' = Document.relationships d ++ rels ∧
  Document.external_refs d' = Document.external_refs d.
Proof.
  revert d; induction rels as [|r rels IH]; intros d; cbn [fold_left].
  - by rewrite app_nil_r.
  - destruct (IH (Document.add_relationship r d)) as [-> ->]. cbn.
    by rewrite <- app_assoc.
Qed.

(** What the packages and relationships of a fragment have to do with
    each other for the document to stay closed. *)
Lemma fragments_closed (protos : gmap (list N) Metadata.t)
    (m : FileMetadata.t) (path : pystr) e pkgs rels :
  get_sbom_fragments protos m path = Ok (e, pkgs, rels) →
  Forall (λ r, Relationship.relationship r = VARIANT_OF ∧
               Relationship.id1 r ∈ map Package.id pkgs ∧
               (Relationship.id2 r ∈ map Package.id pkgs ∨
                ∃ ref element_id,
                  e = Some ref ∧
                  Relationship.id2 r
                  = DocumentExternalReference.id ref ++ py ":" ++ element_id))
    rels.
Proof.
  intros H. apply fragments_shape_aux in H as (Hsrc & Hpre & Hnone & _).
  destruct (is_source_package m).
  - destruct (Hsrc eq_refl) as (_ & s0 & u & -> & _ & ->).
    constructor; [|constructor]. split; [done|]. cbn. split.
    + apply list_elem_of_here.
    + left. apply list_elem_of_further, list_elem_of_here.
  - destruct (is_prebuilt_package m).
    + destruct (Hpre eq_refl eq_refl)
        as (p0 & -> & [[_ ->]|(ref & el & -> & ->)]); [constructor|].
      constructor; [|constructor]. split; [done|]. cbn. split.
      * apply list_elem_of_here.
      * right. by exists ref, el.
    + destruct (Hnone eq_refl eq_refl) as (_ & _ & ->). constructor.
Qed.

Lemma add_fragments_resolved (fid : pystr) e (pkgs : list Package.t) rels
    (d : Document.t) :
  Forall (edge_resolved d) (Document.relationships d) →
  fid ∈ map File.id (Document.files d) →
  Forall (λ r, Relationship.relationship r = VARIANT_OF ∧
               Relationship.id1 r ∈ map Package.id pkgs ∧
               (Relationship.id2 r ∈ map Package.id pkgs ∨
                ∃ ref element_id,
                  e = Some ref ∧
                  Relationship.id2 r
                  = DocumentExternalReference.id ref ++ py ":" ++ element_id))
    rels →
  let d' := add_fragments fid e pkgs rels d in
  Forall (edge_resolved d') (Document.relationships d') ∧
  map Package.id (Document.packages d) ⊆ map Package.id (Document.packages d').
Proof.
  intros Hold Hfid Hfrag. unfold add_fragments.
  destruct pkgs as [|p0 pkgs]; [done|].
  set (d1 := match e with Some r => Document.add_external_ref r d | None => d end).
  assert (Document.files d1 = Document.files d ∧
          Document.packages d1 = Document.packages d ∧
          Document.relationships d1 = Document.relationships d ∧
          Document.external_refs d ⊆ Document.external_refs d1 ∧
          ∀ ref, e = Some ref → ref ∈ Document.external_refs d1)
    as (Hf1 & Hp1 & Hr1 & He1 & Href1).
  { subst d1. destruct e as [ref|]; cbn; repeat split; try done.
    - intros x Hx. apply elem_of_app. by left.
    - intros ? [= <-]. apply elem_of_app. right. apply list_elem_of_here. }
  set (d2 := fold_left _ (p0 :: pkgs) d1).
  destruct (add_packages_keep (p0 :: pkgs) d1) as [Hf2 _]. fold d2 in Hf2.
  destruct (add_packages_ids (p0 :: pkgs) d1) as (Hsub2 & Hin2 & Hr2 & He2).
  fold d2 in Hsub2, Hin2, Hr2, He2.
  set (d3 := fold_left _ rels d2).
  destruct (add_relationships_keep rels d2) as [Hf3 Hp3]. fold d3 in Hf3, Hp3.
  destruct (add_relationships_all rels d2) as [Hr3 He3]. fold d3 in Hr3, He3.
  set (d4 := Document.add_relationship _ d3).
  assert (Document.files d4 = Document.files d) as Hf4.
  { subst d4. cbn. by rewrite Hf3, Hf2, Hf1. }
  assert (Document.packages d4 = Document.packages d2) as Hp4.
  { subst d4. cbn. by rewrite Hp3. }
  assert (Document.external_refs d4 = Document.external_refs d1) as He4.
  { subst d4. cbn. by rewrite He3, He2. }
  assert (map Package.id (Document.packages d)
            ⊆ map Package.id (Document.packages d4)) as Hsub.
  { rewrite Hp4, <- Hp1. exact Hsub2. }
  split; [|exact Hsub].
  assert (∀ p, p ∈ p0 :: pkgs →
               Package.id p ∈ map Package.id (Document.packages d4)) as Hin.
  { intros p Hp. rewrite Hp4. by apply Hin2. }
  assert (∀ i, i ∈ map Package.id (p0 :: pkgs) →
               i ∈ map Package.id (Document.packages d4)) as Hin'.
  { intros i Hi. apply list_elem_of_In, in_map_iff in Hi as (p & <- & Hp).
    apply Hin. by apply list_elem_of_In. }
  subst d4. cbn [Document.add_relationship Document.relationships].
  rewrite Hr3, Hr2, Hr1. repeat (apply Forall_app; split).
  - eapply Forall_impl; [exact Hold|]. intros r.
    apply edge_resolved_mono; [by rewrite Hf4|exact Hsub|by rewrite He4].
  - eapply Forall_impl; [exact Hfrag|]. intros r (Hk & H1 & H2).
    unfold edge_resolved. rewrite Hk. split; [by apply Hin'|].
    destruct H2 as [H2|(ref & el & Href & H2)]; [left; by apply Hin'|].
    right. exists ref, el. split; [|done]. rewrite He4. by apply Href1.
  - constructor; [|constructor]. unfold edge_resolved.
    cbn [generated_from Relationship.relationship Relationship.id1
         Relationship.id2]. split.
    + by rewrite Hf4.
    + apply Hin. apply list_elem_of_here.
Qed.

Lemma process_record_resolved (st st' : State) (m : FileMetadata.t) :
  process_record st m = Ok st' →
  SPDXID_PLATFORM ∈ map Package.id (Document.packages (doc st)) →
  Forall (edge_resolved (doc st)) (Document.relationships (doc st)) →
  SPDXID_PLATFORM ∈ map Package.id (Document.packages (doc st')) ∧
  Forall (edge_resolved (doc st')) (Document.relationships (doc st')).
Proof.
  unfold process_record, installed_file_has_metadata.
  intros H Hplat Hold. destruct (no_metadata m); cbn [negb] in H.
  { by injection H as <-. }
  destruct (on_disk (installed_file m)); cbn [negb] in H.
  2:{ by injection H as <-. }
  apply bind_Ok in H as ([fid st1] & Hrec & Hattr).
  apply record_file_spec in Hrec as (sum & _ & _ & ->).
  unfold attribute_file in Hattr.
  cbn [with_report with_doc doc report metadata_file_protos parsed] in Hattr.
  set (d1 := Document.update_product_package (Package.add_file_id fid)
               (Document.append_file (File.mk fid (installed_file m) sum) (doc st)))
    in *.
  assert (map Package.id (Document.packages d1)
          = map Package.id (Document.packages (doc st))) as Hp1.
  { subst d1. cbn. by apply alter_product_ids. }
  assert (Document.files d1
          = Document.files (doc st) ++ [File.mk fid (installed_file m) sum])
    as Hf1 by done.
  assert (fid ∈ map File.id (Document.files d1)) as Hfid.
  { rewrite Hf1, map_app. apply elem_of_app. right. apply list_elem_of_here. }
  assert (Forall (edge_resolved d1) (Document.relationships d1)) as Hold1.
  { change (Document.relationships d1) with (Document.relationships (doc st)).
    eapply Forall_impl; [exact Hold|]. intros r.
    apply edge_resolved_mono; [|by rewrite Hp1|done].
    rewrite Hf1, map_app. intros x Hx. apply elem_of_app. by left. }
  assert (SPDXID_PLATFORM ∈ map Package.id (Document.packages d1)) as Hplat1
    by by rewrite Hp1.
  clearbody d1. clear Hp1 Hf1 Hold Hplat.
  assert (∀ st2,
            Ok (with_doc (Document.add_relationship
                            (generated_from fid SPDXID_PLATFORM) d1)
                  (mkState d1 (metadata_file_protos st) (report st) (parsed st)))
            = Ok st2 →
            SPDXID_PLATFORM ∈ map Package.id (Document.packages (doc st2)) ∧
            Forall (edge_resolved (doc st2)) (Document.relationships (doc st2)))
    as Hcase.
  { intros st2 [= <-]. cbn. split; [done|]. apply Forall_app. split.
    - eapply Forall_impl; [exact Hold1|]. intros r.
      by apply edge_resolved_mono.
    - constructor; [|constructor]. unfold edge_resolved.
      cbn [generated_from Relationship.relationship Relationship.id1
           Relationship.id2 Document.add_relationship Document.files
           Document.packages]. done. }
  destruct (main_branch m); try (by apply Hcase).
  - apply bind_Ok in Hattr as (path & _ & H).
    apply bind_Ok in H as (st2 & Hrep & H).
    apply bind_Ok in H as ([[e pkgs] rels] & Hfrag & [= <-]).
    apply report_metadata_file_spec in Hrep as (Hdoc & _).
    cbn [with_doc doc] in *. rewrite Hdoc.
    apply fragments_closed in Hfrag.
    destruct (add_fragments_resolved fid e pkgs rels d1 Hold1 Hfid Hfrag)
      as [Hall Hsub].
    split; [by apply Hsub | exact Hall].
  - by injection Hattr as <-.
Qed.

(** X23. After the main pass every relationship of the document has its
    endpoints in the document: a GENERATED_FROM edge leads from a File node
    to a package, a VARIANT_OF edge from a package to a package or to an
    element of an external document that the document refers to. *)
Theorem relationships_resolve (rows : list FileMetadata.t) (st : State) :
  main rows = Ok st →
  Forall (edge_resolved (doc st)) (Document.relationships (doc st)).
Proof.
  unfold main. intros H. apply bind_Ok in H as (st0 & Hscan & H).
  apply bind_Ok in H as (code & _ & [= <-]).
  assert (∀ rows st1 st2, scan rows st1 = Ok st2 →
            SPDXID_PLATFORM ∈ map Package.id (Document.packages (doc st1)) →
            Forall (edge_resolved (doc st1)) (Document.relationships (doc st1)) →
            SPDXID_PLATFORM ∈ map Package.id (Document.packages (doc st2)) ∧
            Forall (edge_resolved (doc st2)) (Document.relationships (doc st2)))
    as Hinv.
  { clear. induction rows as [|m rows IH]; intros st1 st2; cbn [scan].
    - by intros [= <-].
    - intros H Hp Hr. apply bind_Ok in H as (st' & Hstep & Hscan).
      destruct (process_record_resolved _ _ _ Hstep Hp Hr) as [Hp' Hr'].
      by apply (IH st' st2). }
  destruct (Hinv rows initial_state st0 Hscan) as [_ Hall].
  { cbn. apply list_elem_of_further, list_elem_of_here. }
  { constructor. }
  cbn [with_doc doc]. eapply Forall_impl; [exact Hall|]. intros r.
  apply edge_resolved_mono; [done| |done].
  cbn. by rewrite alter_product_ids.
Qed.

(** ** The main pass: the verification code and the order of the rows *)

Lemma file_of_file_node (m : FileMetadata.t) (f : File.t) :
  file_of m f → f = file_node m.
Proof.
  unfold file_of, file_node. destruct f as [i n c]. cbn.
  by intros (-> & -> & ->).
Qed.

Lemma Forall2_file_of_nodes (ms : list FileMetadata.t) (fs : list File.t) :
  Forall2 file_of ms fs → fs = map file_node ms.
Proof.
  induction 1 as [|m f ms fs Hf _ IH]; [done|].
  cbn. by rewrite (file_of_file_node m f Hf), IH.
Qed.

Lemma filter_Permutation_bool {A} (f : A → bool) (l l' : list A) :
  Permutation l l' → Permutation (List.filter f l) (List.filter f l').
Proof.
  induction 1 as [|x l l' _ IH|x y l|l l' l'' _ IH1 _ IH2]; cbn [List.filter].
  - done.
  - destruct (f x); [by apply perm_skip | done].
  - destruct (f x), (f y); try done. apply perm_swap.
  - by etrans.
Qed.

Lemma main_verification_code (rows : list FileMetadata.t) (st : State) :
  main rows = Ok st →
  ∃ code,
    generate_package_verification_code
      (map file_node (List.filter recorded rows)) = Ok code ∧
    product_verification_code st = Some code.
Proof.
  unfold main. intros H. apply bind_Ok in H as (st0 & Hscan & H).
  apply bind_Ok in H as (code & Hcode & [= <-]).
  destruct (scan_spec rows initial_state st0 _ Hscan eq_refl)
    as ((new & Hnew & Hfiles & Hprod) & _).
  cbn in Hfiles. apply Forall2_file_of_nodes in Hnew.
  rewrite Hfiles, Hnew in Hcode. exists code. split; [done|].
  unfold product_verification_code, Document.product_package in *.
  cbn [with_doc doc Document.update_product_package Document.set_packages
       Document.packages].
  by rewrite list_lookup_alter_eq, Hprod.
Qed.

(** X24. The verification code that [main] stores in the product package
    does not depend on the order of the rows of the metadata CSV. *)
Theorem verification_code_row_order (rows rows' : list FileMetadata.t)
    (st st' : State) :
  Permutation rows rows' →
  main rows = Ok st → main rows' = Ok st' →
  product_verification_code st = product_verification_code st' ∧
  is_Some (product_verification_code st).
Proof.
  intros Hperm H H'.
  apply main_verification_code in H as (code & Hcode & ->).
  apply main_verification_code in H' as (code' & Hcode' & ->).
  split; [|eauto]. f_equal.
  assert (Ok code = Ok code') as [= ->]; [|done].
  rewrite <- Hcode, <- Hcode'. unfold generate_package_verification_code.
  rewrite (sort_strs_Permutation
             (map File.checksum (map file_node (List.filter recorded rows)))
             (map File.checksum (map file_node (List.filter recorded rows'))));
    [done|].
  by apply Permutation_map, Permutation_map, filter_Permutation_bool.
Qed.

(** ** Unbundled modules *)

Lemma unbundled_scan_skip (before rows : list FileMetadata.t)
    (d : UnbundledDocument.t) :
  Forall (λ m, is_module_row m = false) before →
  unbundled_scan (before ++ rows) d = unbundled_scan rows d.
Proof.
  induction 1 as [|m before Hm _ IH]; [done|]. cbn [app unbundled_scan].
  unfold is_module_row in Hm. by rewrite Hm.
Qed.

(** X25. For an unbundled module the document describes the first row
    whose installed file is the module: it holds one package, named by the
    raw module path and identified as PREBUILT whatever the path is, the
    File node of the module, and one GENERATED_FROM relationship between
    them; rows after it are not read. *)
Theorem unbundled_first_row (before after : list FileMetadata.t)
    (m : FileMetadata.t) (pid fid sum : pystr) :
  Forall (λ m, is_module_row m = false) before →
  is_module_row m = true →
  new_package_id (module_path m) PKG_PREBUILT = Ok pid →
  new_file_id (installed_file m) = Ok fid →
  checksum (installed_file m) = Ok sum →
  generate_sbom_for_unbundled (before ++ m :: after) =
  Ok (UnbundledDocument.mk
        (Document.mk build_version
           (py "https://www.google.com/sbom/spdx/android/" ++ build_version)
           [organization product_mfr]
           [ Package.mk pid (module_path m) (Some build_version)
               (Some (organization product_mfr)) None false None [] [] ]
           [ File.mk fid (installed_file m) sum ]
           [ Relationship.mk fid GENERATED_FROM pid ]
           [])
        (Some fid) (Some utc_now)).
Proof.
  intros Hbefore Hm Hpid Hfid Hsum. unfold generate_sbom_for_unbundled.
  rewrite unbundled_scan_skip by done. cbn [unbundled_scan].
  unfold is_module_row in Hm. rewrite Hm, Hpid, Hfid, Hsum. reflexivity.
Qed.

(** X26. When no row of the metadata CSV is the module, the document of
    an unbundled module stays empty: no package, no file, no relationship,
    nothing described and no creation time. *)
Theorem unbundled_no_row (rows : list FileMetadata.t) :
  Forall (λ m, is_module_row m = false) rows →
  generate_sbom_for_unbundled rows =
  Ok (UnbundledDocument.mk
        (Document.mk build_version
           (py "https://www.google.com/sbom/spdx/android/" ++ build_version)
           [organization product_mfr] [] [] [] [])
        None None).
Proof.
  intros H. unfold generate_sbom_for_unbundled.
  rewrite <- (app_nil_r rows). by rewrite unbundled_scan_skip.
Qed.

End Script.

(** * The properties on the small build *)

Local Abbreviation demo_initial_state :=
  (initial_state Demo.build_version Demo.product_mfr Demo.VALUE_NONE
     Demo.SPDXID_PRODUCT Demo.SPDXID_PLATFORM Demo.PACKAGE_NAME_PRODUCT
     Demo.PACKAGE_NAME_PLATFORM).

Local Abbreviation demo_scan :=
  (scan Demo.build_version Demo.product_mfr Demo.product_out_dir
     Demo.unicode_alnum Demo.unicode_lower Demo.sha1_hexdigest Demo.VALUE_NONE
     Demo.VALUE_NOASSERTION Demo.SPDXID_PLATFORM Demo.HOMEPAGE Demo.islink
     Demo.isfile Demo.path_exists Demo.readlink Demo.read_binary
     Demo.parse_metadata).

Local Abbreviation demo_main :=
  (main Demo.build_version Demo.product_mfr Demo.product_out_dir
     Demo.unicode_alnum Demo.unicode_lower Demo.sha1_hexdigest Demo.VALUE_NONE
     Demo.VALUE_NOASSERTION Demo.SPDXID_PRODUCT Demo.SPDXID_PLATFORM
     Demo.PACKAGE_NAME_PRODUCT Demo.PACKAGE_NAME_PLATFORM Demo.HOMEPAGE
     Demo.islink Demo.isfile Demo.path_exists Demo.readlink Demo.read_binary
     Demo.parse_metadata).

Local Abbreviation demo_resolves :=
  (resolves Demo.product_out_dir Demo.islink Demo.isfile Demo.path_exists).

Local Abbreviation demo_resolutions :=
  (resolutions Demo.product_out_dir Demo.islink Demo.isfile Demo.path_exists).

Local Abbreviation demo_recorded :=
  (recorded Demo.product_out_dir Demo.islink Demo.isfile).

Local Abbreviation demo_file_of :=
  (file_of Demo.product_out_dir Demo.unicode_alnum Demo.sha1_hexdigest
     Demo.islink Demo.readlink Demo.read_binary).

Lemma classification_total_exclusive_witness :
  fst (installed_file_has_metadata Demo.init Report.empty) = true ∧
  ∃ c, applies c Demo.init = true ∧ ∀ c', applies c' Demo.init = true → c' = c.
Proof.
  split; [reflexivity|].
  exact (proj1 (classification_total_exclusive Demo.init Report.empty eq_refl)).
Defined.

Lemma verification_code_permutation_invariant_witness :
  let a := File.mk (py "SPDXRef-a") (py "a") (py "SHA1: 0b") in
  let b := File.mk (py "SPDXRef-b") (py "b") (py "SHA1: 0a") in
  Permutation [a; b] [b; a] ∧
  generate_package_verification_code Demo.sha1_hexdigest [a; b]
  = generate_package_verification_code Demo.sha1_hexdigest [b; a].
Proof.
  intros a b. split; [apply perm_swap|].
  exact (proj1 (verification_code_permutation_invariant
                  Demo.sha1_hexdigest [a; b] [b; a] (perm_swap b a []))).
Defined.

Lemma source_fragment_foo_witness :
  let protos : gmap (list N) Metadata.t := {[ py "external/foo" := Demo.foo ]} in
  is_source_package Demo.liba = true ∧
  protos !! py "external/foo" = Some Demo.foo ∧
  ∃ source upstream,
    get_sbom_fragments Demo.build_version Demo.product_mfr Demo.unicode_alnum
      Demo.unicode_lower Demo.VALUE_NONE Demo.VALUE_NOASSERTION Demo.HOMEPAGE
      protos Demo.liba (py "external/foo")
    = Ok (None, [source; upstream],
          [Relationship.mk (Package.id source) VARIANT_OF (Package.id upstream)]) ∧
    Package.id source = py "SPDXRef-SOURCE-Foo" ∧
    Package.name source = py "Foo" ∧
    Package.version source = Some Demo.build_version ∧
    Package.id upstream = py "SPDXRef-UPSTREAM-Foo" ∧
    Package.name upstream = py "Foo" ∧
    Package.version upstream = Some (py "1.2").
Proof.
  intros protos.
  assert (protos !! py "external/foo" = Some Demo.foo) as Hfoo
    by apply lookup_singleton_eq.
  split; [reflexivity|]. split; [exact Hfoo|].
  exact (source_fragment_foo Demo.build_version Demo.product_mfr
           Demo.unicode_alnum Demo.unicode_lower Demo.VALUE_NONE
           Demo.VALUE_NOASSERTION Demo.HOMEPAGE protos Demo.liba
           (py "external/foo") Demo.foo eq_refl eq_refl Hfoo eq_refl eq_refl).
Defined.

Lemma prebuilt_fragment_and_name_witness :
  module_path Demo.tool = py "prebuilts/foo/bar" ∧
  get_sbom_fragments Demo.build_version Demo.product_mfr Demo.unicode_alnum
    Demo.unicode_lower Demo.VALUE_NONE Demo.VALUE_NOASSERTION Demo.HOMEPAGE
    ∅ Demo.tool []
  = Ok (None,
        [ Package.mk (py "SPDXRef-PREBUILT-foo-bar") (py "foo-bar")
            (Some Demo.build_version) (Some (organization Demo.product_mfr))
            (Some Demo.VALUE_NONE) false None [] [] ],
        []).
Proof.
  split; [reflexivity|].
  exact (proj2 (proj2 (proj1
           (prebuilt_fragment_and_name Demo.build_version Demo.product_mfr
              Demo.unicode_alnum Demo.unicode_lower Demo.VALUE_NONE
              Demo.VALUE_NOASSERTION Demo.HOMEPAGE ∅ Demo.tool) eq_refl))).
Defined.

Lemma encode_for_spdxid_idempotent_no_leading_dash_witness :
  Forall (λ c, spdx_char c = true) (py "--Foo-1.2") ∧
  ∃ r, encode_for_spdxid Demo.unicode_alnum (py "--Foo-1.2") = Ok r ∧
       r = Str.lstrip (py "--Foo-1.2") (ch "-") ∧
       encode_for_spdxid Demo.unicode_alnum r = Ok r.
Proof.
  assert (Forall (λ c, spdx_char c = true) (py "--Foo-1.2")) as H
    by (repeat constructor).
  split; [exact H|].
  exact (proj2 (proj2 (encode_for_spdxid_idempotent_no_leading_dash
                         Demo.unicode_alnum (py "--Foo-1.2"))) H).
Defined.

Lemma prebuilt_name_total_witness :
  is_prebuilt_package Demo.tool = true ∧
  ∀ (protos : gmap (list N) Metadata.t) path,
    prebuilt_name_candidate protos Demo.tool path ≠ Ok None.
Proof.
  split; [reflexivity|].
  exact (proj1 (prebuilt_name_total Demo.HOMEPAGE Demo.parse_metadata Demo.tool
                  eq_refl)).
Defined.

Lemma no_metadata_record_contributes_nothing_witness :
  let st :=
    initial_state Demo.build_version Demo.product_mfr Demo.VALUE_NONE
      Demo.SPDXID_PRODUCT Demo.SPDXID_PLATFORM Demo.PACKAGE_NAME_PRODUCT
      Demo.PACKAGE_NAME_PLATFORM in
  no_metadata Demo.stray = true ∧
  ∃ st',
    process_record Demo.build_version Demo.product_mfr Demo.product_out_dir
      Demo.unicode_alnum Demo.unicode_lower Demo.sha1_hexdigest
      Demo.VALUE_NONE Demo.VALUE_NOASSERTION Demo.SPDXID_PLATFORM Demo.HOMEPAGE
      Demo.islink Demo.isfile Demo.path_exists Demo.readlink Demo.read_binary
      Demo.parse_metadata st Demo.stray = Ok st' ∧
    Report.ISSUE_NO_METADATA (report st')
    = Report.ISSUE_NO_METADATA (report st) ++ [installed_file Demo.stray] ∧
    doc st' = doc st ∧
    metadata_file_protos st' = metadata_file_protos st ∧
    parsed st' = parsed st.
Proof.
  intros st. split; [reflexivity|].
  exact (no_metadata_record_contributes_nothing Demo.build_version
           Demo.product_mfr Demo.product_out_dir Demo.unicode_alnum
           Demo.unicode_lower Demo.sha1_hexdigest Demo.VALUE_NONE
           Demo.VALUE_NOASSERTION Demo.SPDXID_PLATFORM Demo.HOMEPAGE
           Demo.islink Demo.isfile Demo.path_exists Demo.readlink
           Demo.read_binary Demo.parse_metadata st Demo.stray
           eq_refl eq_refl eq_refl eq_refl eq_refl).
Defined.

Lemma security_tag_prefix_case_witness :
  let st :=
    initial_state Demo.build_version Demo.product_mfr Demo.VALUE_NONE
      Demo.SPDXID_PRODUCT Demo.SPDXID_PLATFORM Demo.PACKAGE_NAME_PRODUCT
      Demo.PACKAGE_NAME_PLATFORM in
  let tag := py "nvd-cpe2.3:cpe:2.3:a:foo:baz:2.0" in
  let path := py "external/foo" in
  Str.startswith (lower Demo.unicode_lower tag)
    (lower Demo.unicode_lower (NVD_CPE23 ++ py "cpe:2.3:")) = true ∧
  Str.startswith tag NVD_CPE23 = false ∧
  ∃ st', report_metadata_file Demo.parse_metadata path Demo.liba st = Ok st' ∧
    (∃ name refs,
       get_source_package_info Demo.unicode_lower (metadata_file_protos st')
         Demo.liba path = Ok (name, refs) ∧
       PackageExternalRef.mk SECURITY cpe23Type tag ∈ refs) ∧
    unknown_tag_message path tag
      ∈ Report.ISSUE_UNKNOWN_SECURITY_TAG_TYPE (report st').
Proof.
  intros st tag path. split; [reflexivity|]. split; [reflexivity|].
  assert (tag ∈ ThirdParty.security_tag (Metadata.third_party Demo.foo)) as Hin.
  { apply list_elem_of_In. right. left. reflexivity. }
  destruct (security_tag_prefix_case Demo.unicode_lower Demo.parse_metadata
              path Demo.liba st Demo.foo tag eq_refl eq_refl eq_refl Hin eq_refl)
    as (st' & Hst' & Href & _ & Hloose).
  exists st'. split; [exact Hst'|]. split.
  - exact Href.
  - exact (proj2 (proj2 (Hloose eq_refl))).
Defined.

Lemma main_pass_records_every_file_witness :
  let rows := [Demo.liba; Demo.stray; Demo.tool; Demo.lost; Demo.init; Demo.libb] in
  ∃ st, demo_scan rows demo_initial_state = Ok st ∧
    map File.name (Document.files (doc st))
    = map py ["system/lib/liba.so"; "system/bin/tool"; "system/bin/init";
              "system/lib/libb.so"]%string ∧
    ∃ p, Document.product_package (doc st) = Some p ∧
      Forall2 demo_file_of (List.filter demo_recorded rows)
        (Document.files (doc st)) ∧
      Package.file_ids p = map File.id (Document.files (doc st)) ∧
      ∃ final checksums data p',
        demo_main rows = Ok final ∧
        length checksums = 4%nat ∧
        Utf8.encode (concat (sort_strs checksums)) = Ok data ∧
        Document.product_package (doc final) = Some p' ∧
        Package.verification_code p' = Some (Demo.sha1_hexdigest data) ∧
        Package.file_ids p' = map File.id (Document.files (doc final)).
Proof.
  intros rows.
  destruct (demo_scan rows demo_initial_state) as [st|e] eqn:Hscan;
    [|by vm_compute in Hscan].
  exists st. split; [reflexivity|]. split.
  - vm_compute in Hscan. injection Hscan as <-. reflexivity.
  - destruct (main_pass_records_every_file Demo.build_version
                Demo.product_mfr Demo.product_out_dir Demo.unicode_alnum
                Demo.unicode_lower Demo.sha1_hexdigest Demo.VALUE_NONE
                Demo.VALUE_NOASSERTION Demo.SPDXID_PRODUCT Demo.SPDXID_PLATFORM
                Demo.PACKAGE_NAME_PRODUCT Demo.PACKAGE_NAME_PLATFORM
                Demo.HOMEPAGE Demo.islink Demo.isfile Demo.path_exists
                Demo.readlink Demo.read_binary Demo.parse_metadata rows st Hscan)
      as (p & Hp & Hfiles & Hids & Hcode & _).
    exists p. split; [exact Hp|]. split; [exact Hfiles|]. split; [exact Hids|].
    destruct (demo_main rows) as [final|e] eqn:Hmain; [|by vm_compute in Hmain].
    destruct (Hcode final eq_refl)
      as (code & _ & _ & _ & checksums & data & p' & Hsums & Hdata & _ & Hp'
          & Hstored & Hids').
    exists final, checksums, data, p'. split; [reflexivity|].
    split; [exact (eq_sym (Forall2_length _ _ _ Hsums))|].
    exact (conj Hdata (conj Hp' (conj Hstored Hids'))).
Defined.

Lemma descriptor_parsed_at_every_resolution_witness :
  ∃ st1 st2,
    demo_scan [Demo.liba] demo_initial_state = Ok st1 ∧
    demo_scan [Demo.libb] st1 = Ok st2 ∧
    parsed st2
    = map (λ d, d ++ py "/METADATA") (demo_resolutions [Demo.liba; Demo.libb]) ∧
    demo_resolutions [Demo.liba; Demo.libb]
    = [py "external/foo"; py "external/foo"] ∧
    ∃ md, Demo.parse_metadata (py "external/foo/METADATA") = Ok md ∧
          metadata_file_protos st1 !! py "external/foo" = Some md ∧
          metadata_file_protos st2 !! py "external/foo" = Some md.
Proof.
  destruct (demo_scan [Demo.liba] demo_initial_state) as [st1|e] eqn:H1;
    [|by vm_compute in H1].
  destruct (demo_scan [Demo.libb] st1) as [st2|e] eqn:H2.
  2:{ vm_compute in H1. injection H1 as <-. by vm_compute in H2. }
  exists st1, st2. split; [reflexivity|]. split; [exact H2|].
  destruct (descriptor_parsed_at_every_resolution Demo.build_version
              Demo.product_mfr Demo.product_out_dir Demo.unicode_alnum
              Demo.unicode_lower Demo.sha1_hexdigest Demo.VALUE_NONE
              Demo.VALUE_NOASSERTION Demo.SPDXID_PRODUCT
              Demo.SPDXID_PLATFORM Demo.PACKAGE_NAME_PRODUCT
              Demo.PACKAGE_NAME_PLATFORM Demo.HOMEPAGE Demo.islink
              Demo.isfile Demo.path_exists Demo.readlink Demo.read_binary
              Demo.parse_metadata [Demo.liba] [Demo.libb] st1 st2 H1 H2)
    as (Hparsed & _ & _ & _ & _ & _ & Hfirst).
  split; [exact Hparsed|]. split; [reflexivity|].
  apply (Hfirst (py "external/foo")).
  apply list_elem_of_In. left. reflexivity.
Defined.

(** C1, as claimed, fails: the two records resolve to the same directory,
    external/foo, and its METADATA file is parsed twice. *)
Lemma descriptor_parsed_twice :
  demo_resolves Demo.liba = Some (py "external/foo") ∧
  demo_resolves Demo.libb = Some (py "external/foo") ∧
  match demo_main [Demo.liba; Demo.libb] with
  | Ok st =>
      parse_count (py "external/foo/METADATA") st = 2%nat ∧
      parse_count (py "external/foo/METADATA") st ≠ 1%nat
  | Raise _ => False
  end.
Proof. vm_compute. repeat split; discriminate. Qed.

(** C8, as claimed, fails for a tag that begins with exactly NVD-CPE2.3:
    and matches cpe:2.3: only under case folding: the locator is the tag
    with NVD-CPE2.3: removed, not the entire tag. *)
Lemma security_tag_exact_nvd_folded_cpe :
  let tag := py "NVD-CPE2.3:CPE:2.3:a:foo:qux:3.0" in
  Str.startswith tag (NVD_CPE23 ++ py "cpe:2.3:") = false ∧
  Str.startswith (lower Demo.unicode_lower tag)
    (lower Demo.unicode_lower (NVD_CPE23 ++ py "cpe:2.3:")) = true ∧
  tag ∈ ThirdParty.security_tag (Metadata.third_party Demo.foo) ∧
  get_source_package_info Demo.unicode_lower
    {[ py "external/foo" := Demo.foo ]} Demo.liba (py "external/foo")
  = Ok (py "Foo",
        [ PackageExternalRef.mk SECURITY cpe23Type (py "cpe:2.3:a:foo:bar:1.0");
          PackageExternalRef.mk SECURITY cpe23Type
            (py "nvd-cpe2.3:cpe:2.3:a:foo:baz:2.0");
          PackageExternalRef.mk SECURITY cpe23Type (py "CPE:2.3:a:foo:qux:3.0") ]) ∧
  py "CPE:2.3:a:foo:qux:3.0" ≠ tag.
Proof.
  intros tag. split; [reflexivity|]. split; [reflexivity|]. split.
  - apply list_elem_of_In. right. right. left. reflexivity.
  - split; [by vm_compute | discriminate].
Qed.

(** * The further properties on the small build *)

Local Abbreviation demo_encode := (encode_for_spdxid Demo.unicode_alnum).

Local Abbreviation demo_fragments :=
  (get_sbom_fragments Demo.build_version Demo.product_mfr Demo.unicode_alnum
     Demo.unicode_lower Demo.VALUE_NONE Demo.VALUE_NOASSERTION Demo.HOMEPAGE).

Local Abbreviation demo_process :=
  (process_record Demo.build_version Demo.product_mfr Demo.product_out_dir
     Demo.unicode_alnum Demo.unicode_lower Demo.sha1_hexdigest Demo.VALUE_NONE
     Demo.VALUE_NOASSERTION Demo.SPDXID_PLATFORM Demo.HOMEPAGE Demo.islink
     Demo.isfile Demo.path_exists Demo.readlink Demo.read_binary
     Demo.parse_metadata).

Local Abbreviation demo_unbundled :=
  (generate_sbom_for_unbundled Demo.build_version Demo.product_mfr
     Demo.product_out_dir Demo.unicode_alnum Demo.sha1_hexdigest Demo.islink
     Demo.readlink Demo.read_binary Demo.output_file Demo.utc_now).

Local Abbreviation demo_is_module_row :=
  (is_module_row Demo.product_out_dir Demo.output_file).

Lemma encode_ascii_in_charset_witness :
  Forall (λ c, c < 128) (py "/system/lib64/lib_a@1 b.so") ∧
  ∃ r, demo_encode (py "/system/lib64/lib_a@1 b.so") = Ok r ∧
       Forall (λ c, spdx_char c = true) r.
Proof.
  assert (Forall (λ c, c < 128) (py "/system/lib64/lib_a@1 b.so")) as H
    by (repeat constructor).
  split; [exact H|].
  exact (encode_ascii_in_charset Demo.unicode_alnum _ H).
Defined.

Lemma encode_copies_unicode_alnum_witness :
  let alnum := λ c, c =? 0xE9 in
  Forall (λ c, 128 ≤ c ∧ alnum c = true) [0xE9; 0xE9] ∧
  encode_for_spdxid alnum [0xE9; 0xE9] = Ok [0xE9; 0xE9].
Proof.
  intros alnum.
  assert (Forall (λ c, 128 ≤ c ∧ alnum c = true) [0xE9; 0xE9]) as H.
  { repeat constructor; discriminate. }
  split; [exact H|].
  exact (proj1 (encode_copies_unicode_alnum alnum _ H)).
Defined.

Lemma encode_separators_only_witness :
  Forall (λ c, Str.char_in c (py "-_@/") = true) (py "/_@-") ∧
  new_file_id Demo.unicode_alnum (py "/_@-") = Ok (py "SPDXRef-").
Proof.
  assert (Forall (λ c, Str.char_in c (py "-_@/") = true) (py "/_@-")) as H
    by (repeat constructor).
  split; [exact H|].
  exact (proj2 (encode_separators_only Demo.unicode_alnum _ H)).
Defined.

Lemma prebuilt_wins_over_source_witness :
  let m := FileMetadata.mk (py "system/framework/x.jar") (py "external/x")
             (py "java_import") [] [] [] [] in
  Str.startswith (module_path m) (py "external/") = true ∧
  is_soong_prebuilt_module m = true ∧
  is_prebuilt_package m = true ∧ is_source_package m = false.
Proof.
  intros m. split; [reflexivity|]. split; [reflexivity|].
  destruct (prebuilt_wins_over_source m eq_refl eq_refl) as (H1 & H2 & _).
  exact (conj H1 H2).
Defined.

Lemma kernel_gen_branch_has_colon_witness :
  let m := FileMetadata.mk (py "vendor_dlkm/etc/build.prop") [] [] [] []
             (py "ANDROID-GEN:vendor_dlkm/etc/build.prop") [] in
  main_branch m = PlatformKernelGen ∧
  Str.startswith (kernel_module_copy_files m) (py "ANDROID-GEN:") = true.
Proof.
  intros m. split; [reflexivity|].
  exact (proj1 (kernel_gen_branch_has_colon m eq_refl)).
Defined.

Lemma metadata_path_is_nearest_ancestor_witness :
  get_metadata_file_path Demo.path_exists Demo.libb = Ok (py "external/foo") ∧
  py "external/foo" `prefix_of` start_dir Demo.libb.
Proof.
  split; [reflexivity|].
  exact (proj1 (metadata_path_is_nearest_ancestor Demo.path_exists Demo.libb
                  (py "external/foo") eq_refl)).
Defined.

Lemma relative_path_resolves_witness :
  head (start_dir Demo.tool) ≠ Some (ch "/") ∧
  ∃ d, get_metadata_file_path Demo.path_exists Demo.tool = Ok d.
Proof.
  assert (head (start_dir Demo.tool) ≠ Some (ch "/")) as H by discriminate.
  split; [exact H|].
  exact (relative_path_resolves Demo.path_exists Demo.tool H).
Defined.

Lemma absolute_path_without_metadata_diverges_witness :
  let m := Demo.row "system/bin/sh" "/abs/module" in
  head (start_dir m) = Some (ch "/") ∧
  get_metadata_file_path Demo.path_exists m = Raise Diverges.
Proof.
  intros m. split; [reflexivity|].
  refine (proj1 (absolute_path_without_metadata_diverges Demo.path_exists m
                   eq_refl _)).
  intros k.
  assert (∀ j, ancestor (S (S j)) (start_dir m) = py "/") as Hroot.
  { induction j as [|j IH]; [reflexivity|].
    change (ancestor (S (S (S j))) (start_dir m))
      with (OsPath.dirname (ancestor (S (S j)) (start_dir m))).
    rewrite IH. reflexivity. }
  destruct k as [|[|k]]; [reflexivity|reflexivity|].
  rewrite Hroot. reflexivity.
Defined.

Lemma download_location_is_declared_witness :
  let protos : gmap (list N) Metadata.t := {[ py "external/foo" := Demo.foo ]} in
  protos !! py "external/foo" = Some Demo.foo ∧
  ∃ r, get_package_download_location Demo.HOMEPAGE protos (py "external/foo")
       = Ok r ∧
    ∀ v, r = Some v →
      ∃ u, u ∈ ThirdParty.url (Metadata.third_party Demo.foo) ∧ URL.value u = v.
Proof.
  intros protos.
  assert (protos !! py "external/foo" = Some Demo.foo) as H
    by apply lookup_singleton_eq.
  split; [exact H|].
  destruct (download_location_is_declared Demo.HOMEPAGE protos
              (py "external/foo") Demo.foo eq_refl H) as (r & Hr & Hv & _).
  exists r. exact (conj Hr Hv).
Defined.

Lemma unrecognised_nvd_tag_dropped_witness :
  Str.startswith (lower Demo.unicode_lower (py "swid:bar")) (py "cpe:2.3:") = false ∧
  Str.startswith (lower Demo.unicode_lower (py "swid:bar")) (py "cpe:/") = false ∧
  tag_external_refs Demo.unicode_lower (NVD_CPE23 ++ py "swid:bar") = [] ∧
  validate_tags (py "prebuilts/bar") [NVD_CPE23 ++ py "swid:bar"] Report.empty
  = Report.empty.
Proof.
  split; [reflexivity|]. split; [reflexivity|].
  exact (unrecognised_nvd_tag_dropped Demo.unicode_lower (py "swid:bar")
           (py "prebuilts/bar") Report.empty eq_refl eq_refl).
Defined.

Lemma prebuilt_name_has_no_separator_witness :
  get_prebuilt_package_name ∅ Demo.tool [] = Ok (py "foo-bar") ∧
  ch "/" ∉ py "foo-bar".
Proof.
  split; [reflexivity|].
  exact (prebuilt_name_has_no_separator ∅ Demo.tool [] (py "foo-bar") eq_refl).
Defined.

Lemma fragments_shape_witness :
  ∃ e pkgs rels,
    demo_fragments ∅ Demo.tool [] = Ok (e, pkgs, rels) ∧
    ∃ p, pkgs = [p] ∧
      ((e = None ∧ rels = []) ∨
       ∃ ref element_id,
         e = Some ref ∧
         rels = [Relationship.mk (Package.id p) VARIANT_OF
                   (DocumentExternalReference.id ref ++ py ":" ++ element_id)]).
Proof.
  destruct (demo_fragments ∅ Demo.tool []) as [[[e pkgs] rels]|err] eqn:H;
    [|by vm_compute in H].
  exists e, pkgs, rels. split; [reflexivity|].
  destruct (fragments_shape Demo.build_version Demo.product_mfr
              Demo.unicode_alnum Demo.unicode_lower Demo.VALUE_NONE
              Demo.VALUE_NOASSERTION Demo.HOMEPAGE ∅ Demo.tool [] e pkgs rels H)
    as (_ & Hpre & _).
  exact (Hpre eq_refl eq_refl).
Defined.

Lemma source_fragments_without_descriptor_witness :
  is_source_package Demo.liba = true ∧
  demo_encode (module_path Demo.liba) = Ok (py "external-foo") ∧
  demo_fragments ∅ Demo.liba [] =
  Ok (None,
      [ Package.mk (py "SPDXRef-SOURCE-external-foo") (py "external/foo")
          (Some Demo.build_version) (Some (organization Demo.product_mfr))
          (Some Demo.VALUE_NONE) false None [] [];
        Package.mk (py "SPDXRef-UPSTREAM-external-foo") (py "external/foo")
          None (Some Demo.VALUE_NOASSERTION) None false None [] [] ],
      [ Relationship.mk (py "SPDXRef-SOURCE-external-foo") VARIANT_OF
          (py "SPDXRef-UPSTREAM-external-foo") ]).
Proof.
  split; [reflexivity|]. split; [reflexivity|].
  exact (source_fragments_without_descriptor Demo.build_version
           Demo.product_mfr Demo.unicode_alnum Demo.unicode_lower
           Demo.VALUE_NONE Demo.VALUE_NOASSERTION Demo.HOMEPAGE ∅ Demo.liba
           (py "external-foo") eq_refl eq_refl).
Defined.

Lemma prebuilt_sbom_reference_witness :
  let m := Demo.row "system/bin/bar" "prebuilts/bar" in
  let protos : gmap (list N) Metadata.t := {[ py "prebuilts/bar" := Demo.bar ]} in
  get_prebuilt_package_name protos m (py "prebuilts/bar") = Ok (py "Bar") ∧
  demo_fragments protos m (py "prebuilts/bar") =
  Ok (Some (DocumentExternalReference.mk (py "DocumentRef-UPSTREAM-Bar")
              (py "https://example.org/bar.spdx") (py "SHA1: 1234")),
      [ Package.mk (py "SPDXRef-PREBUILT-Bar") (py "Bar")
          (Some Demo.build_version) (Some (organization Demo.product_mfr))
          (Some Demo.VALUE_NONE) false None [] [] ],
      [ Relationship.mk (py "SPDXRef-PREBUILT-Bar") VARIANT_OF
          (py "DocumentRef-UPSTREAM-Bar:SPDXRef-bar") ]).
Proof.
  intros m protos.
  assert (protos !! py "prebuilts/bar" = Some Demo.bar) as Hbar
    by apply lookup_singleton_eq.
  assert (get_prebuilt_package_name protos m (py "prebuilts/bar") = Ok (py "Bar"))
    as Hname.
  { unfold get_prebuilt_package_name, prebuilt_name_candidate.
    change (truthy (py "prebuilts/bar")) with true. cbv iota.
    rewrite (getitem_Some _ _ _ Hbar). reflexivity. }
  split; [exact Hname|].
  exact (prebuilt_sbom_reference Demo.build_version Demo.product_mfr
           Demo.unicode_alnum Demo.unicode_lower Demo.VALUE_NONE
           Demo.VALUE_NOASSERTION Demo.HOMEPAGE protos m (py "prebuilts/bar")
           Demo.bar _ (py "Bar") (py "Bar")
           eq_refl eq_refl eq_refl Hbar eq_refl Hname eq_refl).
Defined.

Lemma fragments_missing_key_witness :
  (∅ : gmap (list N) Metadata.t) !! py "external/foo" = None ∧
  demo_fragments ∅ Demo.liba (py "external/foo") = Raise KeyError.
Proof.
  split; [reflexivity|].
  exact (fragments_missing_key Demo.build_version Demo.product_mfr
           Demo.unicode_alnum Demo.unicode_lower Demo.VALUE_NONE
           Demo.VALUE_NOASSERTION Demo.HOMEPAGE ∅ Demo.liba (py "external/foo")
           eq_refl eq_refl).
Defined.

Lemma first_resolution_validates_witness :
  ∃ st',
    report_metadata_file Demo.parse_metadata (py "external/foo") Demo.liba
      demo_initial_state = Ok st' ∧
    ∃ md, Demo.parse_metadata (py "external/foo" ++ py "/METADATA") = Ok md ∧
      metadata_file_protos st' = {[ py "external/foo" := md ]}.
Proof.
  destruct (report_metadata_file Demo.parse_metadata (py "external/foo")
              Demo.liba demo_initial_state) as [st'|e] eqn:H;
    [|by vm_compute in H].
  exists st'. split; [reflexivity|].
  destruct (first_resolution_validates Demo.parse_metadata (py "external/foo")
              Demo.liba demo_initial_state st' eq_refl eq_refl H)
    as (md & Hmd & Hprotos & _).
  exists md. split; [exact Hmd|]. exact Hprotos.
Defined.

Lemma repeated_resolution_is_quiet_witness :
  let st :=
    mkState (doc demo_initial_state) {[ py "external/foo" := Demo.foo ]}
      Report.empty [] in
  ∃ st',
    report_metadata_file Demo.parse_metadata (py "external/foo") Demo.libb st
    = Ok st' ∧
    metadata_file_protos st' = metadata_file_protos st ∧
    Report.ISSUE_UNKNOWN_SECURITY_TAG_TYPE (report st') = [] ∧
    Report.INFO_METADATA_FOUND_FOR_PACKAGE (report st')
    = [py "installed_file: system/lib/libb.so, module_path: external/foo/sub, METADATA file: external/foo/METADATA"].
Proof.
  intros st.
  assert (is_Some (metadata_file_protos st !! py "external/foo")) as Hkey.
  { exists Demo.foo. apply lookup_singleton_eq. }
  assert (∃ st', report_metadata_file Demo.parse_metadata (py "external/foo")
                   Demo.libb st = Ok st') as [st' H].
  { unfold report_metadata_file.
    change (truthy (py "external/foo")) with true. cbv iota.
    destruct Hkey as [md ->]. eexists. reflexivity. }
  exists st'. split; [exact H|].
  destruct (repeated_resolution_is_quiet Demo.parse_metadata
              (py "external/foo") Demo.libb st st' eq_refl Hkey H)
    as (Hprotos & _ & _ & _ & _ & Hunknown & _ & Hfound).
  exact (conj Hprotos (conj Hunknown Hfound)).
Defined.

Lemma missing_file_record_skipped_witness :
  no_metadata Demo.lost = false ∧
  ∃ st', demo_process demo_initial_state Demo.lost = Ok st' ∧
    Report.ISSUE_INSTALLED_FILE_NOT_EXIST (report st')
    = [py "system/lib/lost.so"] ∧
    doc st' = doc demo_initial_state.
Proof.
  split; [reflexivity|].
  destruct (missing_file_record_skipped Demo.build_version Demo.product_mfr
              Demo.product_out_dir Demo.unicode_alnum Demo.unicode_lower
              Demo.sha1_hexdigest Demo.VALUE_NONE Demo.VALUE_NOASSERTION
              Demo.SPDXID_PLATFORM Demo.HOMEPAGE Demo.islink Demo.isfile
              Demo.path_exists Demo.readlink Demo.read_binary
              Demo.parse_metadata demo_initial_state Demo.lost eq_refl eq_refl)
    as (st' & Hst' & Hlist & _ & _ & _ & _ & _ & Hdoc & _).
  exists st'. exact (conj Hst' (conj Hlist Hdoc)).
Defined.

Lemma platform_record_edge_witness :
  ∃ st', demo_process demo_initial_state Demo.init = Ok st' ∧
    ∃ fid, new_file_id Demo.unicode_alnum (installed_file Demo.init) = Ok fid ∧
      Document.relationships (doc st')
      = Document.relationships (doc demo_initial_state)
        ++ [generated_from fid Demo.SPDXID_PLATFORM].
Proof.
  destruct (demo_process demo_initial_state Demo.init) as [st'|e] eqn:H;
    [|by vm_compute in H].
  exists st'. split; [reflexivity|].
  destruct (platform_record_edge Demo.build_version Demo.product_mfr
              Demo.product_out_dir Demo.unicode_alnum Demo.unicode_lower
              Demo.sha1_hexdigest Demo.VALUE_NONE Demo.VALUE_NOASSERTION
              Demo.SPDXID_PLATFORM Demo.HOMEPAGE Demo.islink Demo.isfile
              Demo.path_exists Demo.readlink Demo.read_binary
              Demo.parse_metadata demo_initial_state st' Demo.init
              eq_refl eq_refl H)
    as (_ & _ & _ & _ & _ & Hedge).
  exact Hedge.
Defined.

Lemma rows_partition_witness :
  let rows := [Demo.liba; Demo.stray; Demo.tool; Demo.lost; Demo.init; Demo.libb] in
  ∃ st, demo_scan rows demo_initial_state = Ok st ∧
    Report.ISSUE_NO_METADATA (report st) = [py "system/etc/stray"] ∧
    Report.ISSUE_INSTALLED_FILE_NOT_EXIST (report st) = [py "system/lib/lost.so"] ∧
    length rows
    = (length (Report.ISSUE_NO_METADATA (report st))
       + length (Report.ISSUE_INSTALLED_FILE_NOT_EXIST (report st))
       + length (Document.files (doc st)))%nat.
Proof.
  intros rows.
  destruct (demo_scan rows demo_initial_state) as [st|e] eqn:H;
    [|by vm_compute in H].
  exists st. split; [reflexivity|].
  destruct (rows_partition Demo.build_version Demo.product_mfr
              Demo.product_out_dir Demo.unicode_alnum Demo.unicode_lower
              Demo.sha1_hexdigest Demo.VALUE_NONE Demo.VALUE_NOASSERTION
              Demo.SPDXID_PRODUCT Demo.SPDXID_PLATFORM
              Demo.PACKAGE_NAME_PRODUCT Demo.PACKAGE_NAME_PLATFORM
              Demo.HOMEPAGE Demo.islink Demo.isfile Demo.path_exists
              Demo.readlink Demo.read_binary Demo.parse_metadata rows st H)
    as (H1 & H2 & _ & H4).
  exact (conj H1 (conj H2 H4)).
Defined.

Lemma relationships_resolve_witness :
  let rows := [Demo.liba; Demo.stray; Demo.tool; Demo.lost; Demo.init; Demo.libb] in
  ∃ st, demo_main rows = Ok st ∧
    length (Document.relationships (doc st)) = 6%nat ∧
    Forall (edge_resolved (doc st)) (Document.relationships (doc st)).
Proof.
  intros rows.
  destruct (demo_main rows) as [st|e] eqn:H; [|by vm_compute in H].
  exists st. split; [reflexivity|]. split.
  - vm_compute in H. injection H as <-. reflexivity.
  - exact (relationships_resolve Demo.build_version Demo.product_mfr
             Demo.product_out_dir Demo.unicode_alnum Demo.unicode_lower
             Demo.sha1_hexdigest Demo.VALUE_NONE Demo.VALUE_NOASSERTION
             Demo.SPDXID_PRODUCT Demo.SPDXID_PLATFORM
             Demo.PACKAGE_NAME_PRODUCT Demo.PACKAGE_NAME_PLATFORM
             Demo.HOMEPAGE Demo.islink Demo.isfile Demo.path_exists
             Demo.readlink Demo.read_binary Demo.parse_metadata rows st H).
Defined.

Lemma verification_code_row_order_witness :
  Permutation [Demo.liba; Demo.init] [Demo.init; Demo.liba] ∧
  ∃ st st',
    demo_main [Demo.liba; Demo.init] = Ok st ∧
    demo_main [Demo.init; Demo.liba] = Ok st' ∧
    product_verification_code st = product_verification_code st' ∧
    is_Some (product_verification_code st).
Proof.
  split; [apply perm_swap|].
  destruct (demo_main [Demo.liba; Demo.init]) as [st|e] eqn:H;
    [|by vm_compute in H].
  destruct (demo_main [Demo.init; Demo.liba]) as [st'|e] eqn:H';
    [|by vm_compute in H'].
  exists st, st'. split; [reflexivity|]. split; [reflexivity|].
  exact (verification_code_row_order Demo.build_version Demo.product_mfr
           Demo.product_out_dir Demo.unicode_alnum Demo.unicode_lower
           Demo.sha1_hexdigest Demo.VALUE_NONE Demo.VALUE_NOASSERTION
           Demo.SPDXID_PRODUCT Demo.SPDXID_PLATFORM
           Demo.PACKAGE_NAME_PRODUCT Demo.PACKAGE_NAME_PLATFORM
           Demo.HOMEPAGE Demo.islink Demo.isfile Demo.path_exists
           Demo.readlink Demo.read_binary Demo.parse_metadata
           [Demo.liba; Demo.init] [Demo.init; Demo.liba] st st'
           (perm_swap Demo.init Demo.liba []) H H').
Defined.

Lemma unbundled_first_row_witness :
  Forall (λ m, demo_is_module_row m = false) [Demo.tool] ∧
  demo_is_module_row Demo.module_row = true ∧
  demo_unbundled [Demo.tool; Demo.module_row; Demo.init] =
  Ok (UnbundledDocument.mk
        (Document.mk Demo.build_version
           (py "https://www.google.com/sbom/spdx/android/" ++ Demo.build_version)
           [organization Demo.product_mfr]
           [ Package.mk (py "SPDXRef-PREBUILT-prebuilts-foo-bar")
               (py "prebuilts/foo/bar") (Some Demo.build_version)
               (Some (organization Demo.product_mfr)) None false None [] [] ]
           [ File.mk (py "SPDXRef-system-bin-tool") (py "/system/bin/tool")
               (py "SHA1: 6f75742f") ]
           [ Relationship.mk (py "SPDXRef-system-bin-tool") GENERATED_FROM
               (py "SPDXRef-PREBUILT-prebuilts-foo-bar") ]
           [])
        (Some (py "SPDXRef-system-bin-tool")) (Some Demo.utc_now)).
Proof.
  assert (Forall (λ m, demo_is_module_row m = false) [Demo.tool]) as H
    by (repeat constructor).
  split; [exact H|]. split; [reflexivity|].
  exact (unbundled_first_row Demo.build_version Demo.product_mfr
           Demo.product_out_dir Demo.unicode_alnum Demo.sha1_hexdigest
           Demo.islink Demo.readlink Demo.read_binary Demo.output_file
           Demo.utc_now [Demo.tool] [Demo.init] Demo.module_row
           (py "SPDXRef-PREBUILT-prebuilts-foo-bar")
           (py "SPDXRef-system-bin-tool") (py "SHA1: 6f75742f")
           H eq_refl eq_refl eq_refl eq_refl).
Defined.

Lemma unbundled_no_row_witness :
  Forall (λ m, demo_is_module_row m = false) [Demo.tool; Demo.init] ∧
  demo_unbundled [Demo.tool; Demo.init] =
  Ok (UnbundledDocument.mk
        (Document.mk Demo.build_version
           (py "https://www.google.com/sbom/spdx/android/" ++ Demo.build_version)
           [organization Demo.product_mfr] [] [] [] [])
        None None).
Proof.
  assert (Forall (λ m, demo_is_module_row m = false) [Demo.tool; Demo.init])
    as H by (repeat constructor).
  split; [exact H|].
  exact (unbundled_no_row Demo.build_version Demo.product_mfr
           Demo.product_out_dir Demo.unicode_alnum Demo.sha1_hexdigest
           Demo.islink Demo.readlink Demo.read_binary Demo.output_file
           Demo.utc_now [Demo.tool; Demo.init] H).
Defined.

